(** * The book writer (write.py) and the heading converter (convert.py)

    A shallow embedding of the two scripts of the repository and the
    properties of their specification.

    Conventions of the model.
    - A Python [str] is a Rocq [string]; a character is read as the code
      point of its byte, so the texts covered are those of code points
      below 256.  The character classes below are Python's on that range.
    - The file system is a finite map from file names to file contents,
      with the behaviour of a POSIX host: text written is stored as it
      is, a file read in text mode has its line endings translated, and
      a rename replaces a file that has the new name.
    - The inference endpoint is a function from the requests posted so
      far and the new request to a response: the connection is refused,
      or lines are streamed.  This covers every endpoint, also one that
      answers the same prompt differently later in the run.
    - Console output (print, debug_print, tqdm) and time.sleep are not
      part of the model; the [verbose] flag only steers console output.
    - The run of write.py is modelled from the statement after
      parse_arguments() on: the command line is one that argparse
      accepts (on another one argparse ends the process with status 2,
      and on -h with status 0, before anything else happens).
    - Reading and writing a file succeed: the errors of the codec (a
      text with a lone surrogate cannot be written, bytes that are no
      UTF-8 cannot be read) concern texts outside those modelled here.
    - The functions of json, csv and the limit of [int] are fields of a
      class, so that the properties hold for every decoder; [cpython]
      is the instance used to run the examples. *)

From Stdlib Require Import String Ascii ZArith Lia List Bool Arith.
From stdpp Require Import gmap strings list fin_maps.

(** ** Characters and strings *)

Module Text.

Definition LF : ascii := "010"%char.
Definition CR : ascii := "013"%char.
Definition DQUOTE : ascii := "034"%char.

Definition nl : string := String LF "".

(** A text between double quotes. *)
Definition quoted (s : string) : string := String DQUOTE (s +:+ String DQUOTE "").

Definition code (c : ascii) : nat := nat_of_ascii c.

Definition between (lo hi : nat) (c : ascii) : bool :=
  (lo <=? code c) && (code c <=? hi).

(** [str.isspace] on one character: the Unicode white space below 256. *)
Definition isspace (c : ascii) : bool :=
  between 9 13 c || between 28 32 c || (code c =? 133) || (code c =? 160).

(** The decimal digits (category Nd) below 256: what [\d] matches and
    what [int] accepts. *)
Definition isdecimal (c : ascii) : bool := between 48 57 c.

(** [str.isdigit] on one character: the decimal digits and the
    superscript digits U+00B2, U+00B3 and U+00B9. *)
Definition isdigit (c : ascii) : bool :=
  isdecimal c || (code c =? 178) || (code c =? 179) || (code c =? 185).

Definition is_empty (s : string) : bool :=
  match s with EmptyString => true | _ => false end.

Fixpoint lstrip (s : string) : string :=
  match s with
  | String c s' => if isspace c then lstrip s' else s
  | EmptyString => EmptyString
  end.

Fixpoint rstrip (s : string) : string :=
  match s with
  | String c s' =>
      let r := rstrip s' in
      if isspace c && is_empty r then EmptyString else String c r
  | EmptyString => EmptyString
  end.

(** [s.strip()] *)
Definition strip (s : string) : string := rstrip (lstrip s).

(** ["".join(filter(p, s))] *)
Fixpoint filter_chars (p : ascii -> bool) (s : string) : string :=
  match s with
  | String c s' => if p c then String c (filter_chars p s') else filter_chars p s'
  | EmptyString => EmptyString
  end.

Fixpoint all_chars (p : ascii -> bool) (s : string) : bool :=
  match s with
  | String c s' => p c && all_chars p s'
  | EmptyString => true
  end.

(** ["".join(l)] *)
Fixpoint concat (l : list string) : string :=
  match l with
  | [] => ""
  | s :: l' => s +:+ concat l'
  end.

(** [s.startswith(p)], returning what follows the prefix. *)
Fixpoint strip_prefix (p s : string) : option string :=
  match p with
  | EmptyString => Some s
  | String a p' =>
      match s with
      | String b s' => if Ascii.eqb a b then strip_prefix p' s' else None
      | EmptyString => None
      end
  end.

(** The substring test [p in s]. *)
Fixpoint contains (p s : string) : bool :=
  match strip_prefix p s with
  | Some _ => true
  | None =>
      match s with
      | String _ s' => contains p s'
      | EmptyString => false
      end
  end.

(** Reading a file opened in text mode with the default [newline=None]:
    the line endings CR LF and CR both arrive as LF. *)
Fixpoint universal_newlines (s : string) : string :=
  match s with
  | String c s' =>
      if Ascii.eqb c CR then
        match s' with
        | String d s'' =>
            if Ascii.eqb d LF then universal_newlines s'
            else String LF (universal_newlines s')
        | EmptyString => String LF EmptyString
        end
      else String c (universal_newlines s')
  | EmptyString => EmptyString
  end.

(** The longest prefix of characters of a class, and what follows it. *)
Fixpoint span (p : ascii -> bool) (s : string) : string * string :=
  match s with
  | String c s' =>
      if p c then let (a, b) := span p s' in (String c a, b) else (EmptyString, s)
  | EmptyString => (EmptyString, EmptyString)
  end.

Definition digit_value (c : ascii) : Z := Z.of_nat (code c) - 48.

(** [c * n] *)
Fixpoint repeat_char (c : ascii) (n : nat) : string :=
  match n with
  | O => EmptyString
  | S n' => String c (repeat_char c n')
  end.

Fixpoint decimal_value (acc : Z) (s : string) : Z :=
  match s with
  | String c s' => decimal_value (10 * acc + digit_value c) s'
  | EmptyString => acc
  end.

End Text.

Import Text.

(** ** Exceptions *)

(** The classes of the exceptions raised in the scripts; [OtherError]
    stands for an exception of any other class, by the name of the
    class. *)
Inductive exn : Type :=
| TypeError
| AttributeError
| FileNotFoundError
| CsvError
| KeyError
| ChunkedEncodingError
| RecursionError
| ValueError
| OtherError (class_name : string).

(** ** Values decoded from JSON, with the Python operations used on them *)

Module Json.

#[warnings="-register-all"]
Inductive value : Type :=
| Null
| Bool (b : bool)
| Number (lexeme : string)
| Str (s : string)
| Array (items : list value)
| Object (members : list (string * value)).

(** A decoded object is a [dict] built from the members in order: a
    repeated key keeps the value given last. *)
Fixpoint dict_get (k : string) (members : list (string * value)) : option value :=
  match members with
  | [] => None
  | (k', v) :: members' =>
      match dict_get k members' with
      | Some v' => Some v'
      | None => if String.eqb k k' then Some v else None
      end
  end.

Definition is_str (k : string) (v : value) : bool :=
  match v with Str s => String.eqb k s | _ => false end.

(** What [json.loads] does with a text: it returns a value, it raises
    [json.JSONDecodeError], or it raises an exception of another
    class. *)
Inductive result (A : Type) : Type :=
| Decoded (a : A)
| Invalid
| Failed (e : exn).
Arguments Decoded {A} a.
Arguments Invalid {A}.
Arguments Failed {A} e.

Definition of_option {A : Type} (o : option A) : result A :=
  match o with Some a => Decoded a | None => Invalid end.

(** *** The decoder

    [loads] follows [json.loads] on a [str]: the grammar of the json
    module (with its constants NaN, Infinity and -Infinity), strict
    strings, no text after the value.  A [\u] escape of a character
    above 255 denotes a text outside the texts modelled here and is
    not decoded.

    Two limits of the interpreter are part of it.  The scanner gives an
    integer literal to [int], which raises ValueError when the literal
    has more than [max_digits] digits (0 standing for no limit); and it
    enters a recursive call at every array and object, which raises
    RecursionError when they are nested deeper than [max_depth].  Both
    are met while the text is read from left to right: they are raised
    when the literal or the bracket is reached, whatever follows it,
    and an error of the grammar before it is raised instead. *)

Definition is_ws (c : ascii) : bool :=
  (code c =? 32) || (code c =? 9) || (code c =? 10) || (code c =? 13).

Fixpoint skip_ws (s : string) : string :=
  match s with
  | String c s' => if is_ws c then skip_ws s' else s
  | EmptyString => EmptyString
  end.

Definition hex_value (c : ascii) : option nat :=
  if between 48 57 c then Some (code c - 48)
  else if between 65 70 c then Some (code c - 55)
  else if between 97 102 c then Some (code c - 87)
  else None.

Definition hex4 (a b c d : ascii) : option nat :=
  match hex_value a, hex_value b, hex_value c, hex_value d with
  | Some x, Some y, Some z, Some t => Some (((x * 16 + y) * 16 + z) * 16 + t)
  | _, _, _, _ => None
  end.

Definition escape (c : ascii) : option ascii :=
  match c with
  | "034"%char => Some "034"%char
  | "\"%char => Some "\"%char
  | "/"%char => Some "/"%char
  | "b"%char => Some "008"%char
  | "f"%char => Some "012"%char
  | "n"%char => Some "010"%char
  | "r"%char => Some "013"%char
  | "t"%char => Some "009"%char
  | _ => None
  end.

(** The text of a string after its opening quote, and what follows the
    closing quote. *)
Fixpoint scan_string (s : string) : option (string * string) :=
  match s with
  | EmptyString => None
  | String "034"%char rest => Some (EmptyString, rest)
  | String "\"%char (String "u"%char (String a (String b (String c (String d rest))))) =>
      match hex4 a b c d with
      | Some n =>
          if n <? 256 then
            match scan_string rest with
            | Some (text, rest') => Some (String (ascii_of_nat n) text, rest')
            | None => None
            end
          else None
      | None => None
      end
  | String "\"%char (String e rest) =>
      match escape e with
      | Some c =>
          match scan_string rest with
          | Some (text, rest') => Some (String c text, rest')
          | None => None
          end
      | None => None
      end
  | String "\"%char EmptyString => None
  | String c rest =>
      if code c <? 32 then None
      else
        match scan_string rest with
        | Some (text, rest') => Some (String c text, rest')
        | None => None
        end
  end.

(** A fraction or an exponent is part of the number only when digits
    follow. *)
Definition scan_fraction (s : string) : string * string :=
  match s with
  | String "."%char r =>
      let (ds, r') := span isdecimal r in
      if is_empty ds then (EmptyString, s) else (String "."%char ds, r')
  | _ => (EmptyString, s)
  end.

Definition scan_exponent (s : string) : string * string :=
  match s with
  | String e r =>
      if Ascii.eqb e "e"%char || Ascii.eqb e "E"%char then
        let (sign, r1) :=
          match r with
          | String g r' =>
              if Ascii.eqb g "+"%char || Ascii.eqb g "-"%char
              then (String g EmptyString, r') else (EmptyString, r)
          | EmptyString => (EmptyString, r)
          end in
        let (ds, r2) := span isdecimal r1 in
        if is_empty ds then (EmptyString, s) else (String e (sign +:+ ds), r2)
      else (EmptyString, s)
  | EmptyString => (EmptyString, s)
  end.

Definition scan_number (s : string) : option (string * string) :=
  let (sign, s1) :=
    match s with
    | String "-"%char r => (String "-"%char EmptyString, r)
    | _ => (EmptyString, s)
    end in
  match s1 with
  | String c r =>
      let int_part :=
        if Ascii.eqb c "0"%char then Some (String c EmptyString, r)
        else if isdecimal c then let (ds, r') := span isdecimal r in Some (String c ds, r')
        else None in
      match int_part with
      | Some (digits, r1) =>
          let (frac, r2) := scan_fraction r1 in
          let (exp, r3) := scan_exponent r2 in
          Some (sign +:+ digits +:+ frac +:+ exp, r3)
      | None => None
      end
  | EmptyString => None
  end.

Definition scan_constant (s : string) : option (value * string) :=
  match strip_prefix "null" s with
  | Some r => Some (Null, r)
  | None =>
  match strip_prefix "true" s with
  | Some r => Some (Bool true, r)
  | None =>
  match strip_prefix "false" s with
  | Some r => Some (Bool false, r)
  | None =>
  match strip_prefix "NaN" s with
  | Some r => Some (Number "NaN", r)
  | None =>
  match strip_prefix "Infinity" s with
  | Some r => Some (Number "Infinity", r)
  | None =>
  match strip_prefix "-Infinity" s with
  | Some r => Some (Number "-Infinity", r)
  | None => None
  end end end end end end.

(** The number read, unless it is an integer literal that [int]
    refuses. *)
Definition check_number (max_digits : N) (lexeme rest : string)
  : result (value * string) :=
  if all_chars (fun c => isdecimal c || Ascii.eqb c "-"%char) lexeme
     && (0 <? max_digits)%N
     && (max_digits <? N.of_nat (String.length (filter_chars isdecimal lexeme)))%N
  then Failed ValueError
  else Decoded (Number lexeme, rest).

Section Scanner.
Variable max_digits : N.

(** [scan_value] reads one value at the start of the text;
    [scan_members] reads the members of an object from a key on, and
    [scan_items] the items of an array from an item on, up to the
    closing bracket.  Two calls in a row read at least one character, so
    fuel above twice the length of the text is never used up.  [depth]
    is the number of arrays and objects that may still be entered. *)
Fixpoint scan_value (fuel depth : nat) (s : string) : result (value * string) :=
  match fuel with
  | O => Invalid
  | S fuel' =>
      match s with
      | String "034"%char r =>
          match scan_string r with
          | Some (text, r') => Decoded (Str text, r')
          | None => Invalid
          end
      | String "{"%char r =>
          match depth with
          | O => Failed RecursionError
          | S depth' =>
              match skip_ws r with
              | String "}"%char r' => Decoded (Object [], r')
              | r' => scan_members fuel' depth' r' []
              end
          end
      | String "["%char r =>
          match depth with
          | O => Failed RecursionError
          | S depth' =>
              match skip_ws r with
              | String "]"%char r' => Decoded (Array [], r')
              | r' => scan_items fuel' depth' r' []
              end
          end
      | _ =>
          match scan_constant s with
          | Some found => Decoded found
          | None =>
              match scan_number s with
              | Some (lexeme, r) => check_number max_digits lexeme r
              | None => Invalid
              end
          end
      end
  end
with scan_members (fuel depth : nat) (s : string) (acc : list (string * value))
  : result (value * string) :=
  match fuel with
  | O => Invalid
  | S fuel' =>
      match s with
      | String "034"%char r =>
          match scan_string r with
          | Some (key, r1) =>
              match skip_ws r1 with
              | String ":"%char r2 =>
                  match scan_value fuel' depth (skip_ws r2) with
                  | Decoded (v, r3) =>
                      match skip_ws r3 with
                      | String "}"%char r4 => Decoded (Object (acc ++ [(key, v)]), r4)
                      | String ","%char r4 =>
                          scan_members fuel' depth (skip_ws r4) (acc ++ [(key, v)])
                      | _ => Invalid
                      end
                  | Invalid => Invalid
                  | Failed e => Failed e
                  end
              | _ => Invalid
              end
          | None => Invalid
          end
      | _ => Invalid
      end
  end
with scan_items (fuel depth : nat) (s : string) (acc : list value)
  : result (value * string) :=
  match fuel with
  | O => Invalid
  | S fuel' =>
      match scan_value fuel' depth s with
      | Decoded (v, r) =>
          match skip_ws r with
          | String "]"%char r' => Decoded (Array (acc ++ [v]), r')
          | String ","%char r' => scan_items fuel' depth (skip_ws r') (acc ++ [v])
          | _ => Invalid
          end
      | Invalid => Invalid
      | Failed e => Failed e
      end
  end.

End Scanner.

Definition loads (max_depth : nat) (max_digits : N) (s : string) : result value :=
  match scan_value max_digits (2 * String.length s + 2) max_depth (skip_ws s) with
  | Decoded (v, rest) => if is_empty (skip_ws rest) then Decoded v else Invalid
  | Invalid => Invalid
  | Failed e => Failed e
  end.

End Json.

(** ** Outcomes of a computation *)

(** A computation returns, leaves through [sys.exit], or dies of an
    exception nothing catches. *)
Inductive outcome (A : Type) : Type :=
| Ok (a : A)
| Exit (status : Z)
| Raise (e : exn).
Arguments Ok {A} a.
Arguments Exit {A} status.
Arguments Raise {A} e.

(** The status the process ends with: falling off the end of the script
    is status 0, an uncaught exception is status 1. *)
Definition exit_status {A : Type} (o : outcome A) : Z :=
  match o with
  | Ok _ => 0
  | Exit status => status
  | Raise _ => 1
  end.

Definition obind {A B : Type} (m : outcome A) (k : A -> outcome B) : outcome B :=
  match m with
  | Ok a => k a
  | Exit status => Exit status
  | Raise e => Raise e
  end.

(** ** The library functions the scripts call

    [json_loads line] is what [json.loads(line)] does: it returns a
    value, raises [json.JSONDecodeError], or raises an exception of
    another class, as it does at the limits of the interpreter
    (RecursionError for arrays and objects nested too deep, ValueError
    for an integer literal with more digits than [int] accepts).  The
    depth at which the scanner gives up depends on the depth of the
    Python stack at the call; one decoder stands for all the calls of a
    run.
    [csv_reader text] is the list of the rows
    [csv.reader] yields over a file holding [text], [None] standing for
    [csv.Error]; [int_max_str_digits] is the interpreter's limit on the
    length of a decimal literal given to [int], which is 0 (no limit)
    or at least 640. *)
Class Library : Type := {
  json_loads : string -> Json.result Json.value;
  csv_reader : string -> option (list (list string));
  int_max_str_digits : N;
  int_max_str_digits_range :
    ((int_max_str_digits =? 0) || (640 <=? int_max_str_digits))%N = true
}.

(** ** The reader of the csv module, default dialect

    The delimiter is the comma and the quote character the double
    quote, a doubled quote inside a quoted field stands for one, the
    dialect is not strict, and the size of a field has the default
    limit. *)

Module Csv.

Inductive state : Type :=
| START_RECORD
| START_FIELD
| IN_FIELD
| IN_QUOTED_FIELD
| QUOTE_IN_QUOTED_FIELD
| EAT_CRNL.

Record parser : Type := mkParser {
  st : state;
  field : string;
  field_len : N;
  fields : list string
}.

Definition field_limit : N := 131072%N.

Definition fresh : parser := mkParser START_RECORD "" 0 [].

Definition set_state (s : state) (p : parser) : parser :=
  mkParser s (field p) (field_len p) (fields p).

Definition add_char (c : ascii) (p : parser) : option parser :=
  if (field_limit <=? field_len p)%N then None
  else Some (mkParser (st p) (field p +:+ String c "") (N.succ (field_len p)) (fields p)).

Definition save_field (p : parser) : parser :=
  mkParser (st p) "" 0 (fields p ++ [field p]).

Definition is_eol_char (c : ascii) : bool := Ascii.eqb c LF || Ascii.eqb c CR.

Definition end_of_field (c : option ascii) : bool :=
  match c with
  | Some c => is_eol_char c
  | None => true
  end.

Definition after_eol (c : option ascii) : state :=
  match c with
  | Some _ => EAT_CRNL
  | None => START_RECORD
  end.

Definition start_field (c : option ascii) (p : parser) : option parser :=
  if end_of_field c then Some (set_state (after_eol c) (save_field p))
  else
    match c with
    | Some c =>
        if Ascii.eqb c DQUOTE then Some (set_state IN_QUOTED_FIELD p)
        else if Ascii.eqb c ","%char then Some (set_state START_FIELD (save_field p))
        else option_map (set_state IN_FIELD) (add_char c p)
    | None => Some p
    end.

(** One step of the parser; [None] as a character is the end of a
    line, [None] as a result is [csv.Error]. *)
Definition process_char (c : option ascii) (p : parser) : option parser :=
  match st p with
  | START_RECORD =>
      match c with
      | None => Some p
      | Some c' =>
          if is_eol_char c' then Some (set_state EAT_CRNL p)
          else start_field c p
      end
  | START_FIELD => start_field c p
  | IN_FIELD =>
      if end_of_field c then Some (set_state (after_eol c) (save_field p))
      else
        match c with
        | Some c =>
            if Ascii.eqb c ","%char then Some (set_state START_FIELD (save_field p))
            else add_char c p
        | None => Some p
        end
  | IN_QUOTED_FIELD =>
      match c with
      | None => Some p
      | Some c =>
          if Ascii.eqb c DQUOTE then Some (set_state QUOTE_IN_QUOTED_FIELD p)
          else add_char c p
      end
  | QUOTE_IN_QUOTED_FIELD =>
      match c with
      | Some c' =>
          if Ascii.eqb c' DQUOTE then option_map (set_state IN_QUOTED_FIELD) (add_char c' p)
          else if Ascii.eqb c' ","%char then Some (set_state START_FIELD (save_field p))
          else if is_eol_char c' then Some (set_state EAT_CRNL (save_field p))
          else option_map (set_state IN_FIELD) (add_char c' p)
      | None => Some (set_state START_RECORD (save_field p))
      end
  | EAT_CRNL =>
      match c with
      | None => Some (set_state START_RECORD p)
      | Some c => if is_eol_char c then Some p else None
      end
  end.

(** The characters of a line, then the end of the line. *)
Fixpoint process_line (line : string) (p : parser) : option parser :=
  match line with
  | String c line' =>
      match process_char (Some c) p with
      | Some p' => process_line line' p'
      | None => None
      end
  | EmptyString => process_char None p
  end.

(** The lines a text file yields when iterated: each ends with its
    line feed, but for a last line without one. *)
Fixpoint lines_of (current : string) (s : string) : list string :=
  match s with
  | String c s' =>
      if Ascii.eqb c LF then (current +:+ String c "") :: lines_of "" s'
      else lines_of (current +:+ String c "") s'
  | EmptyString => if is_empty current then [] else [current]
  end.

Definition in_quoted_field (p : parser) : bool :=
  match st p with IN_QUOTED_FIELD => true | _ => false end.

Definition at_start_record (p : parser) : bool :=
  match st p with START_RECORD => true | _ => false end.

(** The rows: a row is complete when a line ends with the parser back
    at the start of a record; when the lines run out inside a row, what
    was read is the last row. *)
Fixpoint rows_of (lines : list string) (p : parser) : option (list (list string)) :=
  match lines with
  | [] =>
      if negb (field_len p =? 0)%N || in_quoted_field p
      then Some [fields (save_field p)]
      else Some []
  | line :: lines' =>
      match process_line line p with
      | Some p' =>
          if at_start_record p'
          then option_map (cons (fields p')) (rows_of lines' fresh)
          else rows_of lines' p'
      | None => None
      end
  end.

Definition reader (text : string) : option (list (list string)) :=
  rows_of (lines_of "" text) fresh.

End Csv.

(** The library as CPython 3.11 provides it, with its default limits:
    4300 digits for [int], and a recursion limit of 1000, which leaves
    room for 992 nested arrays and objects when [json.loads] is called
    in [call_ollama_api], itself called from a function that [main]
    calls (one more when [main] calls it). *)
Definition cpython : Library :=
  {| json_loads := Json.loads 992 4300;
     csv_reader := Csv.reader;
     int_max_str_digits := 4300;
     int_max_str_digits_range := eq_refl |}.

(** ** The world a run takes place in *)

(** What the endpoint does with one request: the connection or the
    status check fails, or it streams lines, and the stream either ends
    or breaks after them. *)
Inductive response : Type :=
| Refused
| Stream (lines : list string) (broken : bool).

(** [fs] is the directory the scripts run in; [now] is the local time
    at the start of the run, as [strftime("%Y%m%d_%H%M%S")] prints it;
    [endpoint history prompt] is the answer to [prompt] when the prompts
    of [history] were posted before it; [sent] is that history. *)
Record World : Type := mkWorld {
  fs : gmap string string;
  now : string;
  endpoint : list string -> string -> response;
  sent : list string
}.

Definition M (A : Type) : Type := World -> outcome A * World.

Definition ret {A : Type} (a : A) : M A := fun w => (Ok a, w).

Definition bind {A B : Type} (m : M A) (k : A -> M B) : M B :=
  fun w =>
    match m w with
    | (Ok a, w') => k a w'
    | (Exit status, w') => (Exit status, w')
    | (Raise e, w') => (Raise e, w')
    end.

Definition sys_exit {A : Type} (status : Z) : M A := fun w => (Exit status, w).

Definition raise {A : Type} (e : exn) : M A := fun w => (Raise e, w).

Definition lift {A : Type} (o : outcome A) : M A := fun w => (o, w).

Notation "x <- m ;; k" := (bind m (fun x => k))
  (at level 100, m at next level, right associativity).
Notation "m ;;; k" := (bind m (fun _ => k))
  (at level 100, right associativity).

Definition with_fs (f : gmap string string) (w : World) : World :=
  mkWorld f (now w) (endpoint w) (sent w).

(** [os.path.exists(path)] *)
Definition path_exists (path : string) : M bool :=
  fun w => (Ok (bool_decide (is_Some (fs w !! path))), w).

(** [open(path, "r").read()], [None] standing for [FileNotFoundError]. *)
Definition read_text (path : string) : M (option string) :=
  fun w => (Ok (universal_newlines <$> fs w !! path), w).

(** [open(path, "r").read()] outside any [try]. *)
Definition read_or_raise (path : string) : M string :=
  o <- read_text path ;;
  match o with
  | Some text => ret text
  | None => raise FileNotFoundError
  end.

(** [open(path, "a").write(data)]: the file is created when absent. *)
Definition append_text (path data : string) : M unit :=
  fun w => (Ok tt, with_fs (<[path := default "" (fs w !! path) +:+ data]> (fs w)) w).

(** [open(path, "w").write(data)] *)
Definition write_text (path data : string) : M unit :=
  fun w => (Ok tt, with_fs (<[path := data]> (fs w)) w).

(** [os.rename(src, dst)] on a file that exists; a file at [dst] is
    replaced. *)
Definition rename (src dst : string) : M unit :=
  fun w =>
    match fs w !! src with
    | Some data => (Ok tt, with_fs (<[dst := data]> (delete src (fs w))) w)
    | None => (Raise FileNotFoundError, w)
    end.

(** [requests.post(OLLAMA_URL, json=payload, stream=True)] *)
Definition post (prompt : string) : M response :=
  fun w =>
    (Ok (endpoint w (sent w) prompt),
     mkWorld (fs w) (now w) (endpoint w) (sent w ++ [prompt])).

(** ** write.py *)

Module Write.

Section WithLibrary.
Context `{Library}.

(** [OLLAMA_URL] and [MODEL_NAME] are constants of every request; a
    request is identified by its prompt. *)

(** ["response" in data] *)
Definition has_response (data : Json.value) : outcome bool :=
  match data with
  | Json.Object members => Ok (bool_decide (is_Some (Json.dict_get "response" members)))
  | Json.Str s => Ok (contains "response" s)
  | Json.Array items => Ok (existsb (Json.is_str "response") items)
  | _ => Raise TypeError
  end.

(** [data["response"]] *)
Definition get_response (data : Json.value) : outcome Json.value :=
  match data with
  | Json.Object members =>
      match Json.dict_get "response" members with
      | Some v => Ok v
      | None => Raise KeyError
      end
  | _ => Raise TypeError
  end.

(** [generated_text += v] *)
Definition add_text (generated_text : string) (v : Json.value) : outcome string :=
  match v with
  | Json.Str s => Ok (generated_text +:+ s)
  | _ => Raise TypeError
  end.

(** [data.get("done", False) is True] *)
Definition done_is_True (data : Json.value) : outcome bool :=
  match data with
  | Json.Object members =>
      match Json.dict_get "done" members with
      | Some (Json.Bool true) => Ok true
      | _ => Ok false
      end
  | _ => Raise AttributeError
  end.

(** The body of the [try] of the stream loop once [json.loads]
    succeeded: the text so far with the fragment's text added, and
    whether the loop breaks. *)
Definition take_fragment (data : Json.value) (generated_text : string)
  : outcome (string * bool) :=
  obind (has_response data) (fun present =>
  obind (if present
         then obind (get_response data) (add_text generated_text)
         else Ok generated_text) (fun generated_text' =>
  obind (done_is_True data) (fun done =>
  Ok (generated_text', done)))).

(** The loop over [response.iter_lines(decode_unicode=True)]: the
    [except] clause catches [json.JSONDecodeError] only, so another
    exception of [json.loads] leaves the loop like one of the body. *)
Fixpoint read_stream (lines : list string) (broken : bool) (generated_text : string)
  : outcome string :=
  match lines with
  | [] => if broken then Raise ChunkedEncodingError else Ok generated_text
  | line :: lines' =>
      if is_empty line then read_stream lines' broken generated_text
      else
        match json_loads line with
        | Json.Invalid => read_stream lines' broken generated_text
        | Json.Failed e => Raise e
        | Json.Decoded data =>
            obind (take_fragment data generated_text) (fun '(generated_text', done) =>
            if done then Ok generated_text'
            else read_stream lines' broken generated_text')
        end
  end.

Definition call_ollama_api (prompt : string) : M string :=
  response <- post prompt ;;
  match response with
  | Refused => sys_exit 1
  | Stream lines broken =>
      generated_text <- lift (read_stream lines broken "") ;;
      ret (strip generated_text)
  end.

Definition chapter_prompt
  (chapter_number chapter_title chapter_outline current_book_text book_summary : string)
  : string :=
  "Overall Book Summary:" +:+ nl +:+ book_summary +:+ nl +:+ nl +:+
  "Story so far:" +:+ nl +:+ current_book_text +:+ nl +:+ nl +:+
  "This chapter is described as:" +:+ nl +:+ chapter_outline +:+ nl +:+ nl +:+
  "Please write Chapter " +:+ chapter_number +:+ " titled '" +:+ chapter_title +:+ "' " +:+
  "so that it follows naturally from the story so far." +:+ nl +:+ nl +:+
  "Begin the chapter now:".

(** The heading written in front of a chapter. *)
Definition chapter_header (chapter_number chapter_title : string) : string :=
  nl +:+ nl +:+ "### Chapter " +:+ chapter_number +:+ ": " +:+ chapter_title +:+ nl +:+ nl.

(** What one call of [write_chapter_to_book] adds to book.txt. *)
Definition chapter_block (chapter_number chapter_title chapter_text : string) : string :=
  chapter_header chapter_number chapter_title +:+ (chapter_text +:+ nl).

Definition write_chapter_to_book
  (chapter_number chapter_title chapter_outline current_book_text book_summary : string)
  : M unit :=
  chapter_text <- call_ollama_api
    (chapter_prompt chapter_number chapter_title chapter_outline
       current_book_text book_summary) ;;
  append_text "book.txt" (chapter_header chapter_number chapter_title) ;;;
  append_text "book.txt" (chapter_text +:+ nl).

(** [int(s)] for a text [s] made of [str.isdigit] characters, the only
    texts it is given here; [None] stands for [ValueError]. *)
Definition py_int (s : string) : option Z :=
  if is_empty s then None
  else if negb (all_chars isdecimal s) then None
  else if ((0 <? int_max_str_digits) && (int_max_str_digits <? N.of_nat (String.length s)))%N
       then None
  else Some (decimal_value 0 s).

Definition count_prompt (text : string) : string :=
  "You are given the following text. Please return only the number " +:+
  "of words in the text (as an integer) without any additional commentary." +:+ nl +:+ nl +:+
  "Text:" +:+ nl +:+ text +:+ nl +:+ nl +:+ "Number of words:".

Definition count_words_with_ollama (text : string) : M Z :=
  generated_response <- call_ollama_api (count_prompt text) ;;
  ret (match py_int (filter_chars isdigit generated_response) with
       | Some word_count => word_count
       | None => 0%Z
       end).

Definition summary_prompt (book_text : string) : string :=
  "Please provide a concise summary of the following story:" +:+ nl +:+ nl +:+
  book_text +:+ nl +:+ nl +:+ "Summary:".

Definition summarize_book (book_text : string) : M string :=
  call_ollama_api (summary_prompt book_text).

Definition acknowledge_prompt (book_text : string) : string :=
  "Here is the progress so far:" +:+ nl +:+ nl +:+
  book_text +:+ nl +:+ nl +:+
  "Please read and acknowledge the story so far. " +:+
  "When you're done, just say 'Understood.'".

(** "If book.txt exists, archive it instead of deleting." *)
Definition archive_name (timestamp : string) : string :=
  "book_" +:+ timestamp +:+ ".txt".

Definition archive_book : M unit :=
  found <- path_exists "book.txt" ;;
  if found then
    timestamp <- (fun w => (Ok (now w), w)) ;;
    rename "book.txt" (archive_name timestamp)
  else ret tt.

(** "1) Load the overall book summary from input.txt" *)
Definition load_summary : M string :=
  o <- read_text "input.txt" ;;
  match o with
  | Some text => ret (strip text)
  | None => sys_exit 1
  end.

Definition chapter : Type := string * string * string.

(** The rows kept by the loop over the reader, stripped. *)
Fixpoint chapters_of_rows (rows : list (list string)) : list chapter :=
  match rows with
  | [] => []
  | row :: rows' =>
      match row with
      | c0 :: c1 :: c2 :: _ => (strip c0, strip c1, strip c2) :: chapters_of_rows rows'
      | _ => chapters_of_rows rows'
      end
  end.

(** "2) Load the outline from outline.txt (CSV)" *)
Definition load_outline : M (list chapter) :=
  o <- read_text "outline.txt" ;;
  match o with
  | Some text =>
      match csv_reader text with
      | Some rows => ret (chapters_of_rows rows)
      | None => raise CsvError
      end
  | None => sys_exit 1
  end.

(** One turn of the loop over [chapters]; the result is the new value
    of [chapters_written]. *)
Definition write_one (book_summary : string) (total_chapters : nat)
  (chapters_written : nat) (ch : chapter) : M nat :=
  let '(chapter_number, chapter_title, chapter_summary) := ch in
  found <- path_exists "book.txt" ;;
  book_so_far <- (if found then read_or_raise "book.txt" else ret "") ;;
  write_chapter_to_book chapter_number chapter_title chapter_summary
    book_so_far book_summary ;;;
  let chapters_written := S chapters_written in
  book_text_after_new_chapter <- read_or_raise "book.txt" ;;
  word_count <- count_words_with_ollama book_text_after_new_chapter ;;
  (if chapters_written <? total_chapters then
     acknowledgement <- call_ollama_api (acknowledge_prompt book_text_after_new_chapter) ;;
     ret tt
   else ret tt) ;;;
  ret chapters_written.

Fixpoint write_chapters (book_summary : string) (total_chapters : nat)
  (chapters_written : nat) (chapters : list chapter) : M nat :=
  match chapters with
  | [] => ret chapters_written
  | ch :: chapters' =>
      chapters_written' <- write_one book_summary total_chapters chapters_written ch ;;
      write_chapters book_summary total_chapters chapters_written' chapters'
  end.

(** [main], from the statement after [args = parse_arguments()] on. *)
Definition main : M unit :=
  archive_book ;;;
  book_summary <- load_summary ;;
  if is_empty book_summary then sys_exit 0
  else
    chapters <- load_outline ;;
    if bool_decide (chapters = []) then sys_exit 0
    else
      let total_chapters := length chapters in
      write_chapters book_summary total_chapters 0 chapters ;;;
      final_book_text <- read_or_raise "book.txt" ;;
      final_summary <- summarize_book final_book_text ;;
      ret tt.

End WithLibrary.

End Write.

(** ** The part of [re] that convert.py uses *)

Module Regex.

(** Literal text, one or more characters of a class (greedy), a
    numbered capturing group, and concatenation. *)
Inductive regex : Type :=
| Lit (s : string)
| Plus (cls : ascii -> bool)
| Group (i : nat) (r : regex)
| Seq (r1 r2 : regex).

(** The groups matched so far, the latest first. *)
Definition captures : Type := list (nat * string).

Fixpoint group (i : nat) (caps : captures) : string :=
  match caps with
  | [] => ""
  | (j, text) :: caps' => if i =? j then text else group i caps'
  end.

Fixpoint take_chars (n : nat) (s : string) : string :=
  match n, s with
  | S n', String c s' => String c (take_chars n' s')
  | _, _ => EmptyString
  end.

(** The text between the start [s] of a match and what is left [rest]. *)
Definition consumed (s rest : string) : string :=
  take_chars (String.length s - String.length rest) s.

Section Matcher.
Context {R : Type}.

(** Zero or more characters of [cls], the longest run first; [k] is
    what has to match after it, and the run backs off one character at
    a time while [k] fails. *)
Fixpoint star (cls : ascii -> bool) (k : string -> option R) (s : string) : option R :=
  match s with
  | String c s' =>
      if cls c then
        match star cls k s' with
        | Some r => Some r
        | None => k s
        end
      else k s
  | EmptyString => k s
  end.

(** Backtracking matcher in continuation-passing style: [run r s caps k]
    matches [r] at the start of [s] and hands the rest and the groups
    to [k]. *)
Fixpoint run (r : regex) (s : string) (caps : captures)
  (k : string -> captures -> option R) : option R :=
  match r with
  | Lit l =>
      match strip_prefix l s with
      | Some rest => k rest caps
      | None => None
      end
  | Plus cls =>
      match s with
      | String c s' => if cls c then star cls (fun rest => k rest caps) s' else None
      | EmptyString => None
      end
  | Group i r' => run r' s caps (fun rest caps' => k rest ((i, consumed s rest) :: caps'))
  | Seq r1 r2 => run r1 s caps (fun rest caps' => run r2 rest caps' k)
  end.

End Matcher.

(** A match of [r] at the start of [s]: the groups and what follows the
    match.  With [must_advance] an empty match is not accepted. *)
Definition match_at (must_advance : bool) (r : regex) (s : string)
  : option (captures * string) :=
  run r s [] (fun rest caps =>
    if must_advance && (String.length rest =? String.length s) then None
    else Some (caps, rest)).

(** A replacement template: text and references to groups. *)
Inductive piece : Type :=
| Text (s : string)
| Backref (i : nat).

Fixpoint expand (template : list piece) (caps : captures) : string :=
  match template with
  | [] => ""
  | Text s :: template' => s +:+ expand template' caps
  | Backref i :: template' => group i caps +:+ expand template' caps
  end.

(** The loop of [re.sub]: search from the current position, copy what
    is skipped, put the expanded template in place of the match, go on
    after it; after an empty match the next one has to advance. *)
Fixpoint sub_loop (fuel : nat) (pattern : regex) (repl : list piece)
  (must_advance : bool) (s : string) : string :=
  match fuel with
  | O => s
  | S fuel' =>
      match match_at must_advance pattern s with
      | Some (caps, rest) =>
          expand repl caps +:+
          sub_loop fuel' pattern repl (String.length rest =? String.length s) rest
      | None =>
          match s with
          | String c s' => String c (sub_loop fuel' pattern repl false s')
          | EmptyString => EmptyString
          end
      end
  end.

(** [re.sub(pattern, repl, s)] *)
Definition re_sub (pattern : regex) (repl : list piece) (s : string) : string :=
  sub_loop (2 * String.length s + 2) pattern repl false s.

End Regex.

(** ** convert.py *)

Module Convert.

Import Regex.

Definition input_file : string := "book.txt".
Definition output_file : string := "output.txt".

Definition not_newline (c : ascii) : bool := negb (Ascii.eqb c LF).

(** [r'### Chapter (\d+): (.+)'] *)
Definition pattern : regex :=
  Seq (Lit "### Chapter ")
 (Seq (Group 1 (Plus isdecimal))
 (Seq (Lit ": ")
      (Group 2 (Plus not_newline)))).

(** [r'\\chapter{\2}'] *)
Definition replacement : list piece :=
  [Text "\chapter{"; Backref 2; Text "}"].

(** [re.sub(pattern, replacement, content)] *)
Definition substitute (content : string) : string :=
  re_sub pattern replacement content.

Definition convert : M unit :=
  content <- read_or_raise input_file ;;
  let latex_content := substitute content in
  write_text output_file latex_content.

End Convert.

(** ** The fragments of a stream, as the specification describes them *)

Module Fragment.
(** An object whose "response", when present, is a text and whose
    "done", when present, is a boolean. *)
Definition well_formed (data : Json.value) : Prop :=
  exists members, data = Json.Object members /\
    (forall v, Json.dict_get "response" members = Some v -> exists s, v = Json.Str s) /\
    (forall v, Json.dict_get "done" members = Some v -> exists b, v = Json.Bool b).

(** The text a fragment carries. *)
Definition text (data : Json.value) : string :=
  match data with
  | Json.Object members =>
      match Json.dict_get "response" members with
      | Some (Json.Str s) => s
      | _ => ""
      end
  | _ => ""
  end.

(** Whether a fragment is the terminal one. *)
Definition done (data : Json.value) : bool :=
  match data with
  | Json.Object members =>
      match Json.dict_get "done" members with
      | Some (Json.Bool true) => true
      | _ => false
      end
  | _ => false
  end.

(** The fragments up to and including the first terminal one. *)
Fixpoint upto_done (fragments : list Json.value) : list Json.value :=
  match fragments with
  | [] => []
  | data :: fragments' => if done data then [data] else data :: upto_done fragments'
  end.
Section WithLibrary.
Context `{Library}.

(** What a line of the stream decodes to: nothing for an empty line and
    for a line at which the decoder raises an exception. *)
Definition decoded (line : string) : option Json.value :=
  if is_empty line then None
  else match json_loads line with Json.Decoded data => Some data | _ => None end.

(** The exception other than [json.JSONDecodeError] that the decoder
    raises at a line, when it raises one. *)
Definition failure (line : string) : option exn :=
  if is_empty line then None
  else match json_loads line with Json.Failed e => Some e | _ => None end.

(** The fragments of a stream, the lines that do not decode left out. *)
Definition valid_fragments (lines : list string) : list Json.value :=
  omap decoded lines.

End WithLibrary.

End Fragment.

(** ** The headings of convert.py, as the specification describes them *)

Module Heading.
Import Regex Convert.

(** The pattern read in words: the text [### Chapter ], the longest
    run of digits, not empty, a colon and a blank, and the rest of the
    line, not empty.  The result is the number, the title and what
    follows the line. *)
Definition parse (s : string) : option (string * string * string) :=
  match strip_prefix "### Chapter " s with
  | Some r1 =>
      let (number, r2) := span isdecimal r1 in
      if is_empty number then None
      else
        match strip_prefix ": " r2 with
        | Some r3 =>
            let (title, r4) := span not_newline r3 in
            if is_empty title then None else Some (number, title, r4)
        | None => None
        end
  | None => None
  end.

(** A heading as it stands in the text. *)
Definition line (number title : string) : string :=
  "### Chapter " +:+ number +:+ ": " +:+ title.

(** The LaTeX command for a chapter. *)
Definition command (title : string) : string := "\chapter{" +:+ title +:+ "}".

(** Text that ends with a line feed. *)
Definition ends_nl (s : string) : Prop := exists x, s = x +:+ nl.

(** Nothing, or text that ends with a line feed. *)
Definition line_start (pre : string) : Prop :=
  pre = "" \/ ends_nl pre.

(** Nothing, or text that starts with a line feed. *)
Definition line_end (post : string) : Prop :=
  post = "" \/ exists x, post = nl +:+ x.

End Heading.
(** ** The run of write.py, as the specification describes it *)

Module Run.
Section WithLibrary.
Context `{Library}.

(** The transcript: what book.txt holds, nothing when it is absent. *)
Definition book (w : World) : string := default "" (fs w !! "book.txt").

(** The world after a request was posted. *)
Definition posted (prompt : string) (w : World) : World :=
  mkWorld (fs w) (now w) (endpoint w) (sent w ++ [prompt]).

(** What the client makes of the endpoint's answer to [prompt] after
    [history]. *)
Definition answer (w : World) (history : list string) (prompt : string) : outcome string :=
  match endpoint w history prompt with
  | Refused => Exit 1
  | Stream lines broken =>
      obind (Write.read_stream lines broken "") (fun text => Ok (strip text))
  end.

(** The world after a transcript found at the start was archived. *)
Definition archived (w : World) : World :=
  match fs w !! "book.txt" with
  | Some old => with_fs (<[Write.archive_name (now w) := old]> (delete "book.txt" (fs w))) w
  | None => w
  end.

(** The world after [data] was appended to book.txt. *)
Definition appended (data : string) (w : World) : World :=
  with_fs (<["book.txt" := book w +:+ data]> (fs w)) w.

(** Going on with [k] after an outcome reached in world [w]. *)
Definition and_then {A B : Type} (o : outcome A) (w : World)
  (k : A -> outcome B * World) : outcome B * World :=
  match o with
  | Ok a => k a
  | Exit status => (Exit status, w)
  | Raise e => (Raise e, w)
  end.

Definition block_of (entry : Write.chapter * string) : string :=
  let '((chapter_number, chapter_title, _), body) := entry in
  Write.chapter_block chapter_number chapter_title body.

(** The text of a list of chapters with their bodies. *)
Definition blocks (entries : list (Write.chapter * string)) : string :=
  Text.concat (map block_of entries).

(** Every body is the client's reading of the endpoint's answer to the
    prompt of its chapter, a prompt of the log of [w], the story so far
    being the transcript [story] followed by the blocks before it. *)
Fixpoint generated (w : World) (book_summary story : string)
  (entries : list (Write.chapter * string)) : Prop :=
  match entries with
  | [] => True
  | ((chapter_number, chapter_title, chapter_outline), body) :: entries' =>
      let prompt :=
        Write.chapter_prompt chapter_number chapter_title chapter_outline
          (universal_newlines story) book_summary in
      (exists history later,
         sent w = history ++ prompt :: later /\ answer w history prompt = Ok body)
      /\ generated w book_summary
           (story +:+ Write.chapter_block chapter_number chapter_title body) entries'
  end.

(** The chapter a row with three fields or more stands for. *)
Definition chapter_of_row (row : list string) : Write.chapter :=
  (strip (nth 0 row ""), strip (nth 1 row ""), strip (nth 2 row "")).

(** The block of a row and its body, written out. *)
Definition row_block (row : list string) (body : string) : string :=
  nl +:+ nl +:+ "### Chapter " +:+ strip (nth 0 row "") +:+ ": " +:+
  strip (nth 1 row "") +:+ nl +:+ nl +:+ body +:+ nl.

(** The file system after the chapters of [entries] were written. *)
Definition wrote (entries : list (Write.chapter * string)) (w : World)
  : gmap string string :=
  match entries with
  | [] => fs w
  | _ => <["book.txt" := book w +:+ blocks entries]> (fs w)
  end.

End WithLibrary.
End Run.

(** ** The log of requests *)

Module Log.
Section WithLibrary.
Context `{Library}.

(** [out] is the failure of [o], when [o] is one. *)
Definition fails_as {A B : Type} (o : outcome A) (out : outcome B) : Prop :=
  match o with
  | Ok _ => True
  | Exit status => out = Exit status
  | Raise e => out = Raise e
  end.

(** A piece of the run from [w] to [w'] with outcome [out]: the endpoint
    stays, the log grows, and a request posted in between whose answer
    the client could not read ended the piece with that failure. *)
Definition sound {A : Type} (w : World) (out : outcome A) (w' : World) : Prop :=
  endpoint w' = endpoint w /\
  (exists extra, sent w' = sent w ++ extra) /\
  forall history prompt later,
    sent w' = history ++ prompt :: later ->
    length (sent w) <= length history ->
    fails_as (Run.answer w history prompt) out.

End WithLibrary.
End Log.

(** ** The input files *)

Module Inputs.
Section WithLibrary.
Context `{Library}.

(** The book summary a run reads, when input.txt is there. *)
Definition summary (w : World) : option string :=
  (fun text => strip (universal_newlines text)) <$> fs w !! "input.txt".

(** The rows a run reads, when outline.txt is there and is CSV. *)
Definition rows (w : World) : option (list (list string)) :=
  outline ← fs w !! "outline.txt"; csv_reader (universal_newlines outline).

(** The ways the input files stop a run before the first chapter: the
    summary is missing or empty, or else the outline is missing or has
    no row of three fields. *)
Definition rejected (w : World) : Prop :=
  summary w = None \/
  summary w = Some "" \/
  (exists book_summary, summary w = Some book_summary /\ book_summary <> "" /\
     (fs w !! "outline.txt" = None \/
      exists table, rows w = Some table /\
        Forall (fun row : list string => length row < 3) table)).

End WithLibrary.
End Inputs.

(** ** Worlds and streams for the examples *)

Module Example.

(** [{"response": text}] *)
Definition response_line (text : string) : string :=
  "{" +:+ quoted "response" +:+ ":" +:+ quoted text +:+ "}".

(** [{"done":true}] *)
Definition done_line : string := "{" +:+ quoted "done" +:+ ":true}".

(** The stream of the specification's example. *)
Definition hello_world : list string :=
  [response_line "Hello "; response_line "world"; done_line].

(** The same stream with lines that are not JSON in between. *)
Definition hello_world_noisy : list string :=
  [response_line "Hello "; "{not json"; response_line "world"; "data: ???"; done_line].

(** An endpoint that gives the same stream to every request. *)
Definition constant_endpoint (lines : list string) : list string -> string -> response :=
  fun _ _ => Stream lines false.

Definition world (files : gmap string string) (lines : list string) : World :=
  mkWorld files "20240101_120000" (constant_endpoint lines) [].

Definition files : gmap string string :=
  <["input.txt" := "A tale of two storms." +:+ nl]>
  (<["outline.txt" := "1, Dawn ,The sun rises" +:+ nl +:+ "2,Dusk,The sun sets" +:+ nl]> ∅).

Definition chapter_stream : list string :=
  [response_line "Once upon a time "; response_line "it rained."; done_line].

(** An endpoint that refuses every request. *)
Definition down : list string -> string -> response := fun _ _ => Refused.

(** A world with a transcript of an earlier run and no input files. *)
Definition stale : World :=
  mkWorld (<["book.txt" := "An earlier book."]> ∅) "20240101_120000" down [].

(** A world with a transcript of an earlier run, the input files, and
    an endpoint that is down. *)
Definition rerun : World :=
  mkWorld (<["book.txt" := "An earlier book."]> files) "20240101_120000" down [].

(** A world with the input files, no transcript, and an endpoint that
    answers every request with [chapter_stream]. *)
Definition fresh : World := Example.world files chapter_stream.

(** The rows of the outline of [files]. *)
Definition table : list (list string) :=
  [["1"; " Dawn "; "The sun rises"]; ["2"; "Dusk"; "The sun sets"]].

End Example.

(** ** Fragments the client cannot read *)

Module Client.

(** An object whose "response", when present, is a text; its "done" may
    be any value. *)
Definition readable (data : Json.value) : Prop :=
  exists members, data = Json.Object members /\
    forall v, Json.dict_get "response" members = Some v -> exists s, v = Json.Str s.

(** A value that is no object. *)
Definition not_object (data : Json.value) : Prop :=
  forall members, data <> Json.Object members.

(** An object whose "response" is present and is no text. *)
Definition response_not_text (data : Json.value) : Prop :=
  exists members v, data = Json.Object members /\
    Json.dict_get "response" members = Some v /\ forall s, v <> Json.Str s.

End Client.

(** ** The requests of a run *)

Module Requests.
(** The prompts the loop posts for the chapters of [entries], turn by
    turn: the chapter, the count, and the acknowledgement unless the
    chapter is the last of [total_chapters]; [story] is the transcript
    before the turn. *)
Fixpoint of_chapters (book_summary : string) (total_chapters chapters_written : nat)
  (story : string) (entries : list (Write.chapter * string)) : list string :=
  match entries with
  | [] => []
  | ((chapter_number, chapter_title, chapter_outline), body) :: entries' =>
      let after := story +:+ Write.chapter_block chapter_number chapter_title body in
      Write.chapter_prompt chapter_number chapter_title chapter_outline
        (universal_newlines story) book_summary
      :: Write.count_prompt (universal_newlines after)
      :: (if S chapters_written <? total_chapters
          then [Write.acknowledge_prompt (universal_newlines after)] else [])
      ++ of_chapters book_summary total_chapters (S chapters_written) after entries'
  end.

End Requests.

(** ** More worlds for the examples *)

Module Sample.

(** An endpoint whose every stream breaks after its lines. *)
Definition breaking : list string -> string -> response :=
  fun _ _ => Stream [Example.response_line "Once"] true.

(** The input files of [Example.files] with that endpoint. *)
Definition cut_off : World := mkWorld Example.files "20240101_120000" breaking [].

(** An endpoint that answers three requests and refuses the rest. *)
Definition flaky : list string -> string -> response :=
  fun history _ =>
    if length history <? 3 then Stream Example.chapter_stream false else Refused.

(** The input files of [Example.files] with that endpoint. *)
Definition interrupted : World := mkWorld Example.files "20240101_120000" flaky [].

(** A line that is not JSON, its bracket never being closed, in which
    an integer literal of 4301 digits comes first. *)
Definition long_literal : string := "[" +:+ repeat_char "1" 4301.

(** A line that is not JSON: 2000 brackets, none of them closed. *)
Definition deep_brackets : string := repeat_char "[" 2000.

(** The stream of the specification's example with [long_literal]
    between its fragments. *)
Definition poisoned : list string :=
  [Example.response_line "Hello "; long_literal;
   Example.response_line "world"; Example.done_line].

End Sample.

(** ** The converter run on the transcript *)

Module Pipeline.
Import Regex Convert.

(** Lines put together with a line feed between them. *)
Fixpoint join_lines (lines : list string) : string :=
  match lines with
  | [] => ""
  | [line] => line
  | line :: lines' => line +:+ nl +:+ join_lines lines'
  end.

Definition not_cr (c : ascii) : bool := negb (Ascii.eqb c CR).

(** A chapter whose heading stays on one line and carries a number in
    decimal digits: the number and the title are not empty, the number
    is made of decimal digits, and the title holds no line feed and no
    carriage return. *)
Definition plain (ch : Write.chapter) : Prop :=
  let '(chapter_number, chapter_title, _) := ch in
  is_empty chapter_number = false /\ all_chars isdecimal chapter_number = true /\
  is_empty chapter_title = false /\ all_chars not_newline chapter_title = true /\
  all_chars not_cr chapter_title = true.

(** What the converter makes of the block of a chapter. *)
Definition latex_block (entry : Write.chapter * string) : string :=
  let '((_, chapter_title, _), body) := entry in
  nl +:+ nl +:+ Heading.command chapter_title +:+ nl +:+ nl +:+
  substitute (universal_newlines (body +:+ nl)).

End Pipeline.

(** ** The order of the requests *)

Module Order.
Section WithLibrary.
Context `{Library}.

Definition is_ok {A : Type} (o : outcome A) : bool :=
  match o with Ok _ => true | _ => false end.

(** A piece of the run from [w] to [w'] with outcome [out]: the endpoint
    stays, the log grows, and the client could read the answer to every
    request posted in between that is not the last one, and to the last
    one too when the piece returned. *)
Definition kept {A : Type} (w : World) (out : outcome A) (w' : World) : Prop :=
  endpoint w' = endpoint w /\
  (exists extra, sent w' = sent w ++ extra) /\
  forall history prompt later,
    sent w' = history ++ prompt :: later ->
    length (sent w) <= length history ->
    later <> [] \/ is_ok out = true ->
    is_ok (Run.answer w history prompt) = true.

End WithLibrary.
End Order.

(** ** Answers to the request for a count *)

Module Counts.

(** The superscript two, U+00B2. *)
Definition superscript_two : ascii := "178"%char.

(** A world whose endpoint answers every request with the given text. *)
Definition answering (text : string) : World :=
  Example.world ∅ [Example.response_line text; Example.done_line].

End Counts.

(** ** The ways a run ends *)

Module Ending.
Section WithLibrary.
Context `{Library}.

(** The run from [w] to [w'] with outcome [out] ended outside the
    writes to book.txt: it returned, it left through [sys.exit] (at the
    input files or at a request the endpoint refused), or it died of an
    exception the client raised on the answer to a request of the run.
    A run that dies while a chapter is written to book.txt, the codec
    refusing the text, is no such run. *)
Definition outside_writes (w : World) (out : outcome unit) (w' : World) : Prop :=
  out = Ok tt \/
  (exists status, out = Exit status) \/
  exists history prompt later e,
    sent w' = history ++ prompt :: later /\
    length (sent w) <= length history /\
    Run.answer w history prompt = Raise e /\
    out = Raise e.

End WithLibrary.
End Ending.

(** * Properties *)

(** ** Texts *)

Lemma append_cons (x : ascii) (a b : string) : String x a +:+ b = String x (a +:+ b).
Proof. reflexivity. Qed.

Lemma append_nil_l (a : string) : "" +:+ a = a.
Proof. reflexivity. Qed.

Lemma append_assoc (a b c : string) : (a +:+ b) +:+ c = a +:+ (b +:+ c).
Proof.
  induction a as [|x a IH]; [reflexivity|].
  now rewrite !append_cons, IH.
Qed.

Lemma append_nil_r (a : string) : a +:+ "" = a.
Proof.
  induction a as [|x a IH]; [reflexivity|].
  now rewrite append_cons, IH.
Qed.

Lemma length_append (a b : string) :
  String.length (a +:+ b) = String.length a + String.length b.
Proof.
  induction a as [|x a IH]; [reflexivity|].
  rewrite append_cons. simpl. now rewrite IH.
Qed.

(** ** The stream loop *)

Section Stream.
Context `{Library}.
Import Fragment.

Lemma take_fragment_well_formed data generated_text :
  Fragment.well_formed data ->
  Write.take_fragment data generated_text
  = Ok (generated_text +:+ Fragment.text data, Fragment.done data).
Proof.
  intros (members & -> & Hr & Hd).
  unfold Write.take_fragment, Fragment.text, Fragment.done. simpl.
  destruct (Json.dict_get "response" members) as [v|] eqn:Er.
  - destruct (Hr v eq_refl) as [s ->].
    rewrite bool_decide_eq_true_2 by eauto. simpl.
    destruct (Json.dict_get "done" members) as [[| [|] | | | |]|]; reflexivity.
  - rewrite bool_decide_eq_false_2 by (intros [? ?]; discriminate). simpl.
    rewrite append_nil_r.
    destruct (Json.dict_get "done" members) as [[| [|] | | | |]|]; reflexivity.
Qed.

Lemma read_stream_skip line lines broken generated_text :
  decoded line = None -> failure line = None ->
  Write.read_stream (line :: lines) broken generated_text
  = Write.read_stream lines broken generated_text.
Proof.
  unfold decoded, failure. simpl. destruct (is_empty line); [reflexivity|].
  destruct (json_loads line); [discriminate | reflexivity | discriminate].
Qed.

Lemma read_stream_failure line e lines broken generated_text :
  failure line = Some e ->
  Write.read_stream (line :: lines) broken generated_text = Raise e.
Proof.
  unfold failure. simpl. destruct (is_empty line); [discriminate|].
  destruct (json_loads line); [discriminate | discriminate |].
  now intros [= ->].
Qed.

(** With a decoder that raises nothing but JSONDecodeError, the decoder
    fails at no line of any stream. *)
Lemma failure_none lines :
  (forall line e, json_loads line <> Json.Failed e) ->
  Forall (fun line => failure line = None) lines.
Proof.
  intros Hdec. apply Forall_forall. intros line _. unfold failure.
  destruct (is_empty line); [reflexivity|].
  destruct (json_loads line) as [data| |e] eqn:E; try reflexivity.
  now destruct (Hdec line e).
Qed.

Lemma decoded_no_failure line data : decoded line = Some data -> failure line = None.
Proof.
  unfold decoded, failure. destruct (is_empty line); [discriminate|].
  now destruct (json_loads line).
Qed.

Lemma read_stream_fragment line data lines broken generated_text :
  decoded line = Some data ->
  Write.read_stream (line :: lines) broken generated_text
  = obind (Write.take_fragment data generated_text) (fun '(generated_text', done) =>
      if done then Ok generated_text'
      else Write.read_stream lines broken generated_text').
Proof.
  unfold decoded. simpl. destruct (is_empty line); [discriminate|].
  destruct (json_loads line); [|discriminate|discriminate].
  now intros [= ->].
Qed.

Lemma read_stream_valid lines broken :
  Forall (fun line => failure line = None) lines ->
  forall generated_text,
    Write.read_stream lines broken generated_text
    = Write.read_stream (filter (fun line => is_Some (decoded line)) lines) broken
        generated_text.
Proof.
  induction 1 as [|line lines Hf _ IH]; intros generated_text; [reflexivity|].
  destruct (decoded line) as [data|] eqn:E.
  - rewrite filter_cons_True by (rewrite E; eauto).
    rewrite !(read_stream_fragment _ data) by assumption.
    destruct (Write.take_fragment data generated_text) as [[t [|]]| |]; simpl; auto.
  - rewrite filter_cons_False by (rewrite E; intros [? ?]; discriminate).
    rewrite read_stream_skip by assumption. apply IH.
Qed.

Lemma valid_fragments_cons line lines :
  valid_fragments (line :: lines)
  = match decoded line with
    | Some data => data :: valid_fragments lines
    | None => valid_fragments lines
    end.
Proof. reflexivity. Qed.

Lemma read_stream_text lines broken generated_text :
  Forall (fun line => failure line = None) lines ->
  Forall Fragment.well_formed (valid_fragments lines) ->
  broken = false \/ Exists (fun data => Fragment.done data = true) (valid_fragments lines) ->
  Write.read_stream lines broken generated_text
  = Ok (generated_text +:+
        Text.concat (map Fragment.text (Fragment.upto_done (valid_fragments lines)))).
Proof.
  intros Hnf. revert generated_text.
  induction Hnf as [|line lines Hf _ IH]; intros t Hwf Hend.
  - simpl. rewrite append_nil_r. destruct Hend as [-> | Hex]; [reflexivity|].
    inversion Hex.
  - rewrite valid_fragments_cons in *.
    destruct (decoded line) as [data|] eqn:E.
    + rewrite (read_stream_fragment _ data) by assumption.
      inversion Hwf as [|? ? Hd Hrest]; subst.
      rewrite take_fragment_well_formed by assumption. simpl.
      destruct (Fragment.done data) eqn:Ed.
      * simpl. now rewrite append_nil_r.
      * simpl. rewrite IH; [now rewrite append_assoc | assumption |].
        destruct Hend as [? | Hex]; [now left | right].
        inversion Hex; subst; [congruence | assumption].
    + rewrite read_stream_skip by assumption. apply IH; assumption.
Qed.

End Stream.

(** ** The matcher and the substitution *)

Section StarLemmas.
Import Regex.
Context {R : Type}.

(** When the continuation accepts what follows the longest run, the
    run is taken whole. *)
Lemma star_greedy cls (k : string -> option R) s r :
  k (snd (span cls s)) = Some r -> star cls k s = Some r.
Proof.
  induction s as [|c s IH]; simpl; [auto|].
  destruct (cls c) eqn:E; [|auto].
  destruct (span cls s) as [a b]. simpl in *. intros Hk.
  now rewrite IH.
Qed.

(** When the continuation refuses every text that starts with a
    character of the class, backing off is of no use. *)
Lemma star_no_backoff cls (k : string -> option R) s :
  (forall c t, cls c = true -> k (String c t) = None) ->
  star cls k s = k (snd (span cls s)).
Proof.
  intros Hk. induction s as [|c s IH]; simpl; [reflexivity|].
  destruct (cls c) eqn:E; [|reflexivity].
  rewrite IH. destruct (span cls s) as [a b]. simpl.
  destruct (k b); [reflexivity|]. now apply Hk.
Qed.

End StarLemmas.

Lemma span_append cls s :
  fst (span cls s) +:+ snd (span cls s) = s.
Proof.
  induction s as [|c s IH]; simpl; [reflexivity|].
  destruct (cls c); [|reflexivity].
  destruct (span cls s) as [a b]. simpl in *. now rewrite append_cons, IH.
Qed.

Lemma span_length cls s :
  String.length s = String.length (fst (span cls s)) + String.length (snd (span cls s)).
Proof. rewrite <- length_append. now rewrite span_append. Qed.

Lemma take_chars_append a b : Regex.take_chars (String.length a) (a +:+ b) = a.
Proof.
  induction a as [|c a IH]; simpl.
  - now destruct b.
  - now rewrite IH.
Qed.

Lemma consumed_append a b : Regex.consumed (a +:+ b) b = a.
Proof.
  unfold Regex.consumed. rewrite length_append.
  replace (String.length a + String.length b - String.length b) with (String.length a) by lia.
  apply take_chars_append.
Qed.

Lemma strip_prefix_length p s r :
  strip_prefix p s = Some r -> s = p +:+ r.
Proof.
  revert s. induction p as [|a p IH]; intros s; simpl.
  - now intros [= ->].
  - destruct s as [|b s]; [discriminate|].
    destruct (Ascii.eqb_spec a b) as [->|]; [|discriminate].
    intros Hs. rewrite append_cons. now rewrite <- (IH _ Hs).
Qed.

Lemma strip_prefix_append p s : strip_prefix p (p +:+ s) = Some s.
Proof.
  induction p as [|a p IH]; [reflexivity|].
  rewrite append_cons. simpl. now rewrite Ascii.eqb_refl.
Qed.

Import Regex Convert.

Lemma match_at_parse must_advance s :
  match_at must_advance pattern s
  = match Heading.parse s with
    | Some (number, title, rest) => Some ([(2, title); (1, number)], rest)
    | None => None
    end.
Proof.
  unfold match_at, pattern, Heading.parse.
  cbn [run].
  destruct (strip_prefix "### Chapter " s) as [r1|] eqn:E1; [|reflexivity].
  destruct r1 as [|c r1']; [reflexivity|].
  cbn [span].
  destruct (isdecimal c) eqn:Ec; [|reflexivity].
  rewrite star_no_backoff.
  2:{ intros d t Hd. cbn [strip_prefix].
      destruct (Ascii.eqb_spec ":" d) as [<-|]; [discriminate | reflexivity]. }
  pose proof (span_append isdecimal r1') as Hspan.
  pose proof (span_length isdecimal r1') as Hlen.
  destruct (span isdecimal r1') as [ds r2]. cbn [fst snd is_empty] in *.
  destruct (strip_prefix ": " r2) as [r3|] eqn:E3; [|reflexivity].
  destruct r3 as [|d r3']; [reflexivity|].
  cbn [span].
  destruct (not_newline d) eqn:Ed; [|reflexivity].
  pose proof (span_append not_newline r3') as Hspan3.
  destruct (span not_newline r3') as [ts r4] eqn:E4. cbn [fst snd is_empty] in *.
  apply star_greedy. rewrite E4. cbn [snd].
  apply strip_prefix_length in E1, E3.
  assert (Hnum : consumed (String c r1') r2 = String c ds).
  { rewrite <- Hspan. rewrite <- append_cons. apply consumed_append. }
  assert (Htitle : consumed (String d r3') r4 = String d ts).
  { rewrite <- Hspan3. rewrite <- append_cons. apply consumed_append. }
  rewrite Hnum, Htitle.
  assert (Hne : (String.length r4 =? String.length s) = false).
  { apply Nat.eqb_neq. subst s r2 r1' r3'. 
    repeat first [rewrite length_append | progress cbn [String.length]]. lia. }
  rewrite Hne, andb_false_r. reflexivity.
Qed.

Lemma parse_shorter s number title rest :
  Heading.parse s = Some (number, title, rest) ->
  String.length rest < String.length s.
Proof.
  unfold Heading.parse.
  destruct (strip_prefix "### Chapter " s) as [r1|] eqn:E1; [|discriminate].
  pose proof (span_length isdecimal r1) as H1.
  destruct (span isdecimal r1) as [ds r2]. cbn [fst snd] in H1.
  destruct (is_empty ds); [discriminate|].
  destruct (strip_prefix ": " r2) as [r3|] eqn:E3; [|discriminate].
  pose proof (span_length not_newline r3) as H3.
  destruct (span not_newline r3) as [ts r4]. cbn [fst snd] in H3.
  destruct (is_empty ts); [discriminate|].
  intros [= <- <- <-].
  apply strip_prefix_length in E1, E3. subst s r2.
  rewrite length_append in *. cbn [String.length] in *. lia.
Qed.

Lemma sub_loop_step fuel must_advance s :
  sub_loop (S fuel) pattern replacement must_advance s
  = match Heading.parse s with
    | Some (_, title, rest) =>
        Heading.command title +:+ sub_loop fuel pattern replacement false rest
    | None =>
        match s with
        | String c s' => String c (sub_loop fuel pattern replacement false s')
        | EmptyString => EmptyString
        end
    end.
Proof.
  cbn [sub_loop]. rewrite match_at_parse.
  destruct (Heading.parse s) as [[[number title] rest]|] eqn:E; [|reflexivity].
  apply parse_shorter in E.
  replace (String.length rest =? String.length s) with false
    by (symmetry; apply Nat.eqb_neq; lia).
  reflexivity.
Qed.

Lemma sub_loop_fuel n : forall fuel1 fuel2 a1 a2 s,
  String.length s <= n ->
  String.length s < fuel1 -> String.length s < fuel2 ->
  sub_loop fuel1 pattern replacement a1 s = sub_loop fuel2 pattern replacement a2 s.
Proof.
  induction n as [|n IH]; intros fuel1 fuel2 a1 a2 s Hn H1 H2;
    (destruct fuel1 as [|fuel1]; [lia|]); (destruct fuel2 as [|fuel2]; [lia|]);
    rewrite !sub_loop_step.
  - destruct s; [|simpl in Hn; lia].
    reflexivity.
  - destruct (Heading.parse s) as [[[number title] rest]|] eqn:E.
    + apply parse_shorter in E. f_equal. apply IH; lia.
    + destruct s as [|c s']; [reflexivity|]. simpl in *. f_equal. apply IH; lia.
Qed.

(** The equation of the substitution: a heading at the start is
    replaced and the substitution goes on after it; otherwise the first
    character is copied. *)
Lemma substitute_step s :
  substitute s
  = match Heading.parse s with
    | Some (_, title, rest) => Heading.command title +:+ substitute rest
    | None =>
        match s with
        | String c s' => String c (substitute s')
        | EmptyString => EmptyString
        end
    end.
Proof.
  unfold substitute, re_sub.
  replace (2 * String.length s + 2) with (S (2 * String.length s + 1)) by lia.
  rewrite sub_loop_step.
  destruct (Heading.parse s) as [[[number title] rest]|] eqn:E.
  - apply parse_shorter in E. f_equal.
    apply (sub_loop_fuel (String.length rest)); lia.
  - destruct s as [|c s']; [reflexivity|]. f_equal.
    apply (sub_loop_fuel (String.length s')); simpl; lia.
Qed.

Lemma strip_prefix_cut p : forall s y,
  all_chars not_newline p = true -> Heading.ends_nl s ->
  strip_prefix p (s +:+ y) = option_map (fun r => r +:+ y) (strip_prefix p s)
  /\ forall r, strip_prefix p s = Some r -> Heading.ends_nl r.
Proof.
  induction p as [|a p IH]; intros s y Hp Hs.
  - split; [reflexivity|]. now intros r [= <-].
  - cbn [all_chars] in Hp. apply andb_true_iff in Hp as [Ha Hp].
    destruct Hs as [x ->]. destruct x as [|b x].
    + rewrite append_nil_l. unfold nl. rewrite append_cons, append_nil_l.
      cbn [strip_prefix]. unfold not_newline in Ha.
      destruct (Ascii.eqb a LF); [discriminate|].
      split; [reflexivity | discriminate].
    + rewrite !append_cons. cbn [strip_prefix].
      destruct (Ascii.eqb a b); [|split; [reflexivity | discriminate]].
      apply IH; [assumption | now exists x].
Qed.

Lemma span_cut cls s y :
  cls LF = false -> Heading.ends_nl s ->
  span cls (s +:+ y) = (fst (span cls s), snd (span cls s) +:+ y)
  /\ Heading.ends_nl (snd (span cls s)).
Proof.
  intros Hcls [x ->]. induction x as [|b x IH].
  - rewrite append_nil_l. unfold nl. rewrite append_cons, append_nil_l.
    cbn [span]. rewrite Hcls. cbn [fst snd]. rewrite append_cons, append_nil_l.
    split; [reflexivity | now exists ""].
  - rewrite !append_cons. cbn [span].
    destruct (cls b).
    + destruct IH as [IH1 IH2]. rewrite IH1.
      destruct (span cls (x +:+ nl)) as [a r]. cbn [fst snd] in *. now split.
    + cbn [fst snd]. rewrite append_cons. split; [reflexivity | now exists (String b x)].
Qed.

Lemma parse_cut s y :
  Heading.ends_nl s ->
  Heading.parse (s +:+ y)
  = match Heading.parse s with
    | Some (number, title, rest) => Some (number, title, rest +:+ y)
    | None => None
    end
  /\ forall number title rest,
       Heading.parse s = Some (number, title, rest) -> Heading.ends_nl rest.
Proof.
  intros Hs. unfold Heading.parse.
  destruct (strip_prefix_cut "### Chapter " s y eq_refl Hs) as [-> H1].
  destruct (strip_prefix "### Chapter " s) as [r1|]; [|split; [reflexivity | discriminate]].
  cbn [option_map]. specialize (H1 r1 eq_refl).
  destruct (span_cut isdecimal r1 y eq_refl H1) as [-> H2].
  destruct (span isdecimal r1) as [ds r2]. cbn [fst snd] in *.
  destruct (is_empty ds); [split; [reflexivity | discriminate]|].
  destruct (strip_prefix_cut ": " r2 y eq_refl H2) as [-> H3].
  destruct (strip_prefix ": " r2) as [r3|]; [|split; [reflexivity | discriminate]].
  cbn [option_map]. specialize (H3 r3 eq_refl).
  destruct (span_cut not_newline r3 y eq_refl H3) as [-> H4].
  destruct (span not_newline r3) as [ts r4]. cbn [fst snd] in *.
  destruct (is_empty ts); [split; [reflexivity | discriminate]|].
  split; [reflexivity|]. now intros ? ? ? [= <- <- <-].
Qed.

Lemma substitute_nil : substitute "" = "".
Proof. reflexivity. Qed.

(** The substitution works line by line: a match never contains a line
    feed, so text that ends a line is converted on its own. *)
Lemma substitute_cut s y :
  Heading.line_start s -> substitute (s +:+ y) = substitute s +:+ substitute y.
Proof.
  remember (String.length s) as n eqn:Hn. revert s Hn.
  induction n as [n IH] using lt_wf_ind. intros s Hn [-> | Hs]; [reflexivity|].
  rewrite (substitute_step (s +:+ y)), (substitute_step s).
  destruct (parse_cut s y Hs) as [-> Hrest].
  destruct (Heading.parse s) as [[[number title] rest]|] eqn:E.
  - rewrite append_assoc. f_equal.
    apply (IH (String.length rest)); [| reflexivity | right; now apply (Hrest _ _ _ eq_refl)].
    apply parse_shorter in E. lia.
  - destruct Hs as [x ->]. destruct x as [|c x].
    + reflexivity.
    + rewrite !append_cons. f_equal.
      apply (IH (String.length (x +:+ nl))); [| reflexivity | right; now exists x].
      subst n. rewrite append_cons. simpl. lia.
Qed.

Lemma span_all cls a b :
  all_chars cls a = true ->
  match b with String c _ => cls c = false | EmptyString => True end ->
  span cls (a +:+ b) = (a, b).
Proof.
  intros Ha Hb. induction a as [|c a IH].
  - rewrite append_nil_l. destruct b as [|c b]; [reflexivity|].
    cbn [span]. now rewrite Hb.
  - cbn [all_chars] in Ha. apply andb_true_iff in Ha as [Hc Ha].
    rewrite append_cons. cbn [span]. rewrite Hc, IH by assumption. reflexivity.
Qed.

Lemma parse_line number title post :
  is_empty number = false -> all_chars isdecimal number = true ->
  is_empty title = false -> all_chars not_newline title = true ->
  Heading.line_end post ->
  Heading.parse (Heading.line number title +:+ post) = Some (number, title, post).
Proof.
  intros Hn Hd Ht Hl Hpost. unfold Heading.parse, Heading.line.
  rewrite !append_assoc, strip_prefix_append.
  rewrite span_all by (assumption || reflexivity).
  rewrite Hn, strip_prefix_append.
  rewrite span_all; [now rewrite Ht | assumption |].
  destruct Hpost as [-> | [x ->]]; [exact I | reflexivity].
Qed.

Lemma substitute_line pre number title post :
  Heading.line_start pre ->
  is_empty number = false -> all_chars isdecimal number = true ->
  is_empty title = false -> all_chars not_newline title = true ->
  Heading.line_end post ->
  substitute (pre +:+ Heading.line number title +:+ post)
  = substitute pre +:+ Heading.command title +:+ substitute post.
Proof.
  intros Hpre Hn Hd Ht Hl Hpost.
  rewrite substitute_cut by assumption. f_equal.
  rewrite substitute_step, parse_line by assumption. reflexivity.
Qed.

(** Text in which the pattern matches nowhere is left as it is. *)
Lemma substitute_no_match s :
  (forall a b, s = a +:+ b -> match_at false pattern b = None) ->
  substitute s = s.
Proof.
  induction s as [|c s IH]; intros Hs; [reflexivity|].
  rewrite substitute_step.
  pose proof (Hs "" (String c s) eq_refl) as H0. rewrite match_at_parse in H0.
  destruct (Heading.parse (String c s)) as [[[? ?] ?]|]; [discriminate|].
  f_equal. apply IH. intros a b ->. apply (Hs (String c a) b). reflexivity.
Qed.

(** ** The run of write.py *)

Section RunLemmas.
Context `{Library}.
Import Write Run.

Lemma call_ollama_api_run prompt w :
  call_ollama_api prompt w = (answer w (sent w) prompt, posted prompt w).
Proof.
  unfold call_ollama_api, answer, bind, post, posted. cbn.
  destruct (endpoint w (sent w) prompt) as [|lines broken]; [reflexivity|].
  unfold lift, ret. destruct (read_stream lines broken ""); reflexivity.
Qed.

Lemma bind_call {A : Type} prompt (k : string -> M A) w :
  (x <- call_ollama_api prompt ;; k x) w
  = and_then (answer w (sent w) prompt) (posted prompt w) (fun x => k x (posted prompt w)).
Proof.
  unfold bind at 1. rewrite call_ollama_api_run.
  destruct (answer w (sent w) prompt); reflexivity.
Qed.

Lemma write_chapter_to_book_run n t o story bs w :
  write_chapter_to_book n t o story bs w
  = let prompt := chapter_prompt n t o story bs in
    and_then (answer w (sent w) prompt) (posted prompt w) (fun body =>
      (Ok tt, appended (chapter_block n t body) (posted prompt w))).
Proof.
  unfold write_chapter_to_book. rewrite bind_call. cbv zeta.
  destruct (answer w (sent w) (chapter_prompt n t o story bs)) as [body| |]; try reflexivity.
  cbn [and_then]. unfold bind, append_text, appended, with_fs, book, chapter_block. cbn.
  rewrite lookup_insert_eq. cbn. rewrite insert_insert_eq.
  now rewrite append_assoc.
Qed.

Lemma write_one_run bs total j n t o w :
  write_one bs total j (n, t, o) w
  = let prompt := chapter_prompt n t o (universal_newlines (book w)) bs in
    and_then (answer w (sent w) prompt) (posted prompt w) (fun body =>
      let w1 := appended (chapter_block n t body) (posted prompt w) in
      let after := universal_newlines (book w1) in
      and_then (answer w1 (sent w1) (count_prompt after)) (posted (count_prompt after) w1)
        (fun _ =>
           let w2 := posted (count_prompt after) w1 in
           if S j <? total then
             and_then (answer w2 (sent w2) (acknowledge_prompt after))
               (posted (acknowledge_prompt after) w2)
               (fun _ => (Ok (S j), posted (acknowledge_prompt after) w2))
           else (Ok (S j), w2))).
Proof.
  unfold write_one.
  assert (Hread : forall (A : Type) (k : string -> M A),
    (found <- path_exists "book.txt" ;;
     book_so_far <- (if found then read_or_raise "book.txt" else ret "") ;;
     k book_so_far) w = k (universal_newlines (book w)) w).
  { intros A k. unfold bind, path_exists, read_or_raise, read_text, book, ret, bind.
    destruct (fs w !! "book.txt") as [text|] eqn:E; cbn; [now rewrite E | reflexivity]. }
  rewrite Hread. cbv zeta.
  unfold bind at 1. rewrite write_chapter_to_book_run. cbv zeta.
  destruct (answer w (sent w) _) as [body| |]; try reflexivity.
  cbn [and_then].
  set (w1 := appended (chapter_block n t body) (posted _ w)).
  assert (Hbook : fs w1 !! "book.txt" = Some (book w1)).
  { unfold w1, appended, book, with_fs. cbn. now rewrite lookup_insert_eq. }
  unfold bind at 1. unfold read_or_raise at 1. unfold bind at 1, read_text at 1.
  rewrite Hbook. cbn [fmap option_fmap option_map ret].
  unfold bind at 1. unfold count_words_with_ollama. rewrite bind_call.
  destruct (answer w1 (sent w1) _) as [r| |]; try reflexivity.
  cbn [and_then ret].
  destruct (S j <? total); [|reflexivity].
  unfold bind at 1. rewrite bind_call.
  destruct (answer _ _ (acknowledge_prompt _)); reflexivity.
Qed.

Lemma answer_endpoint w1 w2 history prompt :
  endpoint w1 = endpoint w2 -> answer w1 history prompt = answer w2 history prompt.
Proof. unfold answer. now intros ->. Qed.

Lemma blocks_cons entry entries :
  blocks (entry :: entries) = block_of entry +:+ blocks entries.
Proof. reflexivity. Qed.

Lemma book_insert w text (m : gmap string string) :
  fs w = <["book.txt" := text]> m -> book w = text.
Proof. unfold book. intros ->. now rewrite lookup_insert_eq. Qed.

Lemma wrote_cons n t o body entries w w1 :
  fs w1 = <["book.txt" := book w +:+ chapter_block n t body]> (fs w) ->
  wrote entries w1 = wrote (((n, t, o), body) :: entries) w.
Proof.
  intros Hfs. unfold wrote at 2. rewrite blocks_cons. cbn [block_of].
  destruct entries as [|e entries].
  - cbn [wrote]. rewrite Hfs. unfold blocks. cbn. now rewrite append_nil_r.
  - unfold wrote. rewrite (book_insert _ _ _ Hfs), Hfs, insert_insert_eq.
    now rewrite append_assoc.
Qed.

(** What a turn of the loop leaves behind, whatever its outcome. *)
Lemma write_one_any bs total j n t o w out w' :
  write_one bs total j (n, t, o) w = (out, w') ->
  let prompt := chapter_prompt n t o (universal_newlines (book w)) bs in
  endpoint w' = endpoint w /\ now w' = now w /\
  exists extra, sent w' = sent w ++ prompt :: extra /\
  ((fs w' = fs w /\ forall j', out <> Ok j') \/
   exists body,
     answer w (sent w) prompt = Ok body /\
     fs w' = <["book.txt" := book w +:+ chapter_block n t body]> (fs w) /\
     forall j', out = Ok j' -> j' = S j).
Proof.
  rewrite write_one_run. cbv zeta.
  set (prompt := chapter_prompt n t o _ bs).
  destruct (answer w (sent w) prompt) as [body| |] eqn:Ea; cbn [and_then].
  2,3: intros [= <- <-]; repeat split; exists []; split; [reflexivity | left; now split].
  set (w1 := appended _ _).
  set (after := universal_newlines (book w1)).
  assert (Hfs : fs w1 = <["book.txt" := book w +:+ chapter_block n t body]> (fs w)) by reflexivity.
  destruct (answer w1 (sent w1) (count_prompt after)) as [r| |]; cbn [and_then].
  2,3: intros [= <- <-]; repeat split; exists [count_prompt after]; split;
       [cbn; now rewrite <- app_assoc | right; exists body; repeat split; discriminate].
  destruct (S j <? total).
  - destruct (answer _ _ (acknowledge_prompt after)); cbn [and_then];
      intros [= <- <-]; repeat split;
      exists [count_prompt after; acknowledge_prompt after]; (split;
       [cbn; now rewrite <- !app_assoc | right; exists body; repeat split; congruence]).
  - intros [= <- <-]; repeat split. exists [count_prompt after]; split;
       [cbn; now rewrite <- app_assoc | right; exists body; repeat split; congruence].
Qed.

(** What the loop leaves behind, whatever its outcome: the chapters
    written are the first ones of the list, in order. *)
Lemma write_chapters_any bs total : forall chs j w out w',
  write_chapters bs total j chs w = (out, w') ->
  endpoint w' = endpoint w /\ now w' = now w /\
  (exists extra, sent w' = sent w ++ extra) /\
  exists entries,
    fs w' = wrote entries w /\
    map fst entries = take (length entries) chs /\
    generated w' bs (book w) entries /\
    forall j', out = Ok j' -> length entries = length chs /\ j' = j + length chs.
Proof.
  induction chs as [|[[n t] o] chs IH]; intros j w out w' Hrun.
  - cbn in Hrun. injection Hrun as <- <-.
    split; [reflexivity|]. split; [reflexivity|].
    split; [exists []; now rewrite app_nil_r|].
    exists []. split; [reflexivity|]. split; [reflexivity|]. split; [exact I|].
    intros k [= <-]. cbn. lia.
  - cbn [write_chapters] in Hrun. unfold bind in Hrun.
    destruct (write_one bs total j (n, t, o) w) as [out1 w1] eqn:E1.
    destruct (write_one_any _ _ _ _ _ _ _ _ _ E1) as (He & Hn & extra & Hs & Hfs).
    destruct out1 as [j1| |].
    + destruct Hfs as [[_ Hno] | (body & Ha & Hfs & Hj)]; [now destruct (Hno j1)|].
      rewrite (Hj _ eq_refl) in Hrun.
      destruct (IH _ _ _ _ Hrun) as (He' & Hn' & [extra' Hs'] & entries & Hfs' & Hm & Hg & Hout).
      split; [congruence|]. split; [congruence|]. split.
      * exists (chapter_prompt n t o (universal_newlines (book w)) bs :: extra ++ extra').
        rewrite Hs', Hs. now rewrite <- app_assoc.
      * exists (((n, t, o), body) :: entries). split; [|split; [|split]].
        -- rewrite Hfs'. now apply wrote_cons.
        -- cbn. now rewrite Hm.
        -- split.
           ++ exists (sent w), (extra ++ extra'). split.
              ** rewrite Hs', Hs. now rewrite <- app_assoc.
              ** rewrite <- Ha. apply answer_endpoint. congruence.
           ++ rewrite <- (book_insert _ _ _ Hfs). exact Hg.
        -- intros k Hk. destruct (Hout _ Hk) as [Hlen ->]. cbn. rewrite Hlen. split; lia.
    + injection Hrun as <- <-.
      split; [assumption|]. split; [assumption|]. split; [eauto|].
      destruct Hfs as [[Hfs _] | (body & Ha & Hfs & _)].
      * exists []. split; [assumption|]. split; [reflexivity|]. split; [exact I|].
        discriminate.
      * exists [((n, t, o), body)]. split; [|split; [reflexivity|split]].
        -- rewrite Hfs. unfold wrote, blocks. cbn. now rewrite append_nil_r.
        -- split; [|exact I]. exists (sent w), extra. split; [assumption|].
           rewrite <- Ha. now apply answer_endpoint.
        -- discriminate.
    + injection Hrun as <- <-.
      split; [assumption|]. split; [assumption|]. split; [eauto|].
      destruct Hfs as [[Hfs _] | (body & Ha & Hfs & _)].
      * exists []. split; [assumption|]. split; [reflexivity|]. split; [exact I|].
        discriminate.
      * exists [((n, t, o), body)]. split; [|split; [reflexivity|split]].
        -- rewrite Hfs. unfold wrote, blocks. cbn. now rewrite append_nil_r.
        -- split; [|exact I]. exists (sent w), extra. split; [assumption|].
           rewrite <- Ha. now apply answer_endpoint.
        -- discriminate.
Qed.

(** A loop that runs to its end wrote a block for every chapter, and
    after each number of turns the blocks of the chapters done so far. *)
Lemma write_chapters_ok bs total : forall chs j w j' w',
  write_chapters bs total j chs w = (Ok j', w') ->
  j' = j + length chs /\
  exists entries,
    map fst entries = chs /\
    fs w' = wrote entries w /\
    generated w' bs (book w) entries /\
    forall k, k <= length chs ->
      exists wk,
        write_chapters bs total j (take k chs) w = (Ok (j + k), wk) /\
        fs wk = wrote (take k entries) w.
Proof.
  induction chs as [|[[n t] o] chs IH]; intros j w j' w' Hrun.
  - cbn in Hrun. injection Hrun as <- <-. split; [cbn; lia|].
    exists []. split; [reflexivity|]. split; [reflexivity|]. split; [exact I|].
    intros k Hk. exists w. rewrite take_nil. cbn. unfold ret.
    replace (j + k) with j by (cbn in Hk; lia). now rewrite take_nil.
  - cbn [write_chapters] in Hrun. unfold bind in Hrun.
    destruct (write_one bs total j (n, t, o) w) as [out1 w1] eqn:E1.
    destruct (write_one_any _ _ _ _ _ _ _ _ _ E1) as (He & Hn & extra & Hs & Hfs).
    destruct out1 as [j1| |]; [|discriminate|discriminate].
    destruct Hfs as [[_ Hno] | (body & Ha & Hfs & Hj)]; [now destruct (Hno j1)|].
    rewrite (Hj _ eq_refl) in *.
    destruct (write_chapters_any _ _ _ _ _ _ _ Hrun) as (He' & _ & [extra' Hs'] & _).
    destruct (IH _ _ _ _ Hrun) as (-> & entries & Hm & Hfs' & Hg & Hpre).
    split; [cbn; lia|].
    exists (((n, t, o), body) :: entries). split; [|split; [|split]].
    + cbn. now rewrite Hm.
    + rewrite Hfs'. now apply wrote_cons.
    + split.
      * exists (sent w), (extra ++ extra'). split.
        -- rewrite Hs', Hs. now rewrite <- app_assoc.
        -- rewrite <- Ha. apply answer_endpoint. congruence.
      * rewrite <- (book_insert _ _ _ Hfs). exact Hg.
    + intros [|k] Hk.
      * exists w. cbn. unfold ret. now rewrite Nat.add_0_r.
      * cbn in Hk. destruct (Hpre k ltac:(lia)) as (wk & Hk1 & Hk2).
        exists wk. cbn [take write_chapters]. unfold bind. rewrite E1.
        replace (j + S k) with (S j + k) by lia. split; [assumption|].
        rewrite Hk2. now apply wrote_cons.
Qed.

Lemma archive_name_not_book timestamp : archive_name timestamp <> "book.txt".
Proof. unfold archive_name. intros E. cbv in E. discriminate. Qed.

Lemma archive_name_not_input timestamp : archive_name timestamp <> "input.txt".
Proof. unfold archive_name. intros E. cbv in E. discriminate. Qed.

Lemma archive_name_not_outline timestamp : archive_name timestamp <> "outline.txt".
Proof. unfold archive_name. intros E. cbv in E. discriminate. Qed.

Lemma archive_book_run w : archive_book w = (Ok tt, archived w).
Proof.
  unfold archive_book, archived, bind, path_exists, rename. cbn.
  destruct (fs w !! "book.txt") as [old|] eqn:E; cbn.
  - now rewrite E.
  - unfold ret. now destruct w.
Qed.

Lemma archived_book w : fs (archived w) !! "book.txt" = None.
Proof.
  unfold archived. destruct (fs w !! "book.txt") as [old|] eqn:E; [|assumption].
  cbn. rewrite lookup_insert_ne by apply archive_name_not_book.
  apply lookup_delete_eq.
Qed.

Lemma archived_archive w old :
  fs w !! "book.txt" = Some old ->
  fs (archived w) = <[archive_name (now w) := old]> (delete "book.txt" (fs w)).
Proof. unfold archived. now intros ->. Qed.

Lemma archived_other w path :
  path <> "book.txt" -> path <> archive_name (now w) ->
  fs (archived w) !! path = fs w !! path.
Proof.
  intros H1 H2. unfold archived. destruct (fs w !! "book.txt"); [|reflexivity].
  cbn. rewrite lookup_insert_ne by congruence. now apply lookup_delete_ne.
Qed.

Lemma archived_frame w :
  now (archived w) = now w /\ endpoint (archived w) = endpoint w /\
  sent (archived w) = sent w.
Proof. unfold archived. destruct (fs w !! "book.txt"); now repeat split. Qed.

(** The run, phase by phase. *)
Lemma main_run w :
  main w
  = let w0 := archived w in
    match fs w !! "input.txt" with
    | None => (Exit 1, w0)
    | Some text =>
        let book_summary := strip (universal_newlines text) in
        if is_empty book_summary then (Exit 0, w0)
        else
          match fs w !! "outline.txt" with
          | None => (Exit 1, w0)
          | Some outline =>
              match csv_reader (universal_newlines outline) with
              | None => (Raise CsvError, w0)
              | Some rows =>
                  let chapters := chapters_of_rows rows in
                  if bool_decide (chapters = []) then (Exit 0, w0)
                  else
                    match write_chapters book_summary (length chapters) 0 chapters w0 with
                    | (Ok _, w1) =>
                        match fs w1 !! "book.txt" with
                        | Some text =>
                            let prompt := summary_prompt (universal_newlines text) in
                            and_then (answer w1 (sent w1) prompt) (posted prompt w1)
                              (fun _ => (Ok tt, posted prompt w1))
                        | None => (Raise FileNotFoundError, w1)
                        end
                    | (Exit status, w1) => (Exit status, w1)
                    | (Raise e, w1) => (Raise e, w1)
                    end
              end
          end
    end.
Proof.
  unfold main. unfold bind at 1. rewrite archive_book_run. cbv zeta.
  unfold bind at 1. unfold load_summary. unfold bind at 1, read_text at 1.
  rewrite (archived_other w "input.txt") by (discriminate || (symmetry; apply archive_name_not_input)).
  destruct (fs w !! "input.txt") as [text|]; [|reflexivity].
  cbn [fmap option_fmap option_map ret].
  destruct (is_empty (strip (universal_newlines text))); [reflexivity|].
  unfold bind at 1. unfold load_outline. unfold bind at 1, read_text at 1.
  rewrite (archived_other w "outline.txt") by (discriminate || (symmetry; apply archive_name_not_outline)).
  destruct (fs w !! "outline.txt") as [outline|]; [|reflexivity].
  cbn [fmap option_fmap option_map].
  destruct (csv_reader (universal_newlines outline)) as [rows|]; [|reflexivity].
  cbn [ret].
  destruct (bool_decide (chapters_of_rows rows = [])); [reflexivity|].
  unfold bind at 1.
  destruct (write_chapters _ _ 0 _ (archived w)) as [[j1| |] w1]; try reflexivity.
  unfold bind at 1. unfold read_or_raise. unfold bind at 1, read_text.
  destruct (fs w1 !! "book.txt") as [text'|]; [|reflexivity].
  cbn [fmap option_fmap option_map ret].
  unfold summarize_book. rewrite bind_call.
  destruct (answer w1 (sent w1) _); reflexivity.
Qed.

End RunLemmas.

(** ** Requests that fail end the run *)

Section LogLemmas.
Context `{Library}.
Import Write Run Log.

Lemma sound_here {A : Type} (a : outcome A) w : sound w a w.
Proof.
  split; [reflexivity|]. split; [exists []; now rewrite app_nil_r|].
  intros history prompt later E Hlen. apply (f_equal length) in E.
  rewrite length_app in E. cbn in E. lia.
Qed.

Lemma sound_world {A : Type} w1 w2 (out : outcome A) w' :
  endpoint w1 = endpoint w2 -> sent w1 = sent w2 ->
  sound w1 out w' -> sound w2 out w'.
Proof.
  intros He Hs (He' & Hs' & Hlog). unfold sound. rewrite <- He, <- Hs.
  split; [assumption|]. split; [assumption|].
  intros history prompt later E Hlen.
  rewrite <- (answer_endpoint w1 w2) by assumption. now apply (Hlog _ _ later).
Qed.

Lemma app_cut {A : Type} (l1 e history later : list A) (x : A) :
  l1 ++ e = history ++ x :: later ->
  length history < length l1 ->
  exists later1, l1 = history ++ x :: later1.
Proof.
  revert history. induction l1 as [|y l1 IH]; intros history E Hlen; [cbn in Hlen; lia|].
  destruct history as [|z history]; cbn in *.
  - injection E as -> E. now exists l1.
  - injection E as -> E. destruct (IH history E ltac:(lia)) as [later1 ->].
    now exists later1.
Qed.

(** Two pieces in a row. *)
Lemma sound_seq {A B : Type} w (a : A) w1 (out : outcome B) w' :
  sound w (Ok a) w1 -> sound w1 out w' -> sound w out w'.
Proof.
  intros (He1 & [e1 Hs1] & Hlog1) (He2 & [e2 Hs2] & Hlog2).
  split; [congruence|]. split; [exists (e1 ++ e2); rewrite Hs2, Hs1; now rewrite app_assoc|].
  intros history prompt later E Hlen.
  destruct (Nat.lt_ge_cases (length history) (length (sent w1))) as [Hlt | Hge].
  - rewrite Hs2 in E. destruct (app_cut _ _ _ _ _ E Hlt) as [later1 E1].
    specialize (Hlog1 _ _ _ E1 Hlen).
    destruct (answer w history prompt); [exact I | discriminate | discriminate].
  - rewrite <- (answer_endpoint w1 w) by assumption. now apply (Hlog2 _ _ later).
Qed.

(** A piece that fails ends what it is part of. *)
Lemma sound_exit {A B : Type} w status w1 :
  sound w (@Exit A status) w1 -> sound w (@Exit B status) w1.
Proof.
  intros (He & Hs & Hlog). split; [assumption|]. split; [assumption|].
  intros history prompt later E Hlen. specialize (Hlog _ _ _ E Hlen).
  destruct (answer w history prompt); cbn in *; congruence.
Qed.

Lemma sound_raise {A B : Type} w e w1 :
  sound w (@Raise A e) w1 -> sound w (@Raise B e) w1.
Proof.
  intros (He & Hs & Hlog). split; [assumption|]. split; [assumption|].
  intros history prompt later E Hlen. specialize (Hlog _ _ _ E Hlen).
  destruct (answer w history prompt); cbn in *; congruence.
Qed.

Lemma sound_call prompt w :
  sound w (answer w (sent w) prompt) (posted prompt w).
Proof.
  split; [reflexivity|]. split; [now exists [prompt]|].
  intros history p later E Hlen. cbn in E.
  assert (history = sent w /\ p = prompt) as [-> ->].
  { apply (f_equal length) in E as El. rewrite !length_app in El. cbn in El.
    assert (later = []) as -> by (destruct later; [reflexivity | cbn in El; lia]).
    apply app_inj_tail in E. now destruct E. }
  destruct (answer w (sent w) prompt); cbn; reflexivity.
Qed.

Lemma sound_and_then {B : Type} prompt w (k : string -> outcome B * World) :
  (forall a, sound (posted prompt w) (k a).1 (k a).2) ->
  sound w (and_then (answer w (sent w) prompt) (posted prompt w) k).1
          (and_then (answer w (sent w) prompt) (posted prompt w) k).2.
Proof.
  intros Hk. pose proof (sound_call prompt w) as Hc.
  destruct (answer w (sent w) prompt) as [a| |] eqn:Ea; cbn [and_then fst snd].
  - eapply sound_seq; [exact Hc | apply Hk].
  - exact (sound_exit _ _ _ Hc).
  - exact (sound_raise _ _ _ Hc).
Qed.

Lemma sound_write_one bs total j ch w :
  sound w (write_one bs total j ch w).1 (write_one bs total j ch w).2.
Proof.
  destruct ch as [[n t] o]. rewrite write_one_run. cbv zeta.
  apply sound_and_then. intros body.
  set (w1 := appended _ _).
  apply (sound_world w1); [reflexivity | reflexivity |].
  apply sound_and_then. intros r.
  destruct (S j <? total); [|apply sound_here].
  apply sound_and_then. intros ack. apply sound_here.
Qed.

Lemma sound_write_chapters bs total : forall chs j w,
  sound w (write_chapters bs total j chs w).1 (write_chapters bs total j chs w).2.
Proof.
  induction chs as [|ch chs IH]; intros j w; [apply sound_here|].
  cbn [write_chapters]. unfold bind.
  pose proof (sound_write_one bs total j ch w) as H1.
  destruct (write_one bs total j ch w) as [[j1| |] w1]; cbn [fst snd] in *.
  - eapply sound_seq; [exact H1 | apply IH].
  - exact (sound_exit _ _ _ H1).
  - exact (sound_raise _ _ _ H1).
Qed.

Lemma sound_main w : sound w (main w).1 (main w).2.
Proof.
  apply (sound_world (archived w)); [apply archived_frame | apply archived_frame |].
  rewrite main_run. cbv zeta.
  destruct (fs w !! "input.txt") as [text|]; [|apply sound_here].
  destruct (is_empty _); [apply sound_here|].
  destruct (fs w !! "outline.txt") as [outline|]; [|apply sound_here].
  destruct (csv_reader _) as [rows|]; [|apply sound_here].
  destruct (bool_decide _); [apply sound_here|].
  pose proof (sound_write_chapters (strip (universal_newlines text))
                (length (chapters_of_rows rows)) (chapters_of_rows rows) 0 (archived w)) as H1.
  destruct (write_chapters _ _ _ _ (archived w)) as [[j1| |] w1]; cbn [fst snd] in *.
  - eapply sound_seq; [exact H1|].
    destruct (fs w1 !! "book.txt") as [text'|]; [|apply sound_here].
    apply sound_and_then. intros r. apply sound_here.
  - exact (sound_exit _ _ _ H1).
  - exact (sound_raise _ _ _ H1).
Qed.

Lemma chapters_of_rows_short rows :
  Forall (fun row : list string => length row < 3) rows -> chapters_of_rows rows = [].
Proof.
  induction 1 as [|row rows Hrow _ IH]; [reflexivity|].
  cbn. destruct row as [|c0 [|c1 [|c2 row]]]; try exact IH. cbn in Hrow. lia.
Qed.

Lemma chapters_of_rows_full rows :
  Forall (fun row : list string => 3 <= length row) rows ->
  chapters_of_rows rows = map Run.chapter_of_row rows.
Proof.
  induction 1 as [|row rows Hrow _ IH]; [reflexivity|].
  cbn. destruct row as [|c0 [|c1 [|c2 row]]]; cbn in Hrow; try lia.
  now rewrite IH.
Qed.

Lemma wrote_lookup_book entries w :
  fs w !! "book.txt" = None ->
  wrote entries w !! "book.txt"
  = match entries with [] => None | _ => Some (blocks entries) end.
Proof.
  intros Hb. unfold wrote. destruct entries; [assumption|].
  rewrite lookup_insert_eq. unfold book. now rewrite Hb.
Qed.

Lemma wrote_lookup_other entries w path :
  path <> "book.txt" -> wrote entries w !! path = fs w !! path.
Proof.
  intros Hp. unfold wrote. destruct entries; [reflexivity|].
  now rewrite lookup_insert_ne by congruence.
Qed.

(** What a run leaves in the file system, whatever its outcome: the
    archive, and in book.txt the chapters it wrote. *)
Lemma main_any w :
  exists book_summary entries,
    fs (main w).2 = wrote entries (archived w) /\
    generated (main w).2 book_summary "" entries.
Proof.
  rewrite main_run. cbv zeta.
  assert (Hnone : exists (book_summary : string) entries,
            fs (archived w) = wrote entries (archived w) /\
            generated (archived w) book_summary "" entries)
    by (exists "", []; now split).
  destruct (fs w !! "input.txt") as [text|]; [|exact Hnone].
  destruct (is_empty _); [exact Hnone|].
  destruct (fs w !! "outline.txt") as [outline|]; [|exact Hnone].
  destruct (csv_reader _) as [rows|]; [|exact Hnone].
  destruct (bool_decide _); [exact Hnone|]. clear Hnone.
  destruct (write_chapters _ _ _ _ (archived w)) as [out1 w1] eqn:E1.
  destruct (write_chapters_any _ _ _ _ _ _ _ E1) as (_ & _ & _ & entries & Hfs & _ & Hg & _).
  assert (Hb : book (archived w) = "") by (unfold book; now rewrite archived_book).
  rewrite Hb in Hg.
  exists (strip (universal_newlines text)), entries.
  destruct out1 as [j1| |]; cbn [fst snd]; [|now split|now split].
  destruct (fs w1 !! "book.txt") as [text'|]; [|now split].
  assert (Hposted : forall prompt,
            fs (posted prompt w1) = wrote entries (archived w) /\
            generated (posted prompt w1) (strip (universal_newlines text)) "" entries).
  { intros prompt. split; [assumption|]. clear - Hg. revert Hg. generalize "".
    induction entries as [|[[[n t] o] body] entries IH]; intros story; [exact id|].
    cbn [generated]. intros [(history & later & Hs & Ha) Hrest]. split; [|now apply IH].
    exists history, (later ++ [prompt]). split.
    - cbn. rewrite Hs. now rewrite <- app_assoc.
    - rewrite <- Ha. now apply answer_endpoint. }
  destruct (answer w1 (sent w1) _); cbn [and_then fst snd]; apply Hposted.
Qed.

End LogLemmas.

(** * The claims of the specification *)

(** ** The inference client *)

Section StreamClaims.
Context `{Library}.
Import Fragment Write Run.

Lemma valid_fragments_all lines fragments :
  Forall2 (fun line data => decoded line = Some data) lines fragments ->
  valid_fragments lines = fragments.
Proof.
  induction 1 as [|line data lines fragments Hd _ IH]; [reflexivity|].
  rewrite valid_fragments_cons, Hd. now rewrite IH.
Qed.

Lemma upto_done_none fragments :
  Forall (fun data => done data = false) fragments -> upto_done fragments = fragments.
Proof.
  induction 1 as [|data fragments Hd _ IH]; [reflexivity|].
  cbn. now rewrite Hd, IH.
Qed.

Lemma decoded_all_no_failure lines fragments :
  Forall2 (fun line data => decoded line = Some data) lines fragments ->
  Forall (fun line => failure line = None) lines.
Proof.
  induction 1 as [|line data lines fragments Hd _ IH]; constructor; [|exact IH].
  now apply (decoded_no_failure line data).
Qed.

Lemma call_stream prompt w lines broken :
  endpoint w (sent w) prompt = Stream lines broken ->
  Forall (fun line => failure line = None) lines ->
  Forall well_formed (valid_fragments lines) ->
  broken = false \/ Exists (fun data => done data = true) (valid_fragments lines) ->
  call_ollama_api prompt w
  = (Ok (strip (Text.concat (map text (upto_done (valid_fragments lines))))),
     posted prompt w).
Proof.
  intros He Hnf Hwf Hend. rewrite call_ollama_api_run. unfold answer. rewrite He.
  rewrite read_stream_text by assumption. reflexivity.
Qed.

(** A line at which the decoder raises another exception than
    JSONDecodeError ends the client with it. *)
Lemma call_failure prompt w pre line rest broken e :
  endpoint w (sent w) prompt = Stream (pre ++ line :: rest) broken ->
  Forall (fun line => failure line = None) pre ->
  Forall well_formed (valid_fragments pre) ->
  Forall (fun data => done data = false) (valid_fragments pre) ->
  failure line = Some e ->
  call_ollama_api prompt w = (Raise e, posted prompt w).
Proof.
  intros He Hnf Hwf Hnd Hf. rewrite call_ollama_api_run. unfold answer. rewrite He.
  assert (Hread : forall t, read_stream (pre ++ line :: rest) broken t = Raise e).
  { clear He. induction Hnf as [|l pre Hl _ IH]; intros t.
    - now apply read_stream_failure.
    - cbn [app]. rewrite valid_fragments_cons in Hwf, Hnd.
      destruct (decoded l) as [data|] eqn:E.
      + rewrite (read_stream_fragment _ data) by assumption.
        inversion Hwf as [|? ? Hd Hwf']; subst. inversion Hnd as [|? ? Hn Hnd']; subst.
        rewrite take_fragment_well_formed by assumption. cbn [obind]. rewrite Hn.
        now apply IH.
      + rewrite read_stream_skip by assumption. now apply IH. }
  now rewrite Hread.
Qed.

End StreamClaims.

(** The lines of a concrete stream, one by one. *)
Ltac no_failure :=
  repeat (apply List.Forall_cons; [vm_compute; reflexivity|]); apply List.Forall_nil.

Example hello_world_decodes :
  map (@Fragment.decoded cpython) Example.hello_world
  = [Some (Json.Object [("response", Json.Str "Hello ")]);
     Some (Json.Object [("response", Json.Str "world")]);
     Some (Json.Object [("done", Json.Bool true)])].
Proof. vm_compute. reflexivity. Qed.

(** A line that is JSON and no object ends the client with an exception
    that nothing catches. *)
Example number_as_fragment :
  @Write.read_stream cpython ["42"] false "" = Raise TypeError.
Proof. vm_compute. reflexivity. Qed.

(** C2: for every stream whose lines decode to fragments, each an
    object whose "response", when present, is a text and whose "done",
    when present, is a boolean, and which ends or has a fragment with
    done=true, the client returns the concatenation, in arrival order,
    of the "response" texts of the fragments up to and including the
    first one with done=true, stripped of leading and trailing white
    space.  For the stream [{"response":"Hello "}], [{"response":"world"}],
    [{"done":true}] it returns [Hello world]. *)
Theorem stream_concatenation :
  (forall (L : Library) (w : World) (prompt : string)
          (lines : list string) (broken : bool) (fragments : list Json.value),
     endpoint w (sent w) prompt = Stream lines broken ->
     Forall2 (fun line data => Fragment.decoded line = Some data) lines fragments ->
     Forall Fragment.well_formed fragments ->
     broken = false \/ Exists (fun data => Fragment.done data = true) fragments ->
     Write.call_ollama_api prompt w
     = (Ok (strip (Text.concat (map Fragment.text (Fragment.upto_done fragments)))),
        Run.posted prompt w))
  /\ (forall (w : World) (prompt : string) (broken : bool),
        endpoint w (sent w) prompt = Stream Example.hello_world broken ->
        @Write.call_ollama_api cpython prompt w = (Ok "Hello world", Run.posted prompt w)).
Proof.
  split.
  - intros L w prompt lines broken fragments He Hd Hwf Hend.
    pose proof (decoded_all_no_failure _ _ Hd) as Hnf.
    rewrite <- (valid_fragments_all _ _ Hd) in *. now apply (call_stream _ _ _ broken).
  - intros w prompt broken He.
    rewrite (@call_stream cpython _ _ _ _ He).
    + reflexivity.
    + no_failure.
    + vm_compute. repeat constructor; eexists; (split; [reflexivity|]);
        split; intros v [=]; subst; eauto.
    + right. vm_compute. do 2 apply Exists_cons_tl. now apply Exists_cons_hd.
Qed.

Lemma stream_concatenation_witness :
  @Write.call_ollama_api cpython "Say hello" (Example.world ∅ Example.hello_world)
  = (Ok "Hello world", Run.posted "Say hello" (Example.world ∅ Example.hello_world)).
Proof.
  apply (proj1 stream_concatenation cpython (Example.world ∅ Example.hello_world)
           "Say hello" Example.hello_world false
           [Json.Object [("response", Json.Str "Hello ")];
            Json.Object [("response", Json.Str "world")];
            Json.Object [("done", Json.Bool true)]]).
  - reflexivity.
  - repeat constructor.
  - repeat constructor; eexists; (split; [reflexivity|]);
      split; intros v [=]; subst; eauto.
  - now left.
Defined.

(** What the reference decoder does at the limits of the interpreter:
    a line with an integer literal of 4301 digits, or with 2000 open
    brackets, is not JSON, and the decoder raises ValueError or
    RecursionError at it, not JSONDecodeError. *)
Example decoder_at_its_limits :
  @json_loads cpython Sample.long_literal = Json.Failed ValueError /\
  @json_loads cpython Sample.deep_brackets = Json.Failed RecursionError /\
  @json_loads cpython ("[" +:+ repeat_char "1" 4300) = Json.Invalid /\
  @json_loads cpython (repeat_char "1" 4301 +:+ ".5")
  = Json.Decoded (Json.Number (repeat_char "1" 4301 +:+ ".5")) /\
  @json_loads cpython ("[}" +:+ repeat_char "1" 4301) = Json.Invalid /\
  @json_loads cpython (repeat_char "[" 993) = Json.Failed RecursionError /\
  @json_loads cpython (repeat_char "[" 992) = Json.Invalid.
Proof. vm_compute. repeat split; reflexivity. Qed.

(** C3 as stated fails: [Sample.long_literal] does not parse, yet it is
    not skipped.  Between the fragments of the example it ends the
    client with ValueError, while the stream without it gives
    [Hello world]. *)
Lemma malformed_fragments_skipped_counterexample :
  @Fragment.decoded cpython Sample.long_literal = None /\
  @Write.read_stream cpython Sample.poisoned false "" = Raise ValueError /\
  @Write.read_stream cpython
    (filter (fun line => is_Some (@Fragment.decoded cpython line)) Sample.poisoned) false ""
  = Ok "Hello world" /\
  @Write.call_ollama_api cpython "Say hello" (Example.world ∅ Sample.poisoned)
  = (Raise ValueError, Run.posted "Say hello" (Example.world ∅ Sample.poisoned)).
Proof. vm_compute. repeat split; reflexivity. Qed.

(** C3, amended: a line at which the decoder raises JSONDecodeError is
    skipped and never ends the loop.  When the decoder raises no other
    exception at any line, reading the stream gives what reading it
    without the lines that do not decode gives, and when the fragments
    that do decode are well formed, the client returns the
    concatenation of their "response" texts only, in order, up to the
    terminal fragment.  A line at which the decoder raises another
    exception (RecursionError, ValueError) is not skipped: when it
    comes before a terminal fragment, the client ends with that
    exception. *)
Theorem malformed_fragments_skipped :
  forall (L : Library) (lines : list string) (broken : bool),
    (Forall (fun line => Fragment.failure line = None) lines ->
     (forall generated_text,
        Write.read_stream lines broken generated_text
        = Write.read_stream
            (filter (fun line => is_Some (Fragment.decoded line)) lines)
            broken generated_text)
     /\ (Forall Fragment.well_formed (Fragment.valid_fragments lines) ->
         broken = false
         \/ Exists (fun data => Fragment.done data = true) (Fragment.valid_fragments lines) ->
         forall (w : World) (prompt : string),
           endpoint w (sent w) prompt = Stream lines broken ->
           Write.call_ollama_api prompt w
           = (Ok (strip (Text.concat
                    (map Fragment.text
                       (Fragment.upto_done (Fragment.valid_fragments lines))))),
              Run.posted prompt w)))
    /\ (forall (pre : list string) (line : string) (rest : list string) (e : exn),
          lines = pre ++ line :: rest ->
          Forall (fun line => Fragment.failure line = None) pre ->
          Forall Fragment.well_formed (Fragment.valid_fragments pre) ->
          Forall (fun data => Fragment.done data = false) (Fragment.valid_fragments pre) ->
          Fragment.failure line = Some e ->
          forall (w : World) (prompt : string),
            endpoint w (sent w) prompt = Stream lines broken ->
            Write.call_ollama_api prompt w = (Raise e, Run.posted prompt w)).
Proof.
  intros L lines broken. split.
  - intros Hnf. split.
    + now apply read_stream_valid.
    + intros Hwf Hend w prompt He. now apply (call_stream _ _ _ broken).
  - intros pre line rest e -> Hnf Hwf Hnd Hf w prompt He.
    now apply (call_failure _ _ pre line rest broken).
Qed.

Lemma malformed_fragments_skipped_witness :
  @Write.call_ollama_api cpython "Say hello" (Example.world ∅ Example.hello_world_noisy)
  = (Ok "Hello world", Run.posted "Say hello" (Example.world ∅ Example.hello_world_noisy)).
Proof.
  refine (proj2 (proj1 (malformed_fragments_skipped cpython Example.hello_world_noisy false) _)
            _ _ _ _ _).
  - no_failure.
  - vm_compute. repeat constructor; eexists; (split; [reflexivity|]);
      split; intros v [=]; subst; eauto.
  - now left.
  - reflexivity.
Defined.

(** C10: when the stream ends and no fragment carried done=true, the
    client still returns: the stripped concatenation of the "response"
    texts of all fragments received; for a stream without any line it
    returns the empty text.  (Lines at which the decoder raises another
    exception than JSONDecodeError are the subject of C3.) *)
Theorem stream_without_terminal_fragment :
  (forall (L : Library) (w : World) (prompt : string) (lines : list string),
     endpoint w (sent w) prompt = Stream lines false ->
     Forall (fun line => Fragment.failure line = None) lines ->
     Forall Fragment.well_formed (Fragment.valid_fragments lines) ->
     Forall (fun data => Fragment.done data = false) (Fragment.valid_fragments lines) ->
     Write.call_ollama_api prompt w
     = (Ok (strip (Text.concat (map Fragment.text (Fragment.valid_fragments lines)))),
        Run.posted prompt w))
  /\ (forall (L : Library) (w : World) (prompt : string),
        endpoint w (sent w) prompt = Stream [] false ->
        Write.call_ollama_api prompt w = (Ok "", Run.posted prompt w)).
Proof.
  split.
  - intros L w prompt lines He Hnf Hwf Hnone.
    rewrite (call_stream _ _ _ _ He Hnf Hwf) by now left.
    now rewrite upto_done_none.
  - intros L w prompt He.
    rewrite (call_stream _ _ _ _ He); [reflexivity | constructor | constructor | now left].
Qed.

Lemma stream_without_terminal_fragment_witness :
  @Write.call_ollama_api cpython "Say hello"
    (Example.world ∅ [Example.response_line " Hello "; Example.response_line "world "])
  = (Ok "Hello world",
     Run.posted "Say hello"
       (Example.world ∅ [Example.response_line " Hello "; Example.response_line "world "])).
Proof.
  apply (proj1 stream_without_terminal_fragment cpython _ "Say hello"
           [Example.response_line " Hello "; Example.response_line "world "]).
  - reflexivity.
  - no_failure.
  - vm_compute. repeat constructor; eexists; (split; [reflexivity|]);
      split; intros v [=]; subst; eauto.
  - vm_compute. repeat constructor.
Defined.

Section CountClaims.
Context `{Library}.
Import Write Run.

Lemma count_words_run text w :
  count_words_with_ollama text w
  = and_then (answer w (sent w) (count_prompt text)) (posted (count_prompt text) w)
      (fun generated_response =>
         (Ok (match py_int (filter_chars isdigit generated_response) with
              | Some word_count => word_count
              | None => 0%Z
              end),
          posted (count_prompt text) w)).
Proof. unfold count_words_with_ollama. now rewrite bind_call. Qed.

Lemma filter_chars_none p s :
  all_chars (fun c => negb (p c)) s = true -> filter_chars p s = "".
Proof.
  induction s as [|c s IH]; [reflexivity|]. cbn.
  destruct (p c); [discriminate|]. exact IH.
Qed.

Lemma py_int_two_digits a b :
  isdecimal a = true -> isdecimal b = true ->
  py_int (String a (String b "")) = Some (10 * digit_value a + digit_value b)%Z.
Proof.
  intros Ha Hb. unfold py_int. cbn [is_empty all_chars]. rewrite Ha, Hb. cbn [andb negb].
  pose proof int_max_str_digits_range as Hr.
  destruct (int_max_str_digits =? 0)%N eqn:E0.
  - apply N.eqb_eq in E0. rewrite E0. reflexivity.
  - cbn [orb] in Hr. apply N.leb_le in Hr.
    replace (int_max_str_digits <? N.of_nat (String.length (String a (String b ""))))%N
      with false by (symmetry; apply N.ltb_ge; cbn; lia).
    rewrite andb_false_r. cbn [decimal_value]. f_equal; lia.
Qed.

End CountClaims.

(** C4: the word counter keeps the digit characters of the client's
    answer, in order, and reads them as an integer, with 0 when they
    are no integer.  For the answer [The text contains 42 words.] the
    count is 42, and for every answer without a digit character it is
    0. *)
Theorem word_count_from_digits :
  forall (L : Library) (text : string) (w w' : World) (generated_response : string),
    Write.call_ollama_api (Write.count_prompt text) w = (Ok generated_response, w') ->
    Write.count_words_with_ollama text w
    = (Ok (match Write.py_int (filter_chars isdigit generated_response) with
           | Some word_count => word_count
           | None => 0%Z
           end), w')
    /\ (generated_response = "The text contains 42 words." ->
        Write.count_words_with_ollama text w = (Ok 42%Z, w'))
    /\ (all_chars (fun c => negb (isdigit c)) generated_response = true ->
        Write.count_words_with_ollama text w = (Ok 0%Z, w')).
Proof.
  intros L text w w' r Hcall.
  assert (Hrun : Write.count_words_with_ollama text w
    = (Ok (match Write.py_int (filter_chars isdigit r) with
           | Some word_count => word_count
           | None => 0%Z
           end), w')).
  { rewrite count_words_run. rewrite call_ollama_api_run in Hcall.
    injection Hcall as -> <-. reflexivity. }
  split; [exact Hrun|]. split.
  - intros ->. rewrite Hrun.
    change (filter_chars isdigit "The text contains 42 words.") with "42".
    now rewrite py_int_two_digits.
  - intros Hnone. rewrite Hrun. now rewrite filter_chars_none.
Qed.

Lemma word_count_from_digits_witness :
  @Write.count_words_with_ollama cpython "Some text to count."
    (Example.world ∅ [Example.response_line "The text contains 42 words."; Example.done_line])
  = (Ok 42%Z,
     Run.posted (Write.count_prompt "Some text to count.")
       (Example.world ∅
          [Example.response_line "The text contains 42 words."; Example.done_line])).
Proof.
  assert (Hcall :
    @Write.call_ollama_api cpython (Write.count_prompt "Some text to count.")
      (Example.world ∅
         [Example.response_line "The text contains 42 words."; Example.done_line])
    = (Ok "The text contains 42 words.",
       Run.posted (Write.count_prompt "Some text to count.")
         (Example.world ∅
            [Example.response_line "The text contains 42 words."; Example.done_line])))
    by (vm_compute; reflexivity).
  exact (proj1 (proj2 (word_count_from_digits cpython _ _ _ _ Hcall)) eq_refl).
Defined.

(** ** The heading converter *)

Lemma substitute_match s caps rest :
  match_at false pattern s = Some (caps, rest) ->
  substitute s = "\chapter{" +:+ group 2 caps +:+ "}" +:+ substitute rest.
Proof.
  rewrite match_at_parse, substitute_step.
  destruct (Heading.parse s) as [[[number title] r]|]; [|discriminate].
  intros [= <- <-]. cbn [group Nat.eqb]. unfold Heading.command.
  now rewrite !append_assoc.
Qed.

Lemma substitute_copy c s :
  match_at false pattern (String c s) = None ->
  substitute (String c s) = String c (substitute s).
Proof.
  rewrite match_at_parse, substitute_step.
  now destruct (Heading.parse (String c s)) as [[[number title] r]|].
Qed.

(** C7: the substitution goes through the text from left to right.
    Where the pattern [### Chapter <N>: <Title>] matches, the match is
    replaced by the chapter command whose only argument is the title
    (the second group; the number is dropped) and the substitution goes
    on after the match; a character where the pattern does not match
    is copied, so text in which it matches nowhere is unchanged.  A
    heading on a line of its own, digits N and a title that is not
    empty, becomes the command for its title, the text before and
    after being converted on its own; so for [### Chapter 3: The Storm]
    the output has the command with argument [The Storm]. *)
Theorem heading_conversion :
  (forall s caps rest,
     match_at false pattern s = Some (caps, rest) ->
     substitute s = "\chapter{" +:+ group 2 caps +:+ "}" +:+ substitute rest)
  /\ (forall c s,
        match_at false pattern (String c s) = None ->
        substitute (String c s) = String c (substitute s))
  /\ (forall s,
        (forall a b, s = a +:+ b -> match_at false pattern b = None) ->
        substitute s = s)
  /\ (forall pre number title post,
        Heading.line_start pre ->
        is_empty number = false -> all_chars isdecimal number = true ->
        is_empty title = false -> all_chars not_newline title = true ->
        Heading.line_end post ->
        substitute (pre +:+ "### Chapter " +:+ number +:+ ": " +:+ title +:+ post)
        = substitute pre +:+ "\chapter{" +:+ title +:+ "}" +:+ substitute post)
  /\ (forall pre post,
        Heading.line_start pre -> Heading.line_end post ->
        substitute (pre +:+ "### Chapter 3: The Storm" +:+ post)
        = substitute pre +:+ "\chapter{The Storm}" +:+ substitute post).
Proof.
  split; [exact substitute_match|].
  split; [exact substitute_copy|].
  split; [exact substitute_no_match|].
  assert (Hline : forall pre number title post,
    Heading.line_start pre ->
    is_empty number = false -> all_chars isdecimal number = true ->
    is_empty title = false -> all_chars not_newline title = true ->
    Heading.line_end post ->
    substitute (pre +:+ "### Chapter " +:+ number +:+ ": " +:+ title +:+ post)
    = substitute pre +:+ "\chapter{" +:+ title +:+ "}" +:+ substitute post).
  { intros pre number title post Hpre Hn Hd Ht Hl Hpost.
    pose proof (substitute_line pre number title post Hpre Hn Hd Ht Hl Hpost) as E.
    unfold Heading.line, Heading.command in E. rewrite !append_assoc in E. exact E. }
  split; [exact Hline|].
  intros pre post Hpre Hpost.
  apply (Hline pre "3" "The Storm" post); (assumption || reflexivity).
Qed.

Lemma heading_conversion_witness :
  substitute ("Preface" +:+ nl +:+ "### Chapter 3: The Storm" +:+ nl +:+ "It rained.")
  = substitute ("Preface" +:+ nl) +:+ "\chapter{The Storm}" +:+ substitute (nl +:+ "It rained.").
Proof.
  apply (proj2 (proj2 (proj2 (proj2 heading_conversion))) ("Preface" +:+ nl) (nl +:+ "It rained.")).
  - right. now exists "Preface".
  - right. now exists "It rained.".
Defined.

Example heading_conversion_example :
  substitute ("Preface" +:+ nl +:+ "### Chapter 3: The Storm" +:+ nl +:+ "It rained.")
  = "Preface" +:+ nl +:+ "\chapter{The Storm}" +:+ nl +:+ "It rained.".
Proof. vm_compute. reflexivity. Qed.

(** A title with a line feed is a title the writer can be given: a
    quoted field of the outline may span lines. *)
Example title_with_line_feed :
  option_map Write.chapters_of_rows
    (Csv.reader ("1," +:+ quoted ("A" +:+ nl +:+ "B") +:+ ",x" +:+ nl))
  = Some [("1", "A" +:+ nl +:+ "B", "x")].
Proof. vm_compute. reflexivity. Qed.

(** C9 as stated fails: the number 1 is a digit string and the title
    A<LF>B is not empty, yet the heading of the block is not replaced
    by the command for that title, since the match stops at the line
    feed. *)
Lemma block_conversion_counterexample :
  is_empty "1" = false /\ all_chars isdecimal "1" = true /\
  is_empty ("A" +:+ nl +:+ "B") = false /\
  substitute (Write.chapter_block "1" ("A" +:+ nl +:+ "B") "x")
  <> nl +:+ nl +:+ "\chapter{" +:+ ("A" +:+ nl +:+ "B") +:+ "}" +:+ nl +:+ nl +:+
     substitute ("x" +:+ nl).
Proof.
  repeat split. vm_compute. discriminate.
Qed.

Example block_conversion_line_feed :
  substitute (Write.chapter_block "1" ("A" +:+ nl +:+ "B") "x")
  = nl +:+ nl +:+ "\chapter{A}" +:+ nl +:+ "B" +:+ nl +:+ nl +:+ "x" +:+ nl.
Proof. vm_compute. reflexivity. Qed.

(** C9, amended: for every chapter whose number is a string of decimal
    digits that is not empty and whose title is not empty and has no
    line feed, the substitution turns the block the chapter writer
    produces into the chapter command for the title, between the blank
    lines, followed by the converted body; and a block appended to a
    transcript that is empty or ends with a line feed is converted on
    its own. *)
Theorem block_conversion :
  forall number title body,
    is_empty number = false -> all_chars isdecimal number = true ->
    is_empty title = false -> all_chars not_newline title = true ->
    substitute (Write.chapter_block number title body)
    = nl +:+ nl +:+ "\chapter{" +:+ title +:+ "}" +:+ nl +:+ nl +:+ substitute (body +:+ nl)
    /\ forall transcript,
         Heading.line_start transcript ->
         substitute (transcript +:+ Write.chapter_block number title body)
         = substitute transcript +:+ substitute (Write.chapter_block number title body).
Proof.
  intros number title body Hn Hd Ht Hl. split.
  - unfold Write.chapter_block, Write.chapter_header.
    pose proof (substitute_line (nl +:+ nl) number title (nl +:+ nl +:+ (body +:+ nl))) as E.
    unfold Heading.line, Heading.command in E. rewrite !append_assoc in *.
    rewrite E; try assumption.
    + change (substitute (nl +:+ nl)) with (nl +:+ nl).
      rewrite (substitute_cut nl (nl +:+ body +:+ nl)) by (right; now exists "").
      rewrite (substitute_cut nl (body +:+ nl)) by (right; now exists "").
      change (substitute nl) with nl. now rewrite !append_assoc.
    + right. now exists nl.
    + right. now exists (nl +:+ body +:+ nl).
  - intros transcript Hstart. now apply substitute_cut.
Qed.

Lemma block_conversion_witness :
  substitute (Write.chapter_block "3" "The Storm" "It rained.")
  = nl +:+ nl +:+ "\chapter{" +:+ "The Storm" +:+ "}" +:+ nl +:+ nl +:+
    substitute ("It rained." +:+ nl).
Proof.
  apply (block_conversion "3" "The Storm" "It rained."); reflexivity.
Defined.

(** ** The run *)

Section MainLemmas.
Context `{Library}.
Import Write Run Log.

Lemma is_empty_true s : is_empty s = true <-> s = "".
Proof. destruct s; cbn; split; congruence. Qed.

Lemma is_empty_false s : is_empty s = false <-> s <> "".
Proof. destruct s; cbn; split; congruence. Qed.

Lemma main_no_summary w :
  fs w !! "input.txt" = None -> main w = (Exit 1, archived w).
Proof. intros E. rewrite main_run. cbv zeta. now rewrite E. Qed.

Lemma main_empty_summary w text :
  fs w !! "input.txt" = Some text -> strip (universal_newlines text) = "" ->
  main w = (Exit 0, archived w).
Proof. intros E Hs. rewrite main_run. cbv zeta. now rewrite E, Hs. Qed.

Lemma main_no_outline w text :
  fs w !! "input.txt" = Some text -> strip (universal_newlines text) <> "" ->
  fs w !! "outline.txt" = None ->
  main w = (Exit 1, archived w).
Proof.
  intros E Hs Eo. rewrite main_run. cbv zeta. rewrite E, Eo.
  apply is_empty_false in Hs. now rewrite Hs.
Qed.

Lemma main_no_rows w text outline rows :
  fs w !! "input.txt" = Some text -> strip (universal_newlines text) <> "" ->
  fs w !! "outline.txt" = Some outline ->
  csv_reader (universal_newlines outline) = Some rows ->
  Forall (fun row : list string => length row < 3) rows ->
  main w = (Exit 0, archived w).
Proof.
  intros E Hs Eo Er Hrows. rewrite main_run. cbv zeta. rewrite E, Eo, Er.
  apply is_empty_false in Hs. rewrite Hs.
  now rewrite (chapters_of_rows_short _ Hrows).
Qed.

Lemma generated_posted prompt w bs : forall entries story,
  generated w bs story entries -> generated (posted prompt w) bs story entries.
Proof.
  induction entries as [|[[[n t] o] body] entries IH]; intros story; [exact id|].
  cbn [generated]. intros [(history & later & Hs & Ha) Hrest]. split; [|now apply IH].
  exists history, (later ++ [prompt]). split.
  - cbn. rewrite Hs. now rewrite <- app_assoc.
  - rewrite <- Ha. now apply answer_endpoint.
Qed.

Lemma book_wrote entries w0 w :
  fs w0 !! "book.txt" = None -> fs w = wrote entries w0 -> book w = blocks entries.
Proof.
  intros H0 Hfs. unfold book. rewrite Hfs, wrote_lookup_book by assumption.
  now destruct entries.
Qed.

Lemma block_rows : forall rows bodies,
  map block_of (zip (map chapter_of_row rows) bodies) = zip_with row_block rows bodies.
Proof.
  induction rows as [|row rows IH]; intros [|body bodies]; try reflexivity.
  cbn [map zip zip_with]. rewrite <- IH. f_equal.
  unfold chapter_of_row, block_of, chapter_block, chapter_header, row_block.
  now rewrite !append_assoc.
Qed.

End MainLemmas.

(** C5: the exit status of a run.  A run that returns has status 0.
    With input.txt present and empty after stripping, or with an
    outline in which no row has three fields, the run leaves through
    sys.exit(0).  With input.txt missing the run leaves through
    sys.exit(1) and book.txt does not exist at the end; with
    outline.txt missing it leaves through sys.exit(1); and when the
    endpoint refused any request the run posted, it left through
    sys.exit(1). *)
Theorem exit_status_of_run :
  forall (L : Library) (w : World),
    ((Write.main w).1 = Ok tt -> exit_status (Write.main w).1 = 0%Z)
    /\ (forall text,
          fs w !! "input.txt" = Some text -> strip (universal_newlines text) = "" ->
          (Write.main w).1 = Exit 0)
    /\ (forall text outline rows,
          fs w !! "input.txt" = Some text -> strip (universal_newlines text) <> "" ->
          fs w !! "outline.txt" = Some outline ->
          csv_reader (universal_newlines outline) = Some rows ->
          Forall (fun row : list string => length row < 3) rows ->
          (Write.main w).1 = Exit 0)
    /\ (fs w !! "input.txt" = None ->
        (Write.main w).1 = Exit 1 /\ fs (Write.main w).2 !! "book.txt" = None)
    /\ (forall text,
          fs w !! "input.txt" = Some text -> strip (universal_newlines text) <> "" ->
          fs w !! "outline.txt" = None ->
          (Write.main w).1 = Exit 1)
    /\ (forall history prompt later,
          sent (Write.main w).2 = history ++ prompt :: later ->
          length (sent w) <= length history ->
          endpoint w history prompt = Refused ->
          (Write.main w).1 = Exit 1).
Proof.
  intros L w.
  split; [now intros ->|].
  split; [intros text E Hs; now rewrite (main_empty_summary _ _ E Hs)|].
  split; [intros text outline rows E Hs Eo Er Hr;
          now rewrite (main_no_rows _ _ _ _ E Hs Eo Er Hr)|].
  split; [intros E; rewrite (main_no_summary _ E); split;
          [reflexivity | apply archived_book]|].
  split; [intros text E Hs Eo; now rewrite (main_no_outline _ _ E Hs Eo)|].
  intros history prompt later Hlog Hlen Href.
  destruct (sound_main w) as (_ & _ & Hsound).
  specialize (Hsound _ _ _ Hlog Hlen). unfold Run.answer in Hsound.
  now rewrite Href in Hsound.
Qed.

Lemma exit_status_of_run_witness :
  (@Write.main cpython (mkWorld Example.files "20240101_120000" Example.down [])).1 = Exit 1.
Proof.
  apply (proj2 (proj2 (proj2 (proj2 (proj2
           (exit_status_of_run cpython
              (mkWorld Example.files "20240101_120000" Example.down []))))))
         [] (Write.chapter_prompt "1" "Dawn" "The sun rises" "" "A tale of two storms.") []).
  - vm_compute. reflexivity.
  - cbn. lia.
  - reflexivity.
Defined.

(** C6: when book.txt exists at the start, the first step renames it:
    its content is then under the archive name made from the
    timestamp, and book.txt is gone.  Whatever the outcome of the run,
    at its end the archive still holds the old content, and book.txt is
    absent or holds nothing but the blocks of chapters generated in
    this run. *)
Theorem prior_transcript_archived :
  forall (L : Library) (w : World) (old : string),
    fs w !! "book.txt" = Some old ->
    (exists w0,
       Write.archive_book w = (Ok tt, w0) /\
       fs w0 = <[Write.archive_name (now w) := old]> (delete "book.txt" (fs w)) /\
       fs w0 !! "book.txt" = None)
    /\ fs (Write.main w).2 !! Write.archive_name (now w) = Some old
    /\ exists book_summary entries,
         fs (Write.main w).2 !! "book.txt"
         = match entries with [] => None | _ => Some (Run.blocks entries) end /\
         Run.generated (Write.main w).2 book_summary "" entries.
Proof.
  intros L w old Hold. split; [|split].
  - exists (Run.archived w). split; [apply archive_book_run|].
    split; [now apply archived_archive | apply archived_book].
  - destruct (main_any w) as (bs & entries & Hfs & _). rewrite Hfs.
    rewrite wrote_lookup_other by apply archive_name_not_book.
    rewrite (archived_archive _ _ Hold). apply lookup_insert_eq.
  - destruct (main_any w) as (bs & entries & Hfs & Hg). exists bs, entries.
    split; [|exact Hg]. rewrite Hfs. apply wrote_lookup_book, archived_book.
Qed.

(** C8: when book.txt exists at the start and the input files stop the
    run (the summary is missing or empty, the outline is missing or has
    no row of three fields), the run exits in the world the rename left:
    book.txt is gone, its content is under the archive name, and the
    file system is not the one the run started with. *)
Theorem archive_before_validation :
  forall (L : Library) (w : World) (old : string),
    fs w !! "book.txt" = Some old ->
    Inputs.rejected w ->
    exists status w',
      Write.main w = (Exit status, w') /\
      fs w' = <[Write.archive_name (now w) := old]> (delete "book.txt" (fs w)) /\
      fs w' !! "book.txt" = None /\
      fs w' !! Write.archive_name (now w) = Some old /\
      fs w' <> fs w.
Proof.
  intros L w old Hold Hrej.
  assert (Hfs : fs (Run.archived w)
                = <[Write.archive_name (now w) := old]> (delete "book.txt" (fs w)))
    by now apply archived_archive.
  assert (Hrest : fs (Run.archived w) !! "book.txt" = None /\
                  fs (Run.archived w) !! Write.archive_name (now w) = Some old /\
                  fs (Run.archived w) <> fs w).
  { split; [apply archived_book|]. split; [rewrite Hfs; apply lookup_insert_eq|].
    intros E. pose proof (archived_book w) as Hb. rewrite E in Hb. congruence. }
  unfold Inputs.rejected, Inputs.summary, Inputs.rows in Hrej.
  destruct (fs w !! "input.txt") as [text|] eqn:Ei; cbn in Hrej.
  - destruct Hrej as [Hrej | [Hrej | (bs & Hbs & Hne & Hrej)]]; [discriminate| |].
    + injection Hrej as Hs. exists 0%Z, (Run.archived w).
      split; [now apply (main_empty_summary _ text) | now split].
    + injection Hbs as <-. destruct Hrej as [Eo | (table & Ht & Hshort)].
      * exists 1%Z, (Run.archived w).
        split; [now apply (main_no_outline _ text) | now split].
      * destruct (fs w !! "outline.txt") as [outline|] eqn:Eo; [|discriminate].
        cbn in Ht. exists 0%Z, (Run.archived w).
        split; [now apply (main_no_rows _ text outline table) | now split].
  - exists 1%Z, (Run.archived w). split; [now apply main_no_summary | now split].
Qed.

Lemma prior_transcript_archived_witness :
  fs (@Write.main cpython Example.rerun).2 !! Write.archive_name (now Example.rerun)
  = Some "An earlier book.".
Proof.
  refine (proj1 (proj2 (prior_transcript_archived cpython Example.rerun
                          "An earlier book." _))).
  apply lookup_insert_eq.
Defined.

Lemma archive_before_validation_witness :
  exists status w',
    @Write.main cpython Example.stale = (Exit status, w') /\
    fs w' = <[Write.archive_name (now Example.stale) := "An earlier book."]>
              (delete "book.txt" (fs Example.stale)) /\
    fs w' !! "book.txt" = None /\
    fs w' !! Write.archive_name (now Example.stale) = Some "An earlier book." /\
    fs w' <> fs Example.stale.
Proof.
  apply (archive_before_validation cpython Example.stale "An earlier book.").
  - apply lookup_insert_eq.
  - left. reflexivity.
Defined.

(** C1: for an outline of N rows, each of three fields or more, a run
    that returns has written N blocks to book.txt, in the order of the
    rows: each block is the heading with the stripped number and title
    of its row, followed by the body, and each body is the client's
    reading of the endpoint's answer to the prompt of that chapter.
    After k turns of the loop book.txt holds the first k blocks, so
    each turn only adds to what the turns before it wrote. *)
Theorem chapters_appended_in_order :
  forall (L : Library) (w w' : World) (text outline : string) (rows : list (list string)),
    Write.main w = (Ok tt, w') ->
    fs w !! "input.txt" = Some text ->
    fs w !! "outline.txt" = Some outline ->
    csv_reader (universal_newlines outline) = Some rows ->
    Forall (fun row : list string => 3 <= length row) rows ->
    let book_summary := strip (universal_newlines text) in
    let chapters := map Run.chapter_of_row rows in
    exists bodies,
      length bodies = length rows /\
      fs w' !! "book.txt" = Some (Text.concat (zip_with Run.row_block rows bodies)) /\
      Run.generated w' book_summary "" (zip chapters bodies) /\
      forall k, k <= length rows ->
        exists wk,
          Write.write_chapters book_summary (length rows) 0 (take k chapters) (Run.archived w)
          = (Ok k, wk) /\
          Run.book wk = Text.concat (take k (zip_with Run.row_block rows bodies)).
Proof.
  intros L w w' text outline rows Hmain Ei Eo Er Hrows bs chapters.
  rewrite main_run in Hmain. cbv zeta in Hmain. rewrite Ei, Eo, Er in Hmain.
  fold bs in Hmain. rewrite (chapters_of_rows_full _ Hrows) in Hmain. fold chapters in Hmain.
  destruct (is_empty bs); [discriminate|].
  destruct (bool_decide (chapters = [])) eqn:Ene; [discriminate|].
  apply bool_decide_eq_false in Ene.
  assert (Hlen : length chapters = length rows) by apply length_map.
  rewrite Hlen in Hmain.
  destruct (Write.write_chapters bs (length rows) 0 chapters (Run.archived w))
    as [[j1| |] w1] eqn:E1; [|discriminate|discriminate].
  destruct (write_chapters_ok _ _ _ _ _ _ _ E1) as (_ & entries & Hm & Hfs & Hg & Hpre).
  assert (Hb0 : fs (Run.archived w) !! "book.txt" = None) by apply archived_book.
  assert (Hbook0 : Run.book (Run.archived w) = "") by (unfold Run.book; now rewrite Hb0).
  rewrite Hbook0 in Hg.
  assert (Hzip : zip chapters (entries.*2) = entries) by (rewrite <- Hm; apply zip_fst_snd).
  assert (Hlb : length (entries.*2) = length rows).
  { rewrite length_fmap. rewrite <- Hlen, <- Hm. now rewrite length_fmap. }
  exists (entries.*2). split; [exact Hlb|].
  assert (Hw' : fs w' = fs w1 /\ Run.generated w' bs "" entries).
  { destruct (fs w1 !! "book.txt") as [text'|]; [|discriminate].
    destruct (Run.answer w1 (sent w1) _) as [r| |]; cbn [Run.and_then] in Hmain;
      [|discriminate|discriminate].
    injection Hmain as <-. split; [reflexivity | now apply generated_posted]. }
  destruct Hw' as [Hfs' Hg'].
  split; [|split].
  - rewrite Hfs', Hfs. rewrite wrote_lookup_book by assumption.
    rewrite <- block_rows. fold chapters. rewrite Hzip.
    destruct entries as [|e entries]; [|reflexivity].
    now destruct Ene.
  - now rewrite Hzip.
  - intros k Hk. rewrite <- Hlen in Hk. destruct (Hpre k Hk) as (wk & Hrun & Hwk).
    exists wk. split; [exact Hrun|].
    rewrite (book_wrote _ _ _ Hb0 Hwk).
    rewrite <- block_rows. fold chapters. rewrite Hzip.
    unfold Run.blocks. now rewrite firstn_map.
Qed.

Lemma chapters_appended_in_order_witness :
  exists bodies,
    length bodies = length Example.table /\
    fs (@Write.main cpython Example.fresh).2 !! "book.txt"
    = Some (Text.concat (zip_with Run.row_block Example.table bodies)) /\
    @Run.generated cpython (@Write.main cpython Example.fresh).2
      (strip (universal_newlines ("A tale of two storms." +:+ nl))) ""
      (zip (map Run.chapter_of_row Example.table) bodies) /\
    forall k, k <= length Example.table ->
      exists wk,
        @Write.write_chapters cpython
          (strip (universal_newlines ("A tale of two storms." +:+ nl)))
          (length Example.table) 0
          (take k (map Run.chapter_of_row Example.table)) (Run.archived Example.fresh)
        = (Ok k, wk) /\
        Run.book wk = Text.concat (take k (zip_with Run.row_block Example.table bodies)).
Proof.
  apply (chapters_appended_in_order cpython Example.fresh
           (@Write.main cpython Example.fresh).2
           ("A tale of two storms." +:+ nl)
           ("1, Dawn ,The sun rises" +:+ nl +:+ "2,Dusk,The sun sets" +:+ nl)
           Example.table).
  - vm_compute. reflexivity.
  - vm_compute. reflexivity.
  - vm_compute. reflexivity.
  - vm_compute. reflexivity.
  - repeat constructor.
Defined.

Example fresh_run_transcript :
  fs (@Write.main cpython Example.fresh).2 !! "book.txt"
  = Some (nl +:+ nl +:+ "### Chapter 1: Dawn" +:+ nl +:+ nl +:+
          "Once upon a time it rained." +:+ nl +:+
          nl +:+ nl +:+ "### Chapter 2: Dusk" +:+ nl +:+ nl +:+
          "Once upon a time it rained." +:+ nl).
Proof. vm_compute. reflexivity. Qed.

(** * Further properties of the code *)

(** ** The stream loop at its edges *)

Section ClientLemmas.
Context `{Library}.
Import Fragment Write Run Client.

Lemma take_fragment_readable data generated_text :
  readable data ->
  take_fragment data generated_text = Ok (generated_text +:+ text data, done data).
Proof.
  intros (members & -> & Hr).
  unfold take_fragment, text, done. cbn [has_response get_response done_is_True].
  destruct (Json.dict_get "response" members) as [v|] eqn:Er.
  - destruct (Hr v eq_refl) as [s ->].
    rewrite bool_decide_eq_true_2 by eauto. cbn [obind add_text].
    destruct (Json.dict_get "done" members) as [[| [|] | | | |]|]; reflexivity.
  - rewrite bool_decide_eq_false_2 by (intros [? ?]; discriminate). cbn [obind].
    rewrite append_nil_r.
    destruct (Json.dict_get "done" members) as [[| [|] | | | |]|]; reflexivity.
Qed.

(** Fragments that do not end the stream only add their texts. *)
Lemma read_stream_app pre rest broken generated_text :
  Forall (fun line => failure line = None) pre ->
  Forall readable (valid_fragments pre) ->
  Forall (fun data => done data = false) (valid_fragments pre) ->
  read_stream (pre ++ rest) broken generated_text
  = read_stream rest broken
      (generated_text +:+ Text.concat (map text (valid_fragments pre))).
Proof.
  intros Hnf. revert generated_text.
  induction Hnf as [|line pre Hf _ IH]; intros t Hr Hd.
  - cbn. now rewrite append_nil_r.
  - rewrite valid_fragments_cons in Hr, Hd |- *. rewrite <- app_comm_cons.
    destruct (decoded line) as [data|] eqn:E.
    + inversion Hr; subst. inversion Hd; subst.
      rewrite (read_stream_fragment _ data) by assumption.
      rewrite take_fragment_readable by assumption. cbn [obind].
      replace (done data) with false by congruence.
      rewrite IH by assumption. cbn [map Text.concat]. now rewrite append_assoc.
    + rewrite read_stream_skip by assumption. now apply IH.
Qed.

Lemma take_fragment_not_object data generated_text :
  not_object data ->
  take_fragment data generated_text = Raise TypeError
  \/ take_fragment data generated_text = Raise AttributeError.
Proof.
  intros Hno. unfold take_fragment.
  destruct data as [|b|lexeme|s|items|members]; cbn [has_response obind]; auto.
  - destruct (contains "response" s); cbn; auto.
  - destruct (existsb (Json.is_str "response") items); cbn; auto.
  - now destruct (Hno members).
Qed.

Lemma take_fragment_response_not_text data generated_text :
  response_not_text data -> take_fragment data generated_text = Raise TypeError.
Proof.
  intros (members & v & -> & Hv & Hs). unfold take_fragment.
  cbn [has_response get_response]. rewrite Hv.
  rewrite bool_decide_eq_true_2 by eauto. cbn [obind].
  destruct v; try reflexivity. now destruct (Hs s).
Qed.

End ClientLemmas.

(** X1: a line of the stream that decodes to a value that is no object,
    or to an object whose response is no text, is not skipped: after
    readable fragments without a terminal one, it ends the client with
    TypeError or AttributeError, the request having been posted.  (The
    lines before it are lines the loop gets past: the decoder raises
    no other exception than JSONDecodeError at them.) *)
Theorem fragment_of_wrong_type :
  forall (L : Library) (pre : list string) (line : string) (data : Json.value)
         (rest : list string) (broken : bool) (w : World) (prompt : string),
    Forall (fun line => Fragment.failure line = None) pre ->
    Forall Client.readable (Fragment.valid_fragments pre) ->
    Forall (fun data => Fragment.done data = false) (Fragment.valid_fragments pre) ->
    Fragment.decoded line = Some data ->
    Client.not_object data \/ Client.response_not_text data ->
    endpoint w (sent w) prompt = Stream (pre ++ line :: rest) broken ->
    Write.call_ollama_api prompt w = (Raise TypeError, Run.posted prompt w)
    \/ Write.call_ollama_api prompt w = (Raise AttributeError, Run.posted prompt w).
Proof.
  intros L pre line data rest broken w prompt Hnf Hr Hd Hdec Hbad He.
  rewrite call_ollama_api_run. unfold Run.answer. rewrite He.
  rewrite read_stream_app by assumption.
  rewrite (read_stream_fragment _ data) by assumption.
  destruct Hbad as [Hno | Hnt].
  - destruct (take_fragment_not_object data
               ("" +:+ Text.concat (map Fragment.text (Fragment.valid_fragments pre))) Hno)
      as [-> | ->]; cbn; auto.
  - rewrite take_fragment_response_not_text by assumption. cbn. auto.
Qed.

Lemma fragment_of_wrong_type_witness :
  @Write.call_ollama_api cpython "Say hello"
    (Example.world ∅ [Example.response_line "Hello "; "[1, 2]"; Example.done_line])
  = (Raise TypeError,
     Run.posted "Say hello"
       (Example.world ∅ [Example.response_line "Hello "; "[1, 2]"; Example.done_line]))
  \/ @Write.call_ollama_api cpython "Say hello"
    (Example.world ∅ [Example.response_line "Hello "; "[1, 2]"; Example.done_line])
  = (Raise AttributeError,
     Run.posted "Say hello"
       (Example.world ∅ [Example.response_line "Hello "; "[1, 2]"; Example.done_line])).
Proof.
  apply (fragment_of_wrong_type cpython [Example.response_line "Hello "] "[1, 2]"
           (Json.Array [Json.Number "1"; Json.Number "2"]) [Example.done_line] false).
  - no_failure.
  - vm_compute. repeat constructor. eexists. split; [reflexivity|].
    intros v [= <-]. eauto.
  - vm_compute. repeat constructor.
  - vm_compute. reflexivity.
  - left. intros members. discriminate.
  - reflexivity.
Defined.

(** X2: what follows the terminal fragment is never read.  After
    readable fragments without a terminal one, a readable fragment
    whose done is true makes the client return the stripped text read
    so far, whatever lines follow, also lines at which the decoder
    would raise an exception, and whether or not the connection breaks
    after them.  (The lines before it are lines the loop gets past: the
    decoder raises no other exception than JSONDecodeError at them.) *)
Theorem nothing_read_after_done :
  forall (L : Library) (pre : list string) (line : string) (data : Json.value)
         (rest : list string) (broken : bool) (w : World) (prompt : string),
    Forall (fun line => Fragment.failure line = None) pre ->
    Forall Client.readable (Fragment.valid_fragments pre) ->
    Forall (fun data => Fragment.done data = false) (Fragment.valid_fragments pre) ->
    Fragment.decoded line = Some data ->
    Client.readable data -> Fragment.done data = true ->
    endpoint w (sent w) prompt = Stream (pre ++ line :: rest) broken ->
    Write.call_ollama_api prompt w
    = (Ok (strip (Text.concat (map Fragment.text (Fragment.valid_fragments pre))
                  +:+ Fragment.text data)),
       Run.posted prompt w).
Proof.
  intros L pre line data rest broken w prompt Hnf Hr Hd Hdec Hrd Hdone He.
  rewrite call_ollama_api_run. unfold Run.answer. rewrite He.
  rewrite read_stream_app by assumption.
  rewrite (read_stream_fragment _ data) by assumption.
  rewrite take_fragment_readable by assumption. rewrite Hdone. reflexivity.
Qed.

Lemma nothing_read_after_done_witness :
  @Write.call_ollama_api cpython "Say hello"
    (mkWorld ∅ "20240101_120000"
       (fun _ _ => Stream [Example.response_line "Hello"; Example.done_line; "42"] true) [])
  = (Ok (strip (Text.concat
                  (map Fragment.text
                     (@Fragment.valid_fragments cpython [Example.response_line "Hello"]))
                +:+ Fragment.text (Json.Object [("done", Json.Bool true)]))),
     Run.posted "Say hello"
       (mkWorld ∅ "20240101_120000"
          (fun _ _ => Stream [Example.response_line "Hello"; Example.done_line; "42"] true) [])).
Proof.
  apply (nothing_read_after_done cpython [Example.response_line "Hello"]
           Example.done_line (Json.Object [("done", Json.Bool true)]) ["42"] true).
  - no_failure.
  - vm_compute. repeat constructor. eexists. split; [reflexivity|].
    intros v [= <-]. eauto.
  - vm_compute. repeat constructor.
  - vm_compute. reflexivity.
  - eexists. split; [reflexivity|]. intros v [=].
  - reflexivity.
  - reflexivity.
Defined.

(** X3: only the boolean true ends the stream.  A readable fragment
    whose done is absent, false, or any value other than true (a
    number, a text) adds its text and the loop goes on with the next
    line. *)
Theorem done_must_be_true :
  forall (L : Library) (line : string) (members : list (string * Json.value))
         (lines : list string) (broken : bool) (generated_text : string),
    Fragment.decoded line = Some (Json.Object members) ->
    Client.readable (Json.Object members) ->
    Json.dict_get "done" members <> Some (Json.Bool true) ->
    Write.read_stream (line :: lines) broken generated_text
    = Write.read_stream lines broken
        (generated_text +:+ Fragment.text (Json.Object members)).
Proof.
  intros L line members lines broken t Hdec Hr Hd.
  rewrite (read_stream_fragment _ _ _ _ _ Hdec).
  rewrite take_fragment_readable by assumption. cbn [obind].
  replace (Fragment.done (Json.Object members)) with false; [reflexivity|].
  unfold Fragment.done.
  destruct (Json.dict_get "done" members) as [[| [|] | | | |]|]; try reflexivity.
  now destruct Hd.
Qed.

Lemma done_must_be_true_witness :
  @Write.read_stream cpython
    ["{" +:+ quoted "response" +:+ ":" +:+ quoted "a" +:+ "," +:+ quoted "done" +:+ ":1}";
     Example.response_line "b"] false ""
  = @Write.read_stream cpython [Example.response_line "b"] false
      ("" +:+ Fragment.text
                (Json.Object [("response", Json.Str "a"); ("done", Json.Number "1")])).
Proof.
  apply (done_must_be_true cpython).
  - vm_compute. reflexivity.
  - eexists. split; [reflexivity|]. intros v [= <-]. eauto.
  - vm_compute. discriminate.
Defined.

(** ** What a run does and leaves behind *)

Section MoreMainLemmas.
Context `{Library}.
Import Write Run Log.

Lemma main_rejected w :
  Inputs.rejected w ->
  exists status, main w = (Exit status, archived w) /\ (status = 0 \/ status = 1)%Z.
Proof.
  unfold Inputs.rejected, Inputs.summary, Inputs.rows. intros Hrej.
  destruct (fs w !! "input.txt") as [text|] eqn:Ei; cbn in Hrej.
  - destruct Hrej as [Hrej | [Hrej | (bs & Hbs & Hne & Hrej)]]; [discriminate| |].
    + injection Hrej as Hs. exists 0%Z. split; [now apply (main_empty_summary _ text) | now left].
    + injection Hbs as <-. destruct Hrej as [Eo | (table & Ht & Hshort)].
      * exists 1%Z. split; [now apply (main_no_outline _ text) | now right].
      * destruct (fs w !! "outline.txt") as [outline|] eqn:Eo; [|discriminate].
        cbn in Ht. exists 0%Z.
        split; [now apply (main_no_rows _ text outline table) | now left].
  - exists 1%Z. split; [now apply main_no_summary | now right].
Qed.

Lemma archived_no_book w : fs w !! "book.txt" = None -> archived w = w.
Proof. unfold archived. now intros ->. Qed.

(** The chapters a run writes are the first ones of its outline. *)
Lemma main_prefix w book_summary table :
  Inputs.summary w = Some book_summary -> book_summary <> "" ->
  Inputs.rows w = Some table ->
  exists entries,
    map fst entries = take (length entries) (chapters_of_rows table) /\
    fs (main w).2 = wrote entries (archived w) /\
    generated (main w).2 book_summary "" entries /\
    ((main w).1 = Ok tt -> length entries = length (chapters_of_rows table)).
Proof.
  unfold Inputs.summary, Inputs.rows. intros Hs Hne Hr.
  destruct (fs w !! "input.txt") as [text|] eqn:Ei; [|discriminate].
  cbn in Hs. injection Hs as Hs.
  destruct (fs w !! "outline.txt") as [outline|] eqn:Eo; [|discriminate].
  cbn in Hr.
  rewrite main_run. cbv zeta. rewrite Ei, Eo, Hr, Hs.
  apply is_empty_false in Hne. rewrite Hne.
  destruct (bool_decide (chapters_of_rows table = [])) eqn:Ene.
  - exists []. cbn. repeat split; try reflexivity. discriminate.
  - destruct (write_chapters _ _ _ _ (archived w)) as [out1 w1] eqn:E1.
    destruct (write_chapters_any _ _ _ _ _ _ _ E1) as (_ & _ & _ & entries & Hfs & Hm & Hg & Hout).
    assert (Hb : book (archived w) = "") by (unfold book; now rewrite archived_book).
    rewrite Hb in Hg. exists entries. split; [exact Hm|].
    destruct out1 as [j1| |]; cbn [fst snd];
      [|split; [assumption|split; [assumption|discriminate]]
       |split; [assumption|split; [assumption|discriminate]]].
    destruct (Hout j1 eq_refl) as [Hlen _].
    destruct (fs w1 !! "book.txt") as [text'|];
      [|split; [assumption|split; [assumption|discriminate]]].
    destruct (answer w1 (sent w1) _); cbn [and_then fst snd];
      (split; [assumption|split; [now apply generated_posted|]]);
      first [intros _; exact Hlen | discriminate].
Qed.

Lemma read_stream_no_exit : forall lines broken generated_text status,
  read_stream lines broken generated_text <> Exit status.
Proof.
  induction lines as [|line lines IH]; intros broken t status.
  - cbn. now destruct broken.
  - cbn [read_stream]. destruct (is_empty line); [apply IH|].
    destruct (json_loads line) as [data| |e]; [|apply IH|discriminate].
    unfold take_fragment.
    destruct (has_response data) as [[|]| |] eqn:Eh; cbn [obind];
      try (destruct data; discriminate).
    + destruct (get_response data) as [v| |] eqn:Eg; cbn [obind];
        try (destruct data as [| | | | |members]; cbn in Eg;
             try discriminate; destruct (Json.dict_get "response" members); discriminate).
      destruct (add_text t v) as [t'| |] eqn:Ea; cbn [obind];
        try (destruct v; discriminate).
      destruct (done_is_True data) as [[|]| |] eqn:Ed; cbn [obind];
        try discriminate; try apply IH.
      destruct data as [| | | | |members]; cbn in Ed; try discriminate.
      destruct (Json.dict_get "done" members) as [[| [|] | | | |]|]; discriminate.
    + destruct (done_is_True data) as [[|]| |] eqn:Ed; cbn [obind];
        try discriminate; try apply IH.
      destruct data as [| | | | |members]; cbn in Ed; try discriminate.
      destruct (Json.dict_get "done" members) as [[| [|] | | | |]|]; discriminate.
Qed.

Lemma answer_exit w history prompt status :
  answer w history prompt = Exit status -> status = 1%Z.
Proof.
  unfold answer. destruct (endpoint w history prompt) as [|lines broken].
  - now intros [= <-].
  - destruct (read_stream lines broken "") as [t| |] eqn:E; cbn; try discriminate.
    now destruct (read_stream_no_exit _ _ _ _ E).
Qed.

Lemma write_one_exit bs total j ch w status w' :
  write_one bs total j ch w = (Exit status, w') -> status = 1%Z.
Proof.
  destruct ch as [[n t] o]. rewrite write_one_run. cbv zeta.
  destruct (answer w (sent w) _) as [body| |] eqn:E1; cbn [and_then];
    [| intros [= <- _]; now apply answer_exit in E1 | discriminate].
  destruct (answer _ _ (count_prompt _)) as [r| |] eqn:E2; cbn [and_then];
    [| intros [= <- _]; now apply answer_exit in E2 | discriminate].
  destruct (S j <? total); [|discriminate].
  destruct (answer _ _ (acknowledge_prompt _)) as [a| |] eqn:E3; cbn [and_then];
    [discriminate | intros [= <- _]; now apply answer_exit in E3 | discriminate].
Qed.

Lemma write_chapters_exit bs total : forall chs j w status w',
  write_chapters bs total j chs w = (Exit status, w') -> status = 1%Z.
Proof.
  induction chs as [|ch chs IH]; intros j w status w'; [discriminate|].
  cbn [write_chapters]. unfold bind.
  destruct (write_one bs total j ch w) as [[j1| |] w1] eqn:E1.
  - apply IH.
  - intros [= <- _]. now apply write_one_exit in E1.
  - discriminate.
Qed.

Lemma main_exit w status : (main w).1 = Exit status -> (status = 0 \/ status = 1)%Z.
Proof.
  rewrite main_run. cbv zeta.
  destruct (fs w !! "input.txt") as [text|]; [|intros [= <-]; now right].
  destruct (is_empty _); [intros [= <-]; now left|].
  destruct (fs w !! "outline.txt") as [outline|]; [|intros [= <-]; now right].
  destruct (csv_reader _) as [rows|]; [|discriminate].
  destruct (bool_decide _); [intros [= <-]; now left|].
  destruct (write_chapters _ _ _ _ (archived w)) as [[j1| |] w1] eqn:E1; cbn [fst];
    [| intros [= <-]; right; now apply write_chapters_exit in E1 | discriminate].
  destruct (fs w1 !! "book.txt") as [text'|]; [|discriminate].
  destruct (answer w1 (sent w1) _) as [r| |] eqn:E2; cbn [and_then fst];
    [discriminate | intros [= <-]; right; now apply answer_exit in E2 | discriminate].
Qed.

End MoreMainLemmas.

(** X4: an exception of the client ends the run.  When the client
    raised an exception on the answer to any request the run posted,
    the run ended with that exception, so with exit status 1. *)
Theorem client_exception_ends_run :
  forall (L : Library) (w : World) (history : list string) (prompt : string)
         (later : list string) (e : exn),
    sent (Write.main w).2 = history ++ prompt :: later ->
    length (sent w) <= length history ->
    Run.answer w history prompt = Raise e ->
    (Write.main w).1 = Raise e /\ exit_status (Write.main w).1 = 1%Z.
Proof.
  intros L w history prompt later e Hlog Hlen Ha.
  destruct (sound_main w) as (_ & _ & Hsound).
  specialize (Hsound _ _ _ Hlog Hlen). rewrite Ha in Hsound. cbn in Hsound.
  now rewrite Hsound.
Qed.

Lemma client_exception_ends_run_witness :
  (@Write.main cpython Sample.cut_off).1 = Raise ChunkedEncodingError /\
  exit_status (@Write.main cpython Sample.cut_off).1 = 1%Z.
Proof.
  apply (client_exception_ends_run cpython Sample.cut_off []
           (Write.chapter_prompt "1" "Dawn" "The sun rises" "" "A tale of two storms.") []).
  - vm_compute. reflexivity.
  - cbn. lia.
  - vm_compute. reflexivity.
Defined.

(** X5: a run that the input files stop (summary missing or empty,
    outline missing or without a row of three fields) posts no request;
    when there is no transcript to archive it leaves the file system as
    it is. *)
Theorem rejected_inputs_post_nothing :
  forall (L : Library) (w : World),
    Inputs.rejected w ->
    sent (Write.main w).2 = sent w /\
    (fs w !! "book.txt" = None -> fs (Write.main w).2 = fs w).
Proof.
  intros L w Hrej. destruct (main_rejected w Hrej) as (status & -> & _). cbn [snd].
  split; [apply archived_frame|].
  intros Hb. now rewrite archived_no_book.
Qed.

Lemma rejected_inputs_post_nothing_witness :
  sent (@Write.main cpython (mkWorld ∅ "20240101_120000" Example.down [])).2
  = sent (mkWorld ∅ "20240101_120000" Example.down []) /\
  (fs (mkWorld ∅ "20240101_120000" Example.down []) !! "book.txt" = None ->
   fs (@Write.main cpython (mkWorld ∅ "20240101_120000" Example.down [])).2
   = fs (mkWorld ∅ "20240101_120000" Example.down [])).
Proof.
  apply (rejected_inputs_post_nothing cpython (mkWorld ∅ "20240101_120000" Example.down [])).
  left. reflexivity.
Defined.

(** X6: a run changes no file but book.txt and the archive.  Every
    other path holds at the end what it held at the start, whatever
    the outcome; the archive path too when there was no transcript at
    the start. *)
Theorem run_touches_two_files :
  forall (L : Library) (w : World) (path : string),
    path <> "book.txt" ->
    path <> Write.archive_name (now w) \/ fs w !! "book.txt" = None ->
    fs (Write.main w).2 !! path = fs w !! path.
Proof.
  intros L w path Hp Ha.
  destruct (main_any w) as (bs & entries & Hfs & _). rewrite Hfs.
  rewrite wrote_lookup_other by assumption.
  destruct Ha as [Ha | Hb]; [now apply archived_other | now rewrite archived_no_book].
Qed.

Lemma run_touches_two_files_witness :
  fs (@Write.main cpython Example.fresh).2 !! "input.txt" = fs Example.fresh !! "input.txt".
Proof.
  apply (run_touches_two_files cpython Example.fresh "input.txt").
  - discriminate.
  - right. reflexivity.
Defined.

(** X7: when a run ended outside the writes to book.txt (it returned,
    it left through sys.exit, or it died of an exception the client
    raised on an answer), the chapters in book.txt at its end are whole
    blocks of the first chapters of the outline, in order, each body
    being the answer of the client to the prompt of its chapter;
    book.txt does not exist when no chapter was written, and a run that
    returns wrote all of them.  A run that dies inside a write is not
    covered: it can leave a heading without its body. *)
Theorem failed_run_keeps_prefix :
  forall (L : Library) (w : World) (book_summary : string) (table : list (list string)),
    Inputs.summary w = Some book_summary -> book_summary <> "" ->
    Inputs.rows w = Some table ->
    Ending.outside_writes w (Write.main w).1 (Write.main w).2 ->
    exists entries,
      map fst entries = take (length entries) (Write.chapters_of_rows table) /\
      fs (Write.main w).2 !! "book.txt"
      = match entries with [] => None | _ => Some (Run.blocks entries) end /\
      Run.generated (Write.main w).2 book_summary "" entries /\
      ((Write.main w).1 = Ok tt -> length entries = length (Write.chapters_of_rows table)).
Proof.
  intros L w bs table Hs Hne Hr _.
  destruct (main_prefix w bs table Hs Hne Hr) as (entries & Hm & Hfs & Hg & Hlen).
  exists entries. split; [exact Hm|]. split; [|now split].
  rewrite Hfs. apply wrote_lookup_book, archived_book.
Qed.

Lemma failed_run_keeps_prefix_witness :
  exists entries,
    map fst entries = take (length entries) (Write.chapters_of_rows Example.table) /\
    fs (@Write.main cpython Sample.interrupted).2 !! "book.txt"
    = match entries with [] => None | _ => Some (Run.blocks entries) end /\
    @Run.generated cpython (@Write.main cpython Sample.interrupted).2
      "A tale of two storms." "" entries /\
    ((@Write.main cpython Sample.interrupted).1 = Ok tt ->
     length entries = length (Write.chapters_of_rows Example.table)).
Proof.
  apply (failed_run_keeps_prefix cpython Sample.interrupted
           "A tale of two storms." Example.table).
  - vm_compute. reflexivity.
  - discriminate.
  - vm_compute. reflexivity.
  - right. left. exists 1%Z. vm_compute. reflexivity.
Defined.

(** The run of [Sample.interrupted] fails at the first request of the
    second chapter and keeps the first chapter. *)
Example interrupted_run :
  (@Write.main cpython Sample.interrupted).1 = Exit 1 /\
  fs (@Write.main cpython Sample.interrupted).2 !! "book.txt"
  = Some (nl +:+ nl +:+ "### Chapter 1: Dawn" +:+ nl +:+ nl +:+
          "Once upon a time it rained." +:+ nl).
Proof. vm_compute. split; reflexivity. Qed.

(** X8: once the command line is parsed, the exit status of a run is 0
    or 1, whatever the files and the endpoint.  (The run is modelled
    from the statement after parse_arguments on; argparse itself ends
    the process with status 2 on a command line it refuses.) *)
Theorem exit_status_zero_or_one :
  forall (L : Library) (w : World),
    exit_status (Write.main w).1 = 0%Z \/ exit_status (Write.main w).1 = 1%Z.
Proof.
  intros L w. destruct (Write.main w).1 as [[]|status|e] eqn:E; cbn.
  - now left.
  - exact (main_exit w status E).
  - now right.
Qed.

(** ** The requests a run posts *)

Section RequestLemmas.
Context `{Library}.
Import Write Run.

Lemma write_one_ok bs total j n t o w j' w' :
  write_one bs total j (n, t, o) w = (Ok j', w') ->
  exists body,
    let after := book w +:+ chapter_block n t body in
    j' = S j /\
    fs w' = <["book.txt" := after]> (fs w) /\
    sent w' = sent w
              ++ chapter_prompt n t o (universal_newlines (book w)) bs
              :: count_prompt (universal_newlines after)
              :: (if S j <? total then [acknowledge_prompt (universal_newlines after)] else []).
Proof.
  rewrite write_one_run. cbv zeta.
  destruct (answer w (sent w) _) as [body| |]; cbn [and_then]; [|discriminate|discriminate].
  set (w1 := appended _ _).
  assert (Hb : book w1 = book w +:+ chapter_block n t body)
    by (apply (book_insert _ _ (fs w)); reflexivity).
  rewrite Hb.
  destruct (answer w1 (sent w1) _) as [r| |]; cbn [and_then]; [|discriminate|discriminate].
  destruct (S j <? total).
  - destruct (answer _ _ (acknowledge_prompt _)); cbn [and_then];
      [|discriminate|discriminate].
    intros [= <- <-]. exists body. split; [reflexivity|]. split; [reflexivity|].
    cbn. now rewrite <- !app_assoc.
  - intros [= <- <-]. exists body. split; [reflexivity|]. split; [reflexivity|].
    cbn. now rewrite <- !app_assoc.
Qed.

Lemma write_chapters_log bs total : forall chs j w j' w',
  write_chapters bs total j chs w = (Ok j', w') ->
  exists entries,
    map fst entries = chs /\
    fs w' = wrote entries w /\
    sent w' = sent w ++ Requests.of_chapters bs total j (book w) entries.
Proof.
  induction chs as [|[[n t] o] chs IH]; intros j w j' w' Hrun.
  - cbn in Hrun. injection Hrun as <- <-. exists []. cbn.
    now rewrite app_nil_r.
  - cbn [write_chapters] in Hrun. unfold bind in Hrun.
    destruct (write_one bs total j (n, t, o) w) as [[j1| |] w1] eqn:E1;
      [|discriminate|discriminate].
    destruct (write_one_ok _ _ _ _ _ _ _ _ _ E1) as (body & -> & Hfs & Hs).
    destruct (IH _ _ _ _ Hrun) as (entries & Hm & Hfs' & Hs').
    exists (((n, t, o), body) :: entries). split; [cbn; now rewrite Hm|].
    split; [rewrite Hfs'; now apply wrote_cons|].
    rewrite Hs', Hs, (book_insert _ _ _ Hfs). cbn [Requests.of_chapters].
    rewrite <- !app_assoc. reflexivity.
Qed.

Lemma of_chapters_length bs total : forall entries j story,
  j + length entries = total ->
  length (Requests.of_chapters bs total j story entries)
  + match entries with [] => 0 | _ => 1 end
  = 3 * length entries.
Proof.
  induction entries as [|[[[n t] o] body] entries IH]; intros j story Hj; [reflexivity|].
  cbn [Requests.of_chapters length] in *.
  specialize (IH (S j) (story +:+ chapter_block n t body) ltac:(lia)).
  destruct entries as [|e entries].
  - replace (S j <? total) with false by (symmetry; apply Nat.ltb_ge; cbn in Hj; lia).
    reflexivity.
  - replace (S j <? total) with true by (symmetry; apply Nat.ltb_lt; cbn in Hj; lia).
    rewrite length_app. cbn [length] in *. lia.
Qed.

End RequestLemmas.

(** X9: the requests of a run that returns.  For N chapters the run
    posts, in this order, for each chapter the chapter prompt, the
    count prompt and, except after the last chapter, the
    acknowledgement prompt, each with the transcript as it stood, and
    at the end the summary prompt with the whole transcript: 3 N
    requests. *)
Theorem requests_of_a_run :
  forall (L : Library) (w w' : World) (book_summary : string) (table : list (list string)),
    Write.main w = (Ok tt, w') ->
    Inputs.summary w = Some book_summary ->
    Inputs.rows w = Some table ->
    exists entries,
      map fst entries = Write.chapters_of_rows table /\
      fs w' !! "book.txt" = Some (Run.blocks entries) /\
      sent w' = sent w
                ++ Requests.of_chapters book_summary (length entries) 0 "" entries
                ++ [Write.summary_prompt (universal_newlines (Run.blocks entries))] /\
      length (sent w') = length (sent w) + 3 * length entries.
Proof.
  intros L w w' bs table Hmain Hs Hr.
  unfold Inputs.summary, Inputs.rows in Hs, Hr.
  destruct (fs w !! "input.txt") as [text|] eqn:Ei; [|discriminate].
  cbn in Hs. injection Hs as Hs.
  destruct (fs w !! "outline.txt") as [outline|] eqn:Eo; [|discriminate].
  cbn in Hr.
  rewrite main_run in Hmain. cbv zeta in Hmain. rewrite Ei, Eo, Hr, Hs in Hmain.
  destruct (is_empty bs); [discriminate|].
  destruct (bool_decide (Write.chapters_of_rows table = [])) eqn:Ene; [discriminate|].
  apply bool_decide_eq_false in Ene.
  destruct (Write.write_chapters _ _ _ _ (Run.archived w)) as [[j1| |] w1] eqn:E1;
    [|discriminate|discriminate].
  destruct (write_chapters_log _ _ _ _ _ _ _ E1) as (entries & Hm & Hfs & Hsent).
  assert (Hb0 : fs (Run.archived w) !! "book.txt" = None) by apply archived_book.
  assert (Hbook0 : Run.book (Run.archived w) = "") by (unfold Run.book; now rewrite Hb0).
  assert (Hlen : length (Write.chapters_of_rows table) = length entries)
    by (rewrite <- Hm; apply length_map).
  assert (Hne : entries <> []) by (intros ->; now destruct Ene).
  assert (Hbk : fs w1 !! "book.txt" = Some (Run.blocks entries)).
  { rewrite Hfs, wrote_lookup_book by assumption. now destruct entries. }
  rewrite Hbk in Hmain.
  destruct (Run.answer w1 (sent w1) _) as [r| |]; cbn [Run.and_then] in Hmain;
    [|discriminate|discriminate].
  injection Hmain as <-. exists entries. split; [exact Hm|]. split; [exact Hbk|].
  assert (Hlog : sent (Run.posted
                   (Write.summary_prompt (universal_newlines (Run.blocks entries))) w1)
                 = sent w
                   ++ Requests.of_chapters bs (length entries) 0 "" entries
                   ++ [Write.summary_prompt (universal_newlines (Run.blocks entries))]).
  { cbn [Run.posted sent]. rewrite Hsent, Hbook0, Hlen.
    destruct (archived_frame w) as (_ & _ & ->). now rewrite <- app_assoc. }
  split; [exact Hlog|].
  rewrite Hlog, !length_app. cbn [length].
  pose proof (of_chapters_length bs (length entries) entries 0 "" eq_refl) as Hl.
  destruct entries; [now destruct Hne | lia].
Qed.

Lemma requests_of_a_run_witness :
  exists entries,
    map fst entries = Write.chapters_of_rows Example.table /\
    fs (@Write.main cpython Example.fresh).2 !! "book.txt" = Some (Run.blocks entries) /\
    sent (@Write.main cpython Example.fresh).2
    = sent Example.fresh
      ++ Requests.of_chapters "A tale of two storms." (length entries) 0 "" entries
      ++ [Write.summary_prompt (universal_newlines (Run.blocks entries))] /\
    length (sent (@Write.main cpython Example.fresh).2)
    = length (sent Example.fresh) + 3 * length entries.
Proof.
  apply (requests_of_a_run cpython Example.fresh (@Write.main cpython Example.fresh).2
           "A tale of two storms." Example.table).
  - vm_compute. reflexivity.
  - vm_compute. reflexivity.
  - vm_compute. reflexivity.
Defined.

(** ** The pattern and the substitution *)

Lemma span_all_chars cls s : all_chars cls (fst (span cls s)) = true.
Proof.
  induction s as [|c s IH]; [reflexivity|]. cbn [span].
  destruct (cls c) eqn:E; [|reflexivity].
  destruct (span cls s) as [a b]. cbn in *. now rewrite E, IH.
Qed.

Lemma span_rest cls s :
  match snd (span cls s) with
  | String c _ => cls c = false
  | EmptyString => True
  end.
Proof.
  induction s as [|c s IH]; [exact I|]. cbn [span].
  destruct (cls c) eqn:E; [|exact E].
  now destruct (span cls s) as [a b].
Qed.

Lemma not_newline_false c : not_newline c = false -> c = LF.
Proof.
  unfold not_newline. destruct (Ascii.eqb_spec c LF); [trivial | discriminate].
Qed.

(** What a successful reading of the pattern says about the text. *)
Lemma parse_sound s number title rest :
  Heading.parse s = Some (number, title, rest) ->
  s = Heading.line number title +:+ rest /\
  is_empty number = false /\ all_chars isdecimal number = true /\
  is_empty title = false /\ all_chars not_newline title = true /\
  Heading.line_end rest.
Proof.
  unfold Heading.parse.
  destruct (strip_prefix "### Chapter " s) as [r1|] eqn:E1; [|discriminate].
  pose proof (span_append isdecimal r1) as Ha1.
  pose proof (span_all_chars isdecimal r1) as Hd1.
  destruct (span isdecimal r1) as [ds r2]. cbn [fst snd] in *.
  destruct (is_empty ds) eqn:Ee1; [discriminate|].
  destruct (strip_prefix ": " r2) as [r3|] eqn:E3; [|discriminate].
  pose proof (span_append not_newline r3) as Ha3.
  pose proof (span_all_chars not_newline r3) as Hd3.
  pose proof (span_rest not_newline r3) as Hr3.
  destruct (span not_newline r3) as [ts r4]. cbn [fst snd] in *.
  destruct (is_empty ts) eqn:Ee3; [discriminate|].
  intros [= <- <- <-].
  apply strip_prefix_length in E1, E3. subst s r1 r2 r3.
  split; [unfold Heading.line; now rewrite !append_assoc|].
  repeat (split; [assumption|]).
  destruct r4 as [|c r4]; [now left|]. right.
  apply not_newline_false in Hr3. subst c. now exists r4.
Qed.

(** X10: where the pattern matches.  The pattern matches at the start
    of a text exactly when the text starts with [### Chapter ], a
    non-empty run of decimal digits, a colon and a blank, and a
    non-empty title without line feed that runs to the end of the line;
    group 1 is the number and group 2 the title.  So the title is never
    cut short, and a heading without title or with a number that is not
    in decimal digits is not matched. *)
Theorem pattern_matches_headings :
  forall (must_advance : bool) (s : string) (caps : captures) (rest : string),
    match_at must_advance pattern s = Some (caps, rest) <->
    exists number title,
      s = "### Chapter " +:+ number +:+ ": " +:+ title +:+ rest /\
      is_empty number = false /\ all_chars isdecimal number = true /\
      is_empty title = false /\ all_chars not_newline title = true /\
      Heading.line_end rest /\
      caps = [(2, title); (1, number)].
Proof.
  intros must_advance s caps rest. rewrite match_at_parse. split.
  - destruct (Heading.parse s) as [[[number title] r]|] eqn:E; [|discriminate].
    intros [= <- <-]. exists number, title.
    destruct (parse_sound _ _ _ _ E) as (Hs & Hn & Hd & Ht & Hl & Hr).
    unfold Heading.line in Hs. rewrite !append_assoc in Hs. now repeat split.
  - intros (number & title & -> & Hn & Hd & Ht & Hl & Hr & ->).
    pose proof (parse_line number title rest Hn Hd Ht Hl Hr) as E.
    unfold Heading.line in E. rewrite !append_assoc in E. now rewrite E.
Qed.

Lemma strip_prefix_lf p : forall s y,
  all_chars not_newline p = true ->
  strip_prefix p (s +:+ nl +:+ y)
  = option_map (fun r => r +:+ nl +:+ y) (strip_prefix p s).
Proof.
  induction p as [|a p IH]; intros s y Hp; [reflexivity|].
  cbn [all_chars] in Hp. apply andb_true_iff in Hp as [Ha Hp].
  destruct s as [|b s].
  - rewrite append_nil_l. unfold nl. rewrite append_cons, append_nil_l.
    cbn [strip_prefix]. unfold not_newline in Ha.
    now destruct (Ascii.eqb a LF).
  - rewrite append_cons. cbn [strip_prefix].
    destruct (Ascii.eqb a b); [now apply IH | reflexivity].
Qed.

Lemma span_lf cls s y :
  cls LF = false ->
  span cls (s +:+ nl +:+ y) = (fst (span cls s), snd (span cls s) +:+ nl +:+ y).
Proof.
  intros Hcls. induction s as [|b s IH].
  - rewrite append_nil_l. unfold nl. rewrite append_cons, append_nil_l.
    cbn [span]. now rewrite Hcls.
  - rewrite append_cons. cbn [span]. destruct (cls b); [|reflexivity].
    rewrite IH. now destruct (span cls s).
Qed.

Lemma parse_lf s y :
  Heading.parse (s +:+ nl +:+ y)
  = match Heading.parse s with
    | Some (number, title, rest) => Some (number, title, rest +:+ nl +:+ y)
    | None => None
    end.
Proof.
  unfold Heading.parse. rewrite strip_prefix_lf by reflexivity.
  destruct (strip_prefix "### Chapter " s) as [r1|]; [|reflexivity].
  cbn [option_map]. rewrite span_lf by reflexivity.
  destruct (span isdecimal r1) as [ds r2]. cbn [fst snd].
  destruct (is_empty ds); [reflexivity|].
  rewrite strip_prefix_lf by reflexivity.
  destruct (strip_prefix ": " r2) as [r3|]; [|reflexivity].
  cbn [option_map]. rewrite span_lf by reflexivity.
  destruct (span not_newline r3) as [ts r4]. cbn [fst snd].
  now destruct (is_empty ts).
Qed.

Lemma substitute_lf s y :
  substitute (s +:+ nl +:+ y) = substitute s +:+ nl +:+ substitute y.
Proof.
  remember (String.length s) as n eqn:Hn. revert s Hn.
  induction n as [n IH] using lt_wf_ind. intros s Hn.
  rewrite (substitute_step (s +:+ nl +:+ y)), (substitute_step s), parse_lf.
  destruct (Heading.parse s) as [[[number title] rest]|] eqn:E.
  - rewrite append_assoc. f_equal.
    apply (IH (String.length rest)); [|reflexivity].
    apply parse_shorter in E. lia.
  - destruct s as [|c s].
    + reflexivity.
    + rewrite !append_cons. f_equal.
      apply (IH (String.length s)); [|reflexivity]. subst n. cbn. lia.
Qed.

(** X11: the substitution works line by line: the conversion of two
    texts with a line feed between them is the conversion of each with
    the line feed between them, and the conversion of lines joined by
    line feeds is the joined conversion of the lines. *)
Theorem conversion_line_by_line :
  (forall a b, substitute (a +:+ nl +:+ b) = substitute a +:+ nl +:+ substitute b)
  /\ (forall lines, substitute (Pipeline.join_lines lines) = Pipeline.join_lines (map substitute lines)).
Proof.
  split; [exact substitute_lf|].
  induction lines as [|line lines IH]; [reflexivity|].
  destruct lines as [|line' lines]; [reflexivity|].
  change (Pipeline.join_lines (line :: line' :: lines))
    with (line +:+ nl +:+ Pipeline.join_lines (line' :: lines)).
  rewrite substitute_lf, IH. reflexivity.
Qed.

Lemma span_whole cls s : all_chars cls s = true -> span cls s = (s, "").
Proof.
  intros Hs. rewrite <- (append_nil_r s) at 1. now apply span_all.
Qed.

Lemma all_chars_append cls a b :
  all_chars cls (a +:+ b) = all_chars cls a && all_chars cls b.
Proof.
  induction a as [|c a IH]; [reflexivity|].
  rewrite append_cons. cbn [all_chars]. now rewrite IH, andb_assoc.
Qed.

(** X12: at most one command per line.  A line without line feed
    either has no match at any position and is left as it is, or it is
    some text followed by a heading that runs to the end of the line,
    with no match starting before it: the text stays, and the heading,
    with everything after the colon and the blank as its title, becomes
    one command. *)
Theorem one_command_per_line :
  forall s,
    all_chars not_newline s = true ->
    ((forall a b, s = a +:+ b -> match_at false pattern b = None) /\ substitute s = s)
    \/ exists pre number title,
         s = pre +:+ "### Chapter " +:+ number +:+ ": " +:+ title /\
         is_empty number = false /\ all_chars isdecimal number = true /\
         is_empty title = false /\
         (forall a b, pre = a +:+ b -> b <> "" ->
            match_at false pattern (b +:+ "### Chapter " +:+ number +:+ ": " +:+ title) = None) /\
         substitute s = pre +:+ "\chapter{" +:+ title +:+ "}".
Proof.
  induction s as [|c s IH]; intros Hs.
  - left. split; [|reflexivity]. intros a b Hab.
    destruct a; [|discriminate]. destruct b; [reflexivity | discriminate].
  - rewrite substitute_step.
    destruct (Heading.parse (String c s)) as [[[number title] rest]|] eqn:E.
    + right. destruct (parse_sound _ _ _ _ E) as (Heq & Hn & Hd & Ht & Hl & Hr).
      assert (rest = "") as ->.
      { destruct Hr as [-> | [x ->]]; [reflexivity|].
        rewrite Heq in Hs. rewrite !all_chars_append in Hs.
        apply andb_true_iff in Hs as [_ Hs]. apply andb_true_iff in Hs as [Hs _].
        discriminate. }
      exists "", number, title. rewrite append_nil_r in Heq.
      split; [rewrite Heq; reflexivity|].
      repeat (split; [assumption|]). split.
      * intros a b Hab Hb. destruct a; [|discriminate]. destruct b; [now destruct Hb | discriminate].
      * rewrite substitute_nil, append_nil_r. reflexivity.
    + cbn [all_chars] in Hs. apply andb_true_iff in Hs as [Hc Hs].
      assert (Hhere : match_at false pattern (String c s) = None)
        by (rewrite match_at_parse; now rewrite E).
      destruct (IH Hs) as [[Hno Hsub] | (pre & number & title & Heq & Hn & Hd & Ht & Hpre & Hsub)].
      * left. split; [|now rewrite Hsub].
        intros a b Hab. destruct a as [|c' a].
        -- rewrite append_nil_l in Hab. now subst b.
        -- rewrite append_cons in Hab. injection Hab as _ Hab. now apply (Hno a b).
      * right. exists (String c pre), number, title.
        split; [rewrite append_cons; now rewrite Heq|].
        repeat (split; [assumption|]). split.
        -- intros a b Hab Hb. destruct a as [|c' a].
           ++ rewrite append_nil_l in Hab. subst b. rewrite append_cons, <- Heq. exact Hhere.
           ++ rewrite append_cons in Hab. injection Hab as _ Hab. now apply (Hpre a b).
        -- rewrite Hsub. now rewrite append_cons.
Qed.

Lemma one_command_per_line_witness :
  ((forall a b, "See ### Chapter 7: Rain ### Chapter 8: Sun" = a +:+ b ->
      match_at false pattern b = None) /\
   substitute "See ### Chapter 7: Rain ### Chapter 8: Sun"
   = "See ### Chapter 7: Rain ### Chapter 8: Sun")
  \/ exists pre number title,
       "See ### Chapter 7: Rain ### Chapter 8: Sun"
       = pre +:+ "### Chapter " +:+ number +:+ ": " +:+ title /\
       is_empty number = false /\ all_chars isdecimal number = true /\
       is_empty title = false /\
       (forall a b, pre = a +:+ b -> b <> "" ->
          match_at false pattern (b +:+ "### Chapter " +:+ number +:+ ": " +:+ title) = None) /\
       substitute "See ### Chapter 7: Rain ### Chapter 8: Sun"
       = pre +:+ "\chapter{" +:+ title +:+ "}".
Proof.
  apply (one_command_per_line "See ### Chapter 7: Rain ### Chapter 8: Sun").
  reflexivity.
Defined.

Example two_headings_in_a_line :
  substitute "See ### Chapter 7: Rain ### Chapter 8: Sun"
  = "See \chapter{Rain ### Chapter 8: Sun}".
Proof. vm_compute. reflexivity. Qed.

(** ** The converter after the writer *)

Section PipelineLemmas.
Context `{Library}.
Import Write Run Regex Convert Pipeline.

Lemma universal_newlines_no_cr a b :
  all_chars not_cr a = true ->
  universal_newlines (a +:+ b) = a +:+ universal_newlines b.
Proof.
  induction a as [|c a IH]; intros Ha; [reflexivity|].
  cbn [all_chars] in Ha. apply andb_true_iff in Ha as [Hc Ha].
  rewrite !append_cons. cbn [universal_newlines].
  unfold not_cr in Hc. destruct (Ascii.eqb c CR); [discriminate|].
  now rewrite IH.
Qed.

Lemma universal_newlines_lf a b :
  universal_newlines (a +:+ nl +:+ b)
  = universal_newlines (a +:+ nl) +:+ universal_newlines b.
Proof.
  induction a as [|c a IH].
  - reflexivity.
  - rewrite !append_cons. cbn [universal_newlines].
    destruct (Ascii.eqb c CR).
    + destruct a as [|d a].
      * reflexivity.
      * rewrite !append_cons in *. destruct (Ascii.eqb d LF).
        -- exact IH.
        -- rewrite append_cons. now rewrite IH.
    + rewrite append_cons. now rewrite IH.
Qed.

Lemma universal_newlines_ends_nl a :
  Heading.ends_nl (universal_newlines (a +:+ nl)).
Proof.
  induction a as [|c a IH].
  - now exists "".
  - destruct IH as [x Hx]. rewrite append_cons. cbn [universal_newlines].
    destruct (Ascii.eqb c CR).
    + destruct a as [|d a].
      * now exists "".
      * rewrite append_cons in *. destruct (Ascii.eqb d LF).
        -- now exists x.
        -- exists (String LF x). now rewrite Hx.
    + exists (String c x). now rewrite Hx.
Qed.

Lemma decimal_not_cr s : all_chars isdecimal s = true -> all_chars not_cr s = true.
Proof.
  induction s as [|c s IH]; [reflexivity|]. cbn [all_chars].
  intros [Hc Hs]%andb_true_iff. rewrite (IH Hs), andb_true_r.
  unfold not_cr. destruct (Ascii.eqb c CR) eqn:E; [|reflexivity].
  apply Ascii.eqb_eq in E. subst c. discriminate.
Qed.

Lemma substitute_heading number title :
  is_empty number = false -> all_chars isdecimal number = true ->
  is_empty title = false -> all_chars not_newline title = true ->
  substitute (Heading.line number title) = Heading.command title.
Proof.
  intros Hn Hd Ht Hl.
  pose proof (substitute_line "" number title "" (or_introl eq_refl) Hn Hd Ht Hl
                (or_introl eq_refl)) as E.
  rewrite append_nil_l, append_nil_r, substitute_nil, append_nil_l, append_nil_r in E.
  exact E.
Qed.

Lemma substitute_nl s : substitute (nl +:+ s) = nl +:+ substitute s.
Proof. exact (substitute_lf "" s). Qed.

Lemma convert_block n t o body :
  plain (n, t, o) ->
  substitute (universal_newlines (chapter_block n t body))
  = latex_block ((n, t, o), body).
Proof.
  intros (Hn & Hd & Ht & Hl & Hcr).
  unfold chapter_block, chapter_header, latex_block.
  assert (Hpre : all_chars not_cr
            (nl +:+ nl +:+ "### Chapter " +:+ n +:+ ": " +:+ t +:+ nl +:+ nl) = true).
  { rewrite !all_chars_append, Hcr, (decimal_not_cr _ Hd). reflexivity. }
  rewrite (universal_newlines_no_cr _ _ Hpre).
  rewrite !append_assoc, !substitute_nl.
  replace ("### Chapter " +:+ n +:+ ": " +:+ t +:+ nl +:+ nl +:+ universal_newlines (body +:+ nl))
    with (Heading.line n t +:+ nl +:+ (nl +:+ universal_newlines (body +:+ nl)))
    by (unfold Heading.line; now rewrite !append_assoc).
  rewrite substitute_lf, substitute_nl.
  now rewrite substitute_heading.
Qed.

Lemma block_ends_nl n t body :
  exists x, chapter_block n t body = x +:+ nl.
Proof.
  exists (chapter_header n t +:+ body). unfold chapter_block. now rewrite append_assoc.
Qed.

Lemma convert_blocks : forall entries,
  Forall plain (map fst entries) ->
  substitute (universal_newlines (blocks entries)) = Text.concat (map latex_block entries).
Proof.
  induction entries as [|[[[n t] o] body] entries IH]; intros Hp; [reflexivity|].
  cbn [map fst] in Hp. apply Forall_cons in Hp as [Hp Hps].
  rewrite blocks_cons. cbn [block_of map Text.concat].
  destruct (block_ends_nl n t body) as [x Hx].
  rewrite Hx, append_assoc, universal_newlines_lf.
  rewrite substitute_cut by (right; apply universal_newlines_ends_nl).
  rewrite <- Hx, (IH Hps). f_equal. exact (convert_block n t o body Hp).
Qed.

Lemma convert_run w :
  convert w
  = match fs w !! "book.txt" with
    | Some content =>
        (Ok tt, with_fs (<["output.txt" := substitute (universal_newlines content)]> (fs w)) w)
    | None => (Raise FileNotFoundError, w)
    end.
Proof.
  unfold convert, read_or_raise, read_text, bind, input_file, output_file.
  destruct (fs w !! "book.txt"); reflexivity.
Qed.

End PipelineLemmas.

(** X13: the converter run after the writer.  When every chapter of the
    outline has a number in decimal digits and a title without line
    feed and carriage return, neither being empty, then after a run of
    write.py that ended outside the writes to book.txt (it returned,
    it left through sys.exit, or it died of an exception the client
    raised on an answer), convert.py either finds no book.txt (no
    chapter was written), raises FileNotFoundError and changes
    nothing, or writes to output.txt, for each chapter written, the
    command with its title between two pairs of line feeds, followed by
    the converted body, and changes no other file.  A run of write.py
    that dies inside a write is not covered. *)
Theorem write_then_convert :
  forall (L : Library) (w : World) (book_summary : string) (table : list (list string)),
    Inputs.summary w = Some book_summary -> book_summary <> "" ->
    Inputs.rows w = Some table ->
    Forall Pipeline.plain (Write.chapters_of_rows table) ->
    Ending.outside_writes w (Write.main w).1 (Write.main w).2 ->
    exists entries,
      map fst entries = take (length entries) (Write.chapters_of_rows table) /\
      ((Write.main w).1 = Ok tt -> length entries = length (Write.chapters_of_rows table)) /\
      match entries with
      | [] =>
          fs (Write.main w).2 !! "book.txt" = None /\
          Convert.convert (Write.main w).2 = (Raise FileNotFoundError, (Write.main w).2)
      | _ =>
          fs (Write.main w).2 !! "book.txt" = Some (Run.blocks entries) /\
          Convert.convert (Write.main w).2
          = (Ok tt,
             with_fs (<["output.txt" := Text.concat (map Pipeline.latex_block entries)]>
                        (fs (Write.main w).2)) (Write.main w).2)
      end.
Proof.
  intros L w bs table Hs Hne Hr Hplain _.
  destruct (main_prefix w bs table Hs Hne Hr) as (entries & Hm & Hfs & _ & Hok).
  exists entries. split; [exact Hm|]. split; [exact Hok|].
  assert (Hbook : fs (Write.main w).2 !! "book.txt"
                  = match entries with [] => None | _ => Some (Run.blocks entries) end).
  { rewrite Hfs. apply wrote_lookup_book, archived_book. }
  assert (Hp : Forall Pipeline.plain (map fst entries)).
  { rewrite Hm. now apply Forall_take. }
  rewrite convert_run, Hbook.
  destruct entries as [|e entries]; [now split|].
  split; [reflexivity|]. now rewrite (convert_blocks _ Hp).
Qed.

Lemma write_then_convert_witness :
  exists entries,
    map fst entries = take (length entries) (Write.chapters_of_rows Example.table) /\
    ((@Write.main cpython Example.fresh).1 = Ok tt ->
     length entries = length (Write.chapters_of_rows Example.table)) /\
    match entries with
    | [] =>
        fs (@Write.main cpython Example.fresh).2 !! "book.txt" = None /\
        Convert.convert (@Write.main cpython Example.fresh).2
        = (Raise FileNotFoundError, (@Write.main cpython Example.fresh).2)
    | _ =>
        fs (@Write.main cpython Example.fresh).2 !! "book.txt" = Some (Run.blocks entries) /\
        Convert.convert (@Write.main cpython Example.fresh).2
        = (Ok tt,
           with_fs (<["output.txt" := Text.concat (map Pipeline.latex_block entries)]>
                      (fs (@Write.main cpython Example.fresh).2))
             (@Write.main cpython Example.fresh).2)
    end.
Proof.
  apply (write_then_convert cpython Example.fresh "A tale of two storms." Example.table).
  - vm_compute. reflexivity.
  - discriminate.
  - vm_compute. reflexivity.
  - repeat constructor.
  - left. vm_compute. reflexivity.
Defined.

(** The two scripts run one after the other on [Example.fresh]. *)
Example fresh_run_converted :
  fs (Convert.convert (@Write.main cpython Example.fresh).2).2 !! "output.txt"
  = Some (nl +:+ nl +:+ "\chapter{Dawn}" +:+ nl +:+ nl +:+
          "Once upon a time it rained." +:+ nl +:+
          nl +:+ nl +:+ "\chapter{Dusk}" +:+ nl +:+ nl +:+
          "Once upon a time it rained." +:+ nl).
Proof. vm_compute. reflexivity. Qed.

(** ** The order of the requests *)

Section OrderLemmas.
Context `{Library}.
Import Write Run Order.

Lemma kept_here {A : Type} (a : outcome A) w : kept w a w.
Proof.
  split; [reflexivity|]. split; [exists []; now rewrite app_nil_r|].
  intros history prompt later E Hlen. apply (f_equal length) in E.
  rewrite length_app in E. cbn in E. lia.
Qed.

Lemma kept_world {A : Type} w1 w2 (out : outcome A) w' :
  endpoint w1 = endpoint w2 -> sent w1 = sent w2 ->
  kept w1 out w' -> kept w2 out w'.
Proof.
  intros He Hs (He' & Hs' & Hlog). unfold kept. rewrite <- He, <- Hs.
  split; [assumption|]. split; [assumption|].
  intros history prompt later E Hlen Hc.
  rewrite <- (answer_endpoint w1 w2) by assumption. now apply (Hlog _ _ later).
Qed.

Lemma kept_seq {A B : Type} w (a : A) w1 (out : outcome B) w' :
  kept w (Ok a) w1 -> kept w1 out w' -> kept w out w'.
Proof.
  intros (He1 & [e1 Hs1] & Hlog1) (He2 & [e2 Hs2] & Hlog2).
  split; [congruence|]. split; [exists (e1 ++ e2); rewrite Hs2, Hs1; now rewrite app_assoc|].
  intros history prompt later E Hlen Hc.
  destruct (Nat.lt_ge_cases (length history) (length (sent w1))) as [Hlt | Hge].
  - rewrite Hs2 in E. destruct (app_cut _ _ _ _ _ E Hlt) as [later1 E1].
    apply (Hlog1 _ _ later1 E1 Hlen). now right.
  - rewrite <- (answer_endpoint w1 w) by assumption. now apply (Hlog2 _ _ later).
Qed.

(** A piece that fails ends what it is part of. *)
Lemma kept_fail {A B : Type} w (out : outcome A) (out' : outcome B) w1 :
  is_ok out = false -> is_ok out' = false -> kept w out w1 -> kept w out' w1.
Proof.
  intros Ho Ho' (He & Hs & Hlog). split; [assumption|]. split; [assumption|].
  intros history prompt later E Hlen [Hl | Hok]; [|congruence].
  apply (Hlog _ _ later E Hlen). now left.
Qed.

Lemma kept_call prompt w :
  kept w (answer w (sent w) prompt) (posted prompt w).
Proof.
  split; [reflexivity|]. split; [now exists [prompt]|].
  intros history p later E Hlen Hc. cbn in E.
  assert (history = sent w /\ p = prompt /\ later = []) as (-> & -> & ->).
  { apply (f_equal length) in E as El. rewrite !length_app in El. cbn in El.
    assert (later = []) as -> by (destruct later; [reflexivity | cbn in El; lia]).
    apply app_inj_tail in E. now destruct E. }
  now destruct Hc.
Qed.

Lemma kept_and_then {B : Type} prompt w (k : string -> outcome B * World) :
  (forall a, kept (posted prompt w) (k a).1 (k a).2) ->
  kept w (and_then (answer w (sent w) prompt) (posted prompt w) k).1
         (and_then (answer w (sent w) prompt) (posted prompt w) k).2.
Proof.
  intros Hk. pose proof (kept_call prompt w) as Hc.
  destruct (answer w (sent w) prompt) as [a| |] eqn:Ea; cbn [and_then fst snd].
  - eapply kept_seq; [exact Hc | apply Hk].
  - refine (kept_fail _ _ _ _ _ _ Hc); reflexivity.
  - refine (kept_fail _ _ _ _ _ _ Hc); reflexivity.
Qed.

Lemma kept_write_one bs total j ch w :
  kept w (write_one bs total j ch w).1 (write_one bs total j ch w).2.
Proof.
  destruct ch as [[n t] o]. rewrite write_one_run. cbv zeta.
  apply kept_and_then. intros body.
  set (w1 := appended _ _).
  apply (kept_world w1); [reflexivity | reflexivity |].
  apply kept_and_then. intros r.
  destruct (S j <? total); [|apply kept_here].
  apply kept_and_then. intros ack. apply kept_here.
Qed.

Lemma kept_write_chapters bs total : forall chs j w,
  kept w (write_chapters bs total j chs w).1 (write_chapters bs total j chs w).2.
Proof.
  induction chs as [|ch chs IH]; intros j w; [apply kept_here|].
  cbn [write_chapters]. unfold bind.
  pose proof (kept_write_one bs total j ch w) as H1.
  destruct (write_one bs total j ch w) as [[j1| |] w1]; cbn [fst snd] in *.
  - eapply kept_seq; [exact H1 | apply IH].
  - refine (kept_fail _ _ _ _ _ _ H1); reflexivity.
  - refine (kept_fail _ _ _ _ _ _ H1); reflexivity.
Qed.

Lemma kept_main w : kept w (main w).1 (main w).2.
Proof.
  apply (kept_world (archived w)); [apply archived_frame | apply archived_frame |].
  rewrite main_run. cbv zeta.
  destruct (fs w !! "input.txt") as [text|]; [|apply kept_here].
  destruct (is_empty _); [apply kept_here|].
  destruct (fs w !! "outline.txt") as [outline|]; [|apply kept_here].
  destruct (csv_reader _) as [rows|]; [|apply kept_here].
  destruct (bool_decide _); [apply kept_here|].
  pose proof (kept_write_chapters (strip (universal_newlines text))
                (length (chapters_of_rows rows)) (chapters_of_rows rows) 0 (archived w)) as H1.
  destruct (write_chapters _ _ _ _ (archived w)) as [[j1| |] w1]; cbn [fst snd] in *.
  - eapply kept_seq; [exact H1|].
    destruct (fs w1 !! "book.txt") as [text'|]; [|apply kept_here].
    apply kept_and_then. intros r. apply kept_here.
  - refine (kept_fail _ _ _ _ _ _ H1); reflexivity.
  - refine (kept_fail _ _ _ _ _ _ H1); reflexivity.
Qed.

End OrderLemmas.

(** X14: nothing is posted after a request that failed.  The client
    could read the answer to every request of the run that is not the
    last one, and to the last one too when the run returned; so a
    request whose answer the client could not read (refused, or ending
    in an exception) is the last request of the log, and the run did
    not return. *)
Theorem failed_request_is_last :
  forall (L : Library) (w : World) (history : list string) (prompt : string)
         (later : list string),
    sent (Write.main w).2 = history ++ prompt :: later ->
    length (sent w) <= length history ->
    (later <> [] \/ (Write.main w).1 = Ok tt ->
     exists text, Run.answer w history prompt = Ok text)
    /\ ((forall text, Run.answer w history prompt <> Ok text) ->
        later = [] /\ (Write.main w).1 <> Ok tt).
Proof.
  intros L w history prompt later E Hlen.
  destruct (kept_main w) as (_ & _ & Hkept).
  specialize (Hkept _ _ _ E Hlen).
  assert (Hok : later <> [] \/ (Write.main w).1 = Ok tt ->
                exists text, Run.answer w history prompt = Ok text).
  { intros Hc.
    assert (Hk : Order.is_ok (Run.answer w history prompt) = true).
    { apply Hkept. destruct Hc as [Hl | Hm]; [left; exact Hl|].
      right. rewrite Hm. reflexivity. }
    destruct (Run.answer w history prompt) as [text| |];
      [now exists text | discriminate | discriminate]. }
  split; [exact Hok|].
  intros Hno. split.
  - destruct later as [|p later]; [reflexivity|].
    assert (Hne : p :: later <> []) by discriminate.
    destruct (Hok (or_introl Hne)) as [text Ht]. destruct (Hno text Ht).
  - intros Hm. destruct (Hok (or_intror Hm)) as [text Ht]. destruct (Hno text Ht).
Qed.

Lemma failed_request_is_last_witness :
  (@nil string <> [] \/ (@Write.main cpython Sample.interrupted).1 = Ok tt ->
   exists text,
     @Run.answer cpython Sample.interrupted
       (take 3 (sent (@Write.main cpython Sample.interrupted).2))
       (nth 3 (sent (@Write.main cpython Sample.interrupted).2) "") = Ok text)
  /\ ((forall text,
         @Run.answer cpython Sample.interrupted
           (take 3 (sent (@Write.main cpython Sample.interrupted).2))
           (nth 3 (sent (@Write.main cpython Sample.interrupted).2) "") <> Ok text) ->
      @nil string = [] /\ (@Write.main cpython Sample.interrupted).1 <> Ok tt).
Proof.
  apply (failed_request_is_last cpython Sample.interrupted).
  - vm_compute. reflexivity.
  - vm_compute. lia.
Defined.

(** In the run of [Sample.interrupted] the fourth request is refused,
    and it is the last of the log. *)
Example interrupted_log :
  length (sent (@Write.main cpython Sample.interrupted).2) = 4 /\
  @Run.answer cpython Sample.interrupted
    (take 3 (sent (@Write.main cpython Sample.interrupted).2))
    (nth 3 (sent (@Write.main cpython Sample.interrupted).2) "") = Exit 1.
Proof. vm_compute. split; reflexivity. Qed.

Section CountLemmas.
Context `{Library}.
Import Write Run.

Lemma filter_chars_append p a b :
  filter_chars p (a +:+ b) = filter_chars p a +:+ filter_chars p b.
Proof.
  induction a as [|c a IH]; [reflexivity|].
  rewrite append_cons. cbn [filter_chars].
  destruct (p c); [rewrite append_cons|]; now rewrite IH.
Qed.

Lemma decimal_value_append s : forall acc t,
  decimal_value acc (s +:+ t) = decimal_value (decimal_value acc s) t.
Proof.
  induction s as [|c s IH]; intros acc t; [reflexivity|].
  rewrite append_cons. cbn [decimal_value]. apply IH.
Qed.

Lemma decimal_value_shift s : forall acc,
  decimal_value acc s
  = (acc * 10 ^ Z.of_nat (String.length s) + decimal_value 0 s)%Z.
Proof.
  induction s as [|c s IH]; intros acc.
  - cbn. lia.
  - cbn [decimal_value String.length]. rewrite (IH (10 * acc + digit_value c)%Z).
    rewrite (IH (10 * 0 + digit_value c)%Z).
    rewrite Nat2Z.inj_succ, Z.pow_succ_r by lia. lia.
Qed.

Lemma digit_value_range c : isdecimal c = true -> (0 <= digit_value c <= 9)%Z.
Proof.
  unfold isdecimal, between, digit_value.
  intros [H1 H2]%andb_true_iff. apply Nat.leb_le in H1, H2. lia.
Qed.

Lemma decimal_value_nonneg s : forall acc,
  all_chars isdecimal s = true -> (0 <= acc)%Z -> (0 <= decimal_value acc s)%Z.
Proof.
  induction s as [|c s IH]; intros acc Hs Hacc; [exact Hacc|].
  cbn [all_chars] in Hs. apply andb_true_iff in Hs as [Hc Hs].
  cbn [decimal_value]. apply IH; [exact Hs|].
  pose proof (digit_value_range c Hc). lia.
Qed.

Lemma py_int_decimal s :
  is_empty s = false -> all_chars isdecimal s = true ->
  (int_max_str_digits = 0 \/ N.of_nat (String.length s) <= int_max_str_digits)%N ->
  py_int s = Some (decimal_value 0 s).
Proof.
  intros Hs Hd Hlim. unfold py_int. rewrite Hs, Hd. cbn [negb].
  destruct Hlim as [-> | Hle]; [reflexivity|].
  replace (int_max_str_digits <? N.of_nat (String.length s))%N with false
    by (symmetry; now apply N.ltb_ge).
  now rewrite andb_false_r.
Qed.

Lemma py_int_not_decimal s : all_chars isdecimal s = false -> py_int s = None.
Proof.
  intros Hd. unfold py_int. rewrite Hd. cbn [negb]. now destruct (is_empty s).
Qed.

Lemma py_int_too_long s :
  (0 < int_max_str_digits < N.of_nat (String.length s))%N -> py_int s = None.
Proof.
  intros [H0 Hl]. unfold py_int.
  destruct (is_empty s); [reflexivity|].
  destruct (negb (all_chars isdecimal s)); [reflexivity|].
  apply N.ltb_lt in H0, Hl. now rewrite H0, Hl.
Qed.

Lemma count_words_ok text w w' r :
  call_ollama_api (count_prompt text) w = (Ok r, w') ->
  count_words_with_ollama text w
  = (Ok (match py_int (filter_chars isdigit r) with
         | Some word_count => word_count
         | None => 0%Z
         end), w').
Proof.
  intros Hcall. rewrite count_words_run. rewrite call_ollama_api_run in Hcall.
  injection Hcall as -> <-. reflexivity.
Qed.

End CountLemmas.

Section CountCases.
Context `{Library}.
Import Write Run.

Lemma filter_chars_all p q s :
  all_chars q (filter_chars p s) = true ->
  forall a c b, s = a +:+ String c b -> p c = true -> q c = true.
Proof.
  intros Hall a. revert s Hall. induction a as [|x a IH]; intros s Hall c b -> Hp.
  - rewrite append_nil_l in Hall. cbn [filter_chars] in Hall. rewrite Hp in Hall.
    cbn [all_chars] in Hall. now apply andb_true_iff in Hall as [Hq _].
  - rewrite append_cons in Hall. cbn [filter_chars] in Hall.
    destruct (p x).
    + cbn [all_chars] in Hall. apply andb_true_iff in Hall as [_ Hall].
      now apply (IH _ Hall c b).
    + now apply (IH _ Hall c b).
Qed.

End CountCases.

(** X15: the digits of an answer are read as one number.  When the
    answer holds a digit, no superscript digit, and no more digits than
    int accepts, the count is the number written by all its digits in
    a row: for an answer in two parts, the number of the digits of the
    first part shifted by the number of digits of the second, plus the
    number of the second.  The count is never negative. *)
Theorem word_count_joins_numbers :
  forall (L : Library) (text : string) (w w' : World) (a b : string),
    Write.call_ollama_api (Write.count_prompt text) w = (Ok (a +:+ b), w') ->
    is_empty (filter_chars isdigit (a +:+ b)) = false ->
    all_chars isdecimal (filter_chars isdigit (a +:+ b)) = true ->
    (int_max_str_digits = 0
     \/ N.of_nat (String.length (filter_chars isdigit (a +:+ b))) <= int_max_str_digits)%N ->
    exists word_count,
      Write.count_words_with_ollama text w = (Ok word_count, w') /\
      word_count
      = (decimal_value 0 (filter_chars isdigit a)
         * 10 ^ Z.of_nat (String.length (filter_chars isdigit b))
         + decimal_value 0 (filter_chars isdigit b))%Z /\
      (0 <= word_count)%Z.
Proof.
  intros L text w w' a b Hcall Hne Hd Hlim.
  exists (decimal_value 0 (filter_chars isdigit (a +:+ b))).
  split; [|split].
  - rewrite (count_words_ok _ _ _ _ Hcall). now rewrite py_int_decimal.
  - rewrite filter_chars_append, decimal_value_append. apply decimal_value_shift.
  - apply decimal_value_nonneg; [exact Hd | lia].
Qed.

Lemma word_count_joins_numbers_witness :
  exists word_count,
    @Write.count_words_with_ollama cpython "One two." (Counts.answering "12 words in 3 lines")
    = (Ok word_count,
       Run.posted (Write.count_prompt "One two.") (Counts.answering "12 words in 3 lines")) /\
    word_count
    = (decimal_value 0 (filter_chars isdigit "12 words in ")
       * 10 ^ Z.of_nat (String.length (filter_chars isdigit "3 lines"))
       + decimal_value 0 (filter_chars isdigit "3 lines"))%Z /\
    (0 <= word_count)%Z.
Proof.
  apply (word_count_joins_numbers cpython "One two." (Counts.answering "12 words in 3 lines")
           _ "12 words in " "3 lines").
  - vm_compute. reflexivity.
  - reflexivity.
  - reflexivity.
  - right. vm_compute. discriminate.
Defined.

(** The answer [12 words in 3 lines] counts as 123. *)
Example two_numbers_in_an_answer :
  (@Write.count_words_with_ollama cpython "One two."
     (Counts.answering "12 words in 3 lines")).1 = Ok 123%Z.
Proof. vm_compute. reflexivity. Qed.

(** X16: answers with digits that count as 0.  When the answer holds a
    character that str.isdigit accepts and that is no decimal digit (a
    superscript digit), or more digits than int accepts, int raises
    ValueError and the count is 0, whatever the other digits. *)
Theorem word_count_zero_despite_digits :
  forall (L : Library) (text : string) (w w' : World) (generated_response : string),
    Write.call_ollama_api (Write.count_prompt text) w = (Ok generated_response, w') ->
    (exists a c b,
       generated_response = a +:+ String c b /\ isdigit c = true /\ isdecimal c = false)
    \/ (0 < int_max_str_digits
          < N.of_nat (String.length (filter_chars isdigit generated_response)))%N ->
    Write.count_words_with_ollama text w = (Ok 0%Z, w').
Proof.
  intros L text w w' r Hcall Hcase. rewrite (count_words_ok _ _ _ _ Hcall).
  destruct Hcase as [(a & c & b & Hr & Hdigit & Hdec) | Hlong].
  - rewrite py_int_not_decimal; [reflexivity|].
    destruct (all_chars isdecimal (filter_chars isdigit r)) eqn:E; [|reflexivity].
    pose proof (filter_chars_all _ _ _ E a c b Hr Hdigit). congruence.
  - now rewrite py_int_too_long.
Qed.

Lemma word_count_zero_despite_digits_witness :
  @Write.count_words_with_ollama cpython "One two."
    (Counts.answering ("about 4" +:+ String Counts.superscript_two " words"))
  = (Ok 0%Z,
     Run.posted (Write.count_prompt "One two.")
       (Counts.answering ("about 4" +:+ String Counts.superscript_two " words"))).
Proof.
  apply (word_count_zero_despite_digits cpython "One two." _ _
           ("about 4" +:+ String Counts.superscript_two " words")).
  - vm_compute. reflexivity.
  - left. exists "about 4", Counts.superscript_two, " words".
    split; [reflexivity|]. split; reflexivity.
Defined.
